(** * LST-Net CIFAR training driver: a shallow embedding of [cifar/main_cifar.py]

    The development follows the source file function by function:
    [save_checkpoint], [AverageMeter], [fix_learning_rate],
    [adjust_learning_rate], [accuracy], the resume, epoch-loop and checkpoint
    part of [main], and the passes [train] and [validate] over a data
    loader.

    Python values are modelled as the program has them: [int] as [Z], [float]
    as IEEE 754 binary64 ([PrimFloat.float]), [str] as [string], dictionaries
    as [gmap], the output directory as a finite map from paths to files.
    Code that works on whatever number it is given (the meters, the accuracy
    percentages, the comparison of validation metrics) is written over the
    interfaces [PyNum] and [PyOrd]; binary64, the exact rationals and
    one-element tensors are instances, Python numbers and tensors differing
    in what a division by zero does.  Effects are explicit: a function of the source that writes
    files, prints or assigns globals is a function on a world that returns an
    [outcome]; a [while] loop takes fuel.

    Calls into PyTorch and the operating system are modelled by their
    documented behaviour and named after the call ([torch_save],
    [shutil_copyfile], [os_path_join], [topk_indices], ...).  Tensors are
    modelled by their values; their memory layout and element type are not.
    The definitions come first, the properties after them. *)

From Stdlib Require Import ZArith List Lia Bool Ascii String Floats QArith Qcanon.
From stdpp Require Import gmap strings pretty sorting.

Set Warnings "-inexact-float".
Local Open Scope Z_scope.

(** ** Python runtime: exceptions, outcomes, loops *)

Module Py.

(** The exceptions the modelled code can raise. *)
Inductive exn : Type :=
| ZeroDivisionError
| ValueError
| RuntimeError
| SameFileError
| FileNotFoundError
| UnpicklingError.

(** What running a piece of code on a world [W] gives: a value and the new
    world, an exception (the effects made before it stay), or [Running] when
    the fuel of a [while] loop ran out before the code finished. *)
Inductive outcome (W A : Type) : Type :=
| Returns (a : A) (w : W)
| Raises (e : exn) (w : W)
| Running.
Arguments Returns {W A} a w.
Arguments Raises {W A} e w.
Arguments Running {W A}.

Definition M (W A : Type) : Type := W -> outcome W A.

Definition ret {W A} (a : A) : M W A := fun w => Returns a w.
Definition raise {W A} (e : exn) : M W A := fun w => Raises e w.
Definition bind {W A B} (m : M W A) (k : A -> M W B) : M W B :=
  fun w =>
    match m w with
    | Returns a w' => k a w'
    | Raises e w' => Raises e w'
    | Running => Running
    end.
Definition get {W} : M W W := fun w => Returns w w.
Definition modify {W} (f : W -> W) : M W unit := fun w => Returns tt (f w).

(** How one iteration of a [while True:] body ends: by [break] or by falling
    through to the next iteration, with the loop's local variables [S]. *)
Inductive ctl (S : Type) : Type :=
| Break (s : S)
| Continue (s : S).
Arguments Break {S} s.
Arguments Continue {S} s.

(** [while True: body], run for at most [fuel] iterations. *)
Fixpoint while_true {W S} (fuel : nat) (body : S -> M W (ctl S)) (s : S)
  : M W S :=
  fun w =>
    match fuel with
    | O => Running
    | Datatypes.S n =>
        match body s w with
        | Returns (Break s') w' => Returns s' w'
        | Returns (Continue s') w' => while_true n body s' w'
        | Raises e w' => Raises e w'
        | Running => Running
        end
    end.

(** [range(a, b)] as the list of integers it yields. *)
Definition range (a b : Z) : list Z :=
  map (fun k => a + Z.of_nat k) (seq 0 (Z.to_nat (b - a))).

(** ['%d' % i]. *)
Definition fmt_d (i : Z) : string := pretty i.

(** [s.endswith('/')]. *)
Fixpoint endswith_sep (s : string) : bool :=
  match s with
  | EmptyString => false
  | String c EmptyString => if decide (c = "/"%char) then true else false
  | String _ s' => endswith_sep s'
  end.

(** [b.startswith('/')]. *)
Definition startswith_sep (b : string) : bool :=
  match b with
  | String c _ => if decide (c = "/"%char) then true else false
  | EmptyString => false
  end.

(** [os.path.join(a, b)] (posixpath, two components). *)
Definition os_path_join (a b : string) : string :=
  if startswith_sep b then b
  else if decide (a = "") then a +:+ b
  else if endswith_sep a then a +:+ b
  else a +:+ "/" +:+ b.

End Py.

Import Py.

Declare Scope py_scope.
Delimit Scope py_scope with py.
Notation "'let*' x ':=' m 'in' k" := (Py.bind m (fun x => k))
  (at level 10, x name, m at level 100, k at level 200) : py_scope.
Notation "m ';;' k" := (Py.bind m (fun _ => k))
  (at level 100, k at level 200, right associativity) : py_scope.

(** ** Runs of a [while True:] loop

    [while_ends body s w o]: the loop started with locals [s] on world [w]
    ends with outcome [o], by a [break] or by an exception, after finitely
    many iterations.  A loop that has no such run never ends. *)
Inductive while_ends {W S} (body : S -> M W (ctl S))
  : S -> W -> outcome W S -> Prop :=
| ends_break s w s' w' :
    body s w = Returns (Break s') w' ->
    while_ends body s w (Returns s' w')
| ends_raise s w e w' :
    body s w = Raises e w' ->
    while_ends body s w (Raises e w')
| ends_continue s w s1 w1 o :
    body s w = Returns (Continue s1) w1 ->
    while_ends body s1 w1 o ->
    while_ends body s w o.

(** ** Checkpoint files and the output directory *)

Section Checkpoint.

(** The metric type [V] and the opaque model and optimizer states are the
    caller's. *)
Context {V ModelState OptimState : Type}.

(** The dictionary [main] hands to [save_checkpoint]:
    [{'epoch', 'arch', 'state_dict', 'best_prec1', 'optimizer'}]. *)
Record checkpoint : Type := Checkpoint {
  ckpt_epoch : Z;
  ckpt_arch : string;
  ckpt_state_dict : ModelState;
  ckpt_best_prec1 : V;
  ckpt_optimizer : OptimState
}.

(** A regular file: a record written by [torch.save], or anything else. *)
Inductive file : Type :=
| Pickled (c : checkpoint)
| Other (text : string).

(** The directory tree: the regular files by path.  Paths are compared as
    strings; directories, links and permissions are left out. *)
Definition os_path_exists (p : string) : M (gmap string file) bool :=
  fun fs => Returns (bool_decide (is_Some (fs !! p))) fs.

Definition os_path_isfile (p : string) : M (gmap string file) bool :=
  os_path_exists p.

(** [torch.save(state, path)]: creates or overwrites [path].  The directory
    of [path] is taken to exist and to be writable ([main] creates the output
    directory before it saves anything); where it is not, [torch.save]
    raises and nothing of what follows it in [save_checkpoint] is run. *)
Definition torch_save (state : checkpoint) (p : string)
  : M (gmap string file) unit :=
  modify (fun fs => <[p := Pickled state]> fs).

(** [torch.load(path)]. *)
Definition torch_load (p : string) : M (gmap string file) checkpoint :=
  fun fs =>
    match fs !! p with
    | Some (Pickled c) => Returns c fs
    | Some (Other _) => Raises UnpicklingError fs
    | None => Raises FileNotFoundError fs
    end.

(** [shutil.copyfile(src, dst)]: creates or overwrites [dst] with the
    contents of [src]. *)
Definition shutil_copyfile (src dst : string) : M (gmap string file) unit :=
  fun fs =>
    match fs !! src with
    | None => Raises FileNotFoundError fs
    | Some f =>
        if decide (src = dst) then Raises SameFileError fs
        else Returns tt (<[dst := f]> fs)
    end.

Definition default_filename : string := "checkpoint.pth.tar".
Definition best_filename : string := "model_best.pth.tar".

(** ['model_must_save_%d.pth.tar' % i] *)
Definition must_save_filename (i : Z) : string :=
  "model_must_save_" +:+ fmt_d i +:+ ".pth.tar".

(** One iteration of the [while True:] of [save_checkpoint].  The local [i]
    is unbound before the loop ([None]); the body's first statement is
    [i = 0], so the value [i] had at the end of the previous iteration is
    not read. *)
Definition must_save_body (output_dir filename : string) (_ : option Z)
  : M (gmap string file) (ctl (option Z)) :=
  (let i := 0 in
   let* found := os_path_exists
                   (os_path_join output_dir (must_save_filename i)) in
   if negb found then
     shutil_copyfile (os_path_join output_dir filename)
                     (os_path_join output_dir (must_save_filename i)) ;;
     ret (Break (Some i))
   else
     let i := i + 1 in
     ret (Continue (Some i)))%py.

(** [save_checkpoint(state, is_best, output_dir, filename, must_save)];
    [fuel] bounds the iterations of its [while True:]. *)
Definition save_checkpoint (fuel : nat) (state : checkpoint) (is_best : bool)
    (output_dir filename : string) (must_save : bool)
  : M (gmap string file) unit :=
  (torch_save state (os_path_join output_dir filename) ;;
   (if is_best then
      shutil_copyfile (os_path_join output_dir filename)
                      (os_path_join output_dir best_filename)
    else ret tt) ;;
   if must_save then
     let* _ := while_true fuel (must_save_body output_dir filename) None in
     ret tt
   else ret tt)%py.

(** The directory after the two unconditional steps of [save_checkpoint]
    with the default [filename]: the latest slot, and the best slot when
    [is_best]. *)
Definition after_latest_and_best (state : checkpoint) (is_best : bool)
    (output_dir : string) (fs : gmap string file) : gmap string file :=
  let fs1 := <[os_path_join output_dir default_filename := Pickled state]> fs in
  if is_best then <[os_path_join output_dir best_filename := Pickled state]> fs1
  else fs1.

End Checkpoint.

Arguments checkpoint : clear implicits.
Arguments file : clear implicits.

(** ** Python numbers and tensors

    The meters and the accuracy function work on whatever values they are
    given: Python numbers ([int], [float]: the losses, the clock readings)
    and tensors holding one number ([prec1[0]]).  The weight and the count
    are [int] throughout the program ([input.size(0)], or the default [1]).
    [PyNum] is the part of the number protocol the code uses, common to
    both: sums, products with an [int], and true division by an [int], which
    gives a value whenever the divisor is not [0].

    Division by [0] is where they differ.  A Python number raises
    [ZeroDivisionError] ([PyScalar]); a tensor raises nothing and holds
    [nan] or [inf] ([PyTensor]). *)

Class PyNum (V : Type) : Type := {
  of_int : Z -> V;
  add : V -> V -> V;
  mul_int : V -> Z -> V;
  div_int : V -> Z -> option V;
  div_int_nonzero : forall v n, n <> 0 -> div_int v n <> None
}.

(** Python's [int] and [float]: [x / 0] raises. *)
Class PyScalar (V : Type) `{PyNum V} : Type := {
  div_int_zero : forall v : V, div_int v 0 = None
}.

(** Tensors: [x / 0] is a tensor. *)
Class PyTensor (V : Type) `{PyNum V} : Type := {
  div_tensor_zero : forall v : V, div_int v 0 <> None
}.

(** [float(n)] for an [int] within the binary64 range: the nearest float,
    ties to even.  (Beyond the range CPython raises [OverflowError]; this
    function gives an infinity there.) *)
Definition float_of_int (n : Z) : float :=
  SF2Prim (SpecFloat.binary_normalize FloatOps.prec FloatOps.emax n 0 false).

(** Python [float]: IEEE 754 binary64. *)
#[export] Program Instance float_PyNum : PyNum float := {|
  of_int := float_of_int;
  add := PrimFloat.add;
  mul_int := fun v n => PrimFloat.mul v (float_of_int n);
  div_int := fun v n =>
    if decide (n = 0) then None else Some (PrimFloat.div v (float_of_int n))
|}.
Next Obligation. intros v n Hn. simpl. by rewrite decide_False. Qed.

#[export] Instance float_PyScalar : PyScalar float.
Proof. split. intros v. reflexivity. Qed.

(** Exact arithmetic on rationals: the same operations without rounding. *)
#[export] Program Instance Qc_PyNum : PyNum Qc := {|
  of_int := fun n => Qc_of_Z n;
  add := Qcplus;
  mul_int := fun v n => Qcmult v (Qc_of_Z n);
  div_int := fun v n =>
    if decide (n = 0) then None else Some (Qcdiv v (Qc_of_Z n))
|}.
Next Obligation. intros v n Hn. simpl. by rewrite decide_False. Qed.

#[export] Instance Qc_PyScalar : PyScalar Qc.
Proof. split. intros v. reflexivity. Qed.

(** A tensor that holds one float, as [prec1[0]] and the [sum] and [avg] of
    a meter fed with it.  Its arithmetic with an [int] is that of IEEE 754,
    division by zero included.  (The element type of the program's tensors
    is float32; binary64 stands in for it here.) *)
Record tensor0 : Type := Tensor0 { item : float }.

#[export] Program Instance tensor0_PyNum : PyNum tensor0 := {|
  of_int := fun n => Tensor0 (float_of_int n);
  add := fun a b => Tensor0 (PrimFloat.add (item a) (item b));
  mul_int := fun v n => Tensor0 (PrimFloat.mul (item v) (float_of_int n));
  div_int := fun v n => Some (Tensor0 (PrimFloat.div (item v) (float_of_int n)))
|}.
Next Obligation. intros v n Hn. discriminate. Qed.

#[export] Instance tensor0_PyTensor : PyTensor tensor0.
Proof. split. intros v. discriminate. Qed.

(** The order the driver uses on validation metrics ([>] and [max]).  The
    metric is a mean of percentages, a number that is never a NaN: [py_gt] is
    a strict weak order. *)
Class PyOrd (V : Type) : Type := {
  py_gt : V -> V -> bool;
  py_gt_irrefl : forall x, py_gt x x = false;
  py_gt_trans : forall x y z,
    py_gt x y = true -> py_gt y z = true -> py_gt x z = true;
  py_gt_cotrans : forall x y z,
    py_gt x z = true -> py_gt x y = true \/ py_gt y z = true
}.

(** [a <= b] as [not (a > b)]. *)
Definition py_le {V} `{PyOrd V} (a b : V) : bool := negb (py_gt a b).

(** Python's [max(a, b)]: the first argument unless the second is greater. *)
Definition py_max {V} `{PyOrd V} (a b : V) : V := if py_gt b a then b else a.

#[export] Program Instance Qc_PyOrd : PyOrd Qc := {|
  py_gt := fun x y => bool_decide (y < x)%Qc
|}.
Next Obligation.
  intros x. apply bool_decide_eq_false_2.
  intros Hx. by destruct (Qclt_not_eq x x).
Qed.
Next Obligation.
  intros x y z Hxy%bool_decide_eq_true_1 Hyz%bool_decide_eq_true_1.
  apply bool_decide_eq_true_2. by eapply Qclt_trans.
Qed.
Next Obligation.
  intros x y z Hxz%bool_decide_eq_true_1.
  destruct (Qclt_le_dec y x) as [Hlt|Hle].
  - left. by apply bool_decide_eq_true_2.
  - right. apply bool_decide_eq_true_2. by eapply Qclt_le_trans.
Qed.

(** ** [AverageMeter] *)

Module AverageMeter.
Section Meter.

Context {V : Type} `{PyNum V}.

(** The object's attributes. *)
Record t : Type := Make { val : V; avg : V; sum : V; count : Z }.

(** The attribute values [reset] stores. *)
Definition zeroed : t :=
  {| val := of_int 0; avg := of_int 0; sum := of_int 0; count := 0 |}.

(** [reset(self)] *)
Definition reset : M t unit := modify (fun _ => zeroed).

(** [AverageMeter()]: [__init__] calls [reset]. *)
Definition init : t := zeroed.

(** [update(self, val, n)].  The first three assignments are made before the
    division is evaluated: when it raises, [val], [sum] and [count] hold
    their new values and [avg] its old one. *)
Definition update (v : V) (n : Z) : M t unit :=
  (modify (fun self => Make v (avg self) (sum self) (count self)) ;;
   modify (fun self =>
     Make (val self) (avg self) (add (sum self) (mul_int v n)) (count self)) ;;
   modify (fun self =>
     Make (val self) (avg self) (sum self) (count self + n)) ;;
   let* self := get in
   match div_int (sum self) (count self) with
   | Some q => modify (fun self => Make (val self) q (sum self) (count self))
   | None => raise ZeroDivisionError
   end)%py.

(** A sequence of [update(val, n)] calls. *)
Fixpoint updates (calls : list (V * Z)) : M t unit :=
  match calls with
  | [] => ret tt
  | (v, n) :: rest => (update v n ;; updates rest)%py
  end.

(** The states a run can observe: the program handles no exception, so only
    calls that return continue it. *)
Inductive reachable : t -> Prop :=
| reachable_reset : reachable zeroed
| reachable_update self v n self' :
    reachable self -> update v n self = Returns tt self' -> reachable self'.

(** The sums the mean is specified by: [sum(value_i * weight_i)] and
    [sum(weight_i)], accumulated from [0] in call order. *)
Definition weighted_sum (calls : list (V * Z)) : V :=
  fold_left (fun acc c => add acc (mul_int (fst c) (snd c))) calls (of_int 0).

Definition total_weight (calls : list (V * Z)) : Z :=
  fold_left (fun acc c => acc + snd c) calls 0.

End Meter.
Arguments t : clear implicits.
End AverageMeter.

(** ** The optimizer and the learning-rate schedule *)

(** The command-line arguments the modelled code reads ([args] is a global of
    the module; [args.start_epoch] is assigned on resume). *)
Record Args : Type := MkArgs {
  arch : string;
  epochs : Z;
  start_epoch : Z;
  lr : float;
  resume : string;
  evaluate : bool;
  ctype : Z;
  output_dir : string
}.

(** [torch.optim.SGD]: its parameter groups, each a dictionary of
    hyper-parameters by name (['lr'], ['momentum'], ['weight_decay'], ...),
    and its per-parameter buffers, which this file never looks into. *)
Record Optimizer (Buffers : Type) : Type := MkOptimizer {
  param_groups : list (gmap string float);
  buffers : Buffers
}.
Arguments MkOptimizer {Buffers} _ _.
Arguments param_groups {Buffers} _.
Arguments buffers {Buffers} _.

(** [fix_learning_rate(optimizer, lr)] *)
Definition fix_learning_rate {Buffers} (optimizer : Optimizer Buffers)
    (new_lr : float) : Optimizer Buffers :=
  MkOptimizer
    (map (fun param_group => <["lr" := new_lr]> param_group)
         (param_groups optimizer))
    (buffers optimizer).

(** [adjust_learning_rate(optimizer, epoch)]; it reads the global [args]. *)
Definition adjust_learning_rate {Buffers} (args : Args)
    (optimizer : Optimizer Buffers) (epoch : Z) : Optimizer Buffers :=
  let new_lr :=
    if epoch <=? 81 then lr args
    else if epoch <=? 122 then (lr args * 0.1)%float
    else (lr args * 0.01)%float in
  MkOptimizer
    (map (fun param_group => <["lr" := new_lr]> param_group)
         (param_groups optimizer))
    (buffers optimizer).

(** The learning rates of the parameter groups, in order. *)
Definition learning_rates {Buffers} (optimizer : Optimizer Buffers)
  : list (option float) :=
  map (fun param_group => param_group !! "lr") (param_groups optimizer).

(** ** [accuracy] *)

(** A result or an exception, for code without effects. *)
Inductive res (A : Type) : Type :=
| Ok (a : A)
| Error (e : exn).
Arguments Ok {A} a.
Arguments Error {A} e.

(** A two-dimensional tensor: its number of columns and its rows, each of
    that many entries. *)
Record Tensor2 (S : Type) : Type := MkTensor2 {
  ncols : nat;
  rows : list (list S)
}.
Arguments MkTensor2 {S} _ _.
Arguments ncols {S} _.
Arguments rows {S} _.

Section Accuracy.

(** Scores of any type with a comparison [a > b].  The percentages are
    computed in one number type [V]: the quotient [100.0 / batch_size], a
    division of Python numbers, and its product with the count, which the
    program computes on a float32 tensor.  What is stated about [accuracy]
    for every [V] is which count is multiplied by which quotient; the
    rounding of the product is that of [V]. *)
Context {S : Type} (score_gt : S -> S -> bool).
Context {V : Type} `{PyNum V}.

(** Insertion into a list of (index, score) pairs in descending score order;
    the new pair goes before the pairs it is not smaller than. *)
Fixpoint insert_desc (x : nat * S) (l : list (nat * S)) : list (nat * S) :=
  match l with
  | [] => [x]
  | y :: l' =>
      if score_gt (snd y) (snd x) then y :: insert_desc x l' else x :: l
  end.

(** The indices of [row] by descending score.  Among equal scores the lower
    index comes first ([torch.topk] leaves that order open). *)
Definition argsort_desc (row : list S) : list nat :=
  map fst (fold_right insert_desc [] (combine (seq 0 (length row)) row)).

(** The index part of [output.topk(k, 1, True, True)]: per row the indices of
    the [k] largest scores, largest first; a [RuntimeError] when [k] exceeds
    the number of columns. *)
Definition topk_indices (k : nat) (output : Tensor2 S)
  : res (list (list nat)) :=
  if (ncols output <? k)%nat then Error RuntimeError
  else Ok (map (fun row => firstn k (argsort_desc row)) (rows output)).

(** [target.view(1, -1).expand_as(pred)] with [pred] of [batch] columns: the
    targets themselves, or a single target repeated. *)
Definition expand_target (target : list Z) (batch : nat) : res (list Z) :=
  if decide (length target = batch) then Ok target
  else match target with
       | [t] => Ok (repeat t batch)
       | _ => Error RuntimeError
       end.

(** [correct[:k].view(-1).float().sum(0)]: the number of positions among the
    first [k] predictions of each example that equal its target. *)
Definition correct_upto (k : nat) (pred : list (list nat)) (target : list Z)
  : Z :=
  fold_right Z.add 0
    (map (fun pt : list nat * Z =>
            Z.of_nat (length (filter (fun i => Z.of_nat i = snd pt)
                                     (firstn k (fst pt)))))
         (combine pred target)).

(** The loop [for k in topk:] with its
    [res.append(correct_k.mul_(100.0 / batch_size))]. *)
Fixpoint accuracy_loop (topk : list nat) (pred : list (list nat))
    (target : list Z) (batch_size : Z) : res (list V) :=
  match topk with
  | [] => Ok []
  | k :: topk' =>
      let correct_k := correct_upto k pred target in
      match div_int (of_int 100) batch_size with
      | None => Error ZeroDivisionError
      | Some q =>
          match accuracy_loop topk' pred target batch_size with
          | Ok r => Ok (mul_int q correct_k :: r)
          | Error e => Error e
          end
      end
  end.

(** [accuracy(output, target, topk)] *)
Definition accuracy (output : Tensor2 S) (target : list Z) (topk : list nat)
  : res (list V) :=
  match topk with
  | [] => Error ValueError
  | _ :: _ =>
      let maxk := fold_right Nat.max 0%nat topk in
      let batch_size := Z.of_nat (length target) in
      match topk_indices maxk output with
      | Error e => Error e
      | Ok pred =>
          match expand_target target (length (rows output)) with
          | Error e => Error e
          | Ok expanded => accuracy_loop topk pred expanded batch_size
          end
      end
  end.

(** The number of examples whose target is among the indices of the [k]
    largest scores of their row. *)
Definition examples_correct_at (k : nat) (output : Tensor2 S) (target : list Z)
  : Z :=
  Z.of_nat
    (length
       (filter (fun rt : list S * Z =>
                  Exists (fun i => Z.of_nat i = snd rt)
                         (firstn k (argsort_desc (fst rt))))
               (combine (rows output) target))).

End Accuracy.

(** ** [main]: resume, the epoch loop and the checkpoint phase *)

(** Python's truth value of a string ([if args.resume:]). *)
Definition truthy (s : string) : bool :=
  match s with EmptyString => false | String _ _ => true end.

(** [for x in l: body(x)] *)
Fixpoint for_each {W A} (l : list A) (body : A -> M W unit) : M W unit :=
  match l with
  | [] => ret tt
  | x :: l' => (body x ;; for_each l' body)%py
  end.

Section Main.

(** The metric type, the model's state and the optimizer's buffers; [train]
    and [validate] stand for the calls of [main] into the functions of the
    same name, whose results depend on the model, the data and the loss, all
    supplied from outside this file.  [train] works on the model and the
    optimizer in place; [validate] returns [top1.avg].  The runs of [main]
    described here are those in which these calls return; a call that raises
    (module [Pass] below has the cases) ends [main] with its exception,
    before the checkpoint phase of that epoch. *)
Context {V ModelState Buffers : Type} `{PyOrd V}.
Context (train : ModelState -> Optimizer Buffers -> Z ->
                 ModelState * Optimizer Buffers).
Context (validate : ModelState -> V).

Abbreviation ckpt := (checkpoint V ModelState (Optimizer Buffers)).
Abbreviation dir_tree := (gmap string (file V ModelState (Optimizer Buffers))).

(** What [main] works on from line 127 on: the files, the lines printed, the
    globals [args] and [best_prec1], the model and the optimizer.  (Seeding,
    the process group, the construction of model, optimizer, log files and
    data loaders come before and are not modelled.) *)
Record World : Type := MkWorld {
  files : dir_tree;
  stdout : list string;
  args : Args;
  best_prec1 : V;
  model : ModelState;
  optimizer : Optimizer Buffers
}.

Definition print (line : string) : M World unit :=
  modify (fun w => MkWorld (files w) (stdout w ++ [line]) (args w)
                     (best_prec1 w) (model w) (optimizer w)).

(** File-system calls act on the [files] of the world. *)
Definition in_files {A} (m : M dir_tree A) : M World A :=
  fun w =>
    let put fs := MkWorld fs (stdout w) (args w) (best_prec1 w) (model w)
                    (optimizer w) in
    match m (files w) with
    | Returns a fs => Returns a (put fs)
    | Raises e fs => Raises e (put fs)
    | Running => Running
    end.

(** The four assignments made from a loaded checkpoint (lines 132-135). *)
Definition load_from (c : ckpt) : M World unit :=
  modify (fun w =>
    let a := args w in
    MkWorld (files w) (stdout w)
      (MkArgs (arch a) (epochs a) (ckpt_epoch c) (lr a) (resume a)
              (evaluate a) (ctype a) (output_dir a))
      (ckpt_best_prec1 c) (ckpt_state_dict c) (ckpt_optimizer c)).

(** Lines 128-139: optionally resume from a checkpoint. *)
Definition main_resume : M World unit :=
  (let* w := get in
   let path := resume (args w) in
   if truthy path then
     let* found := in_files (os_path_isfile path) in
     if found then
       print ("=> loading checkpoint '" +:+ path +:+ "'") ;;
       let* c := in_files (torch_load path) in
       load_from c ;;
       print ("=> loaded checkpoint '" +:+ path +:+ "' (epoch "
              +:+ fmt_d (ckpt_epoch c) +:+ ")")
     else
       print ("=> no checkpoint found at '" +:+ path +:+ "'")
   else ret tt)%py.

(** Lines 194-214: one iteration of the epoch loop. *)
Definition main_epoch (fuel : nat) (epoch : Z) : M World unit :=
  (modify (fun w =>
     MkWorld (files w) (stdout w) (args w) (best_prec1 w) (model w)
       (adjust_learning_rate (args w) (optimizer w) epoch)) ;;
   modify (fun w =>
     let mo := train (model w) (optimizer w) epoch in
     MkWorld (files w) (stdout w) (args w) (best_prec1 w) (fst mo) (snd mo)) ;;
   let* w := get in
   let prec1 := validate (model w) in
   let is_best := py_gt prec1 (best_prec1 w) in
   modify (fun w =>
     MkWorld (files w) (stdout w) (args w) (py_max prec1 (best_prec1 w))
       (model w) (optimizer w)) ;;
   let must_save := bool_decide (epoch + 1 = 80) in
   let* w := get in
   in_files
     (save_checkpoint fuel
        (Checkpoint (epoch + 1) (arch (args w)) (model w) (best_prec1 w)
                    (optimizer w))
        is_best (output_dir (args w)) default_filename must_save))%py.

(** Lines 141-217: the data set is chosen by [args.ctype]; then a single
    validation pass when [args.evaluate], else the epoch loop. *)
Definition main_run (fuel : nat) : M World unit :=
  (let* w := get in
   if bool_decide (ctype (args w) = 10) || bool_decide (ctype (args w) = 100)
   then
     if evaluate (args w) then
       let _ := validate (model w) in ret tt
     else
       for_each (range (start_epoch (args w)) (epochs (args w)))
                (main_epoch fuel)
   else print "Unknown CIFAR type!")%py.

(** Lines 127-217 of [main]. *)
Definition main (fuel : nat) : M World unit :=
  (main_resume ;; main_run fuel)%py.

(** The model and optimizer after the training phase of [epoch], and the
    validation top-1 that follows it. *)
Definition trained (w : World) (epoch : Z) : ModelState * Optimizer Buffers :=
  train (model w) (adjust_learning_rate (args w) (optimizer w) epoch) epoch.

Definition prec1_of (w : World) (epoch : Z) : V :=
  validate (fst (trained w epoch)).

(** The record [main] saves at the end of [epoch]. *)
Definition saved_state (w : World) (epoch : Z)
  : checkpoint V ModelState (Optimizer Buffers) :=
  Checkpoint (epoch + 1) (arch (args w)) (fst (trained w epoch))
    (py_max (prec1_of w epoch) (best_prec1 w)) (snd (trained w epoch)).

(** The world at the end of [epoch], given the files [save_checkpoint]
    left. *)
Definition after_epoch (w : World) (epoch : Z) (fs : dir_tree) : World :=
  MkWorld fs (stdout w) (args w) (py_max (prec1_of w epoch) (best_prec1 w))
    (fst (trained w epoch)) (snd (trained w epoch)).

End Main.

Arguments World : clear implicits.

(** ** Observations on a run *)

(** The epoch and the metric recorded in the best slot, if there is one. *)
Definition best_slot {V ModelState Buffers} (w : World V ModelState Buffers)
  : option (Z * V) :=
  match files w !! os_path_join (output_dir (args w)) best_filename with
  | Some (Pickled c) => Some (ckpt_epoch c, ckpt_best_prec1 c)
  | _ => None
  end.

(** The epoch recorded in the latest slot, if there is one. *)
Definition latest_epoch {V ModelState Buffers} (w : World V ModelState Buffers)
  : option Z :=
  match files w !! os_path_join (output_dir (args w)) default_filename with
  | Some (Pickled c) => Some (ckpt_epoch c)
  | _ => None
  end.

(** A finished run seen through [best_prec1] and the best slot. *)
Definition best_after {V ModelState Buffers}
    (o : outcome (World V ModelState Buffers) unit)
  : option (V * option (Z * V)) :=
  match o with
  | Returns _ w => Some (best_prec1 w, best_slot w)
  | _ => None
  end.

(** ** The best slot and the metric it records

    [best_slot_consistent validate w]: if the best slot holds a record, the
    metric it records is the validation metric of the model it holds, and it
    is level with [best_prec1] in the order on metrics. *)
Definition best_slot_consistent {V ModelState Buffers} `{PyOrd V}
    (validate : ModelState -> V) (w : World V ModelState Buffers) : Prop :=
  forall c,
    files w !! os_path_join (output_dir (args w)) best_filename
    = Some (Pickled c) ->
    validate (ckpt_state_dict c) = ckpt_best_prec1 c /\
    py_le (ckpt_best_prec1 c) (best_prec1 w) = true /\
    py_le (best_prec1 w) (ckpt_best_prec1 c) = true.

(** The milestone file of suffix [i] in the run's output directory. *)
Definition milestone_path {V ModelState Buffers}
    (w : World V ModelState Buffers) (i : Z) : string :=
  os_path_join (output_dir (args w)) (must_save_filename i).

(** ** [train] and [validate]: one pass over a data loader *)

(** [for x in l: body(x)] with the local variables [L] of the enclosing
    function passed from one iteration to the next. *)
Fixpoint for_loop {W L A} (l : list A) (body : A -> L -> M W L) (s : L)
  : M W L :=
  match l with
  | [] => ret s
  | x :: l' => (let* s' := body x s in for_loop l' body s')%py
  end.

(** [enumerate(l)] *)
Definition enumerate {A} (l : list A) : list (Z * A) :=
  combine (range 0 (Z.of_nat (length l))) l.

(** [a % b] on integers: the remainder has the sign of [b]. *)
Definition py_mod {W} (a b : Z) : M W Z :=
  if decide (b = 0) then raise ZeroDivisionError else ret (a mod b).

(** A result or an exception of effect-free code, inside effectful code. *)
Definition of_res {W A} (r : res A) : M W A :=
  match r with
  | Ok a => ret a
  | Error e => raise e
  end.

(** ['\t'] and ['\n']. *)
Definition tab : string := String "009"%char EmptyString.
Definition newline : string := String "010"%char EmptyString.

(** ['-'*32] *)
Definition dashes : string := "--------------------------------".

(** The text of a log file that held [text] after each of [lines] has been
    written to it, followed by a line end. *)
Definition written (text : string) (lines : list string) : string :=
  fold_left (fun acc line => acc +:+ (line +:+ newline)) lines text.

Module Pass.
Section Pass.

(** Numbers [V] (losses, percentages, clock readings and their differences),
    scores [S], input batches [Input], the model's state and the optimizer's
    buffers. *)
Context {V : Type} `{PyNum V}.
Context {S Input ModelState Buffers : Type}.
Context (score_gt : S -> S -> bool).

(** What a pass calls and this file does not define:
    [input.size(0)];
    [model(input)] in training mode ([true]) or evaluation mode ([false]),
    which gives the scores and may change the model's state (running
    statistics);
    [criterion(output, target)] as the number [loss.item()];
    [optimizer.zero_grad(); loss.backward(); optimizer.step()] as one step
    on the model and the optimizer;
    the successive readings of [time.time()] and the difference of two;
    and ['{:.<d>f}'.format(x)].
    These are taken to return.  Moving a tensor to a device ([.cuda(...)])
    and [torch.no_grad()] change no value and are left out. *)
Context (size0 : Input -> Z).
Context (forward : bool -> ModelState -> Input -> Tensor2 S * ModelState).
Context (criterion : Tensor2 S -> list Z -> V).
Context (sgd_step : ModelState -> Optimizer Buffers -> Input -> list Z ->
                    ModelState * Optimizer Buffers).
Context (readings : nat -> V).
Context (sub : V -> V -> V).
Context (fmt_f : nat -> V -> string).

(** The global [args.print_freq]. *)
Context (print_freq : Z).

(** One item of a data loader: [(input, target)]. *)
Record Batch : Type := MkBatch { input : Input; target : list Z }.

(** What a pass works on: the model with its mode, the optimizer, the lines
    printed, the text written to the log file it is given, and the number of
    clock readings taken so far. *)
Record Proc : Type := MkProc {
  model : ModelState;
  training : bool;
  optimizer : Optimizer Buffers;
  stdout : list string;
  fid : string;
  clock : nat
}.

(** [time.time()] *)
Definition time_time : M Proc V :=
  fun p =>
    Returns (readings (clock p))
      (MkProc (model p) (training p) (optimizer p) (stdout p) (fid p)
              (Datatypes.S (clock p))).

(** [model.train()] and [model.eval()] *)
Definition set_training (mode : bool) : M Proc unit :=
  modify (fun p =>
    MkProc (model p) mode (optimizer p) (stdout p) (fid p) (clock p)).

(** [model(input)] *)
Definition model_call (x : Input) : M Proc (Tensor2 S) :=
  fun p =>
    let om := forward (training p) (model p) x in
    Returns (fst om)
      (MkProc (snd om) (training p) (optimizer p) (stdout p) (fid p)
              (clock p)).

(** [optimizer.zero_grad(); loss.backward(); optimizer.step()] *)
Definition optimizer_step (x : Input) (t : list Z) : M Proc unit :=
  modify (fun p =>
    let mo := sgd_step (model p) (optimizer p) x t in
    MkProc (fst mo) (training p) (snd mo) (stdout p) (fid p) (clock p)).

Definition print (line : string) : M Proc unit :=
  modify (fun p =>
    MkProc (model p) (training p) (optimizer p) (stdout p ++ [line]) (fid p)
           (clock p)).

(** [fid.write(text); fid.flush()] *)
Definition fid_write (text : string) : M Proc unit :=
  modify (fun p =>
    MkProc (model p) (training p) (optimizer p) (stdout p) (fid p +:+ text)
           (clock p)).

(** [meter.update(v, n)] on a meter that is a local variable; an exception
    leaves the function, and the meter with it. *)
Definition call_update (meter : AverageMeter.t V) (v : V) (n : Z)
  : M Proc (AverageMeter.t V) :=
  fun p =>
    match AverageMeter.update v n meter with
    | Returns _ meter' => Returns meter' p
    | Raises e _ => Raises e p
    | Running => Running
    end.

(** ['{m.val:.<d>f} ({m.avg:.<d>f})'] *)
Definition fmt_meter (d : nat) (m : AverageMeter.t V) : string :=
  fmt_f d (AverageMeter.val m) +:+ " (" +:+ fmt_f d (AverageMeter.avg m)
  +:+ ")".

(** [str_arr] of both functions. *)
Definition str_arr (losses top1 top5 : AverageMeter.t V) : string :=
  "Loss " +:+ fmt_meter 4 losses +:+ tab +:+
  "Top1 " +:+ fmt_meter 3 top1 +:+ tab +:+
  "Top5 " +:+ fmt_meter 3 top5.

(** *** [train] *)

Record train_locals : Type := MkTrainLocals {
  t_batch_time : AverageMeter.t V;
  t_data_time : AverageMeter.t V;
  t_losses : AverageMeter.t V;
  t_top1 : AverageMeter.t V;
  t_top5 : AverageMeter.t V;
  t_end : V
}.

Definition train_msg (epoch i n_batches : Z) (s : train_locals) : string :=
  "Epoch: [" +:+ fmt_d epoch +:+ "][" +:+ fmt_d i +:+ "/" +:+
  fmt_d n_batches +:+ "]" +:+ tab +:+
  "Time " +:+ fmt_meter 3 (t_batch_time s) +:+ tab +:+
  "Data " +:+ fmt_meter 3 (t_data_time s) +:+ tab +:+
  str_arr (t_losses s) (t_top1 s) (t_top5 s).

(** The body of the loop of [train] at index [i] and batch [b]. *)
Definition train_batch (epoch n_batches : Z) (ib : Z * Batch)
    (s : train_locals) : M Proc train_locals :=
  let i := fst ib in
  let b := snd ib in
  (let* now := time_time in
   let* data_time := call_update (t_data_time s) (sub now (t_end s)) 1 in
   let* output := model_call (input b) in
   let loss := criterion output (target b) in
   let* prec := of_res (accuracy score_gt output (target b)
                          [1%nat; 5%nat]) in
   match prec with
   | [prec1; prec5] =>
       let* losses := call_update (t_losses s) loss (size0 (input b)) in
       let* top1 := call_update (t_top1 s) prec1 (size0 (input b)) in
       let* top5 := call_update (t_top5 s) prec5 (size0 (input b)) in
       optimizer_step (input b) (target b) ;;
       let* now := time_time in
       let* batch_time := call_update (t_batch_time s) (sub now (t_end s)) 1 in
       let* end_ := time_time in
       let s' := MkTrainLocals batch_time data_time losses top1 top5 end_ in
       let* r := py_mod i print_freq in
       if decide (r = 0) then
         let msg := train_msg epoch i n_batches s' in
         print msg ;;
         fid_write (msg +:+ newline) ;;
         ret s'
       else ret s'
   | _ => raise ValueError
   end)%py.

(** [train(train_loader, model, criterion, optimizer, epoch, fid_train)] *)
Definition train (train_loader : list Batch) (epoch : Z) : M Proc unit :=
  (set_training true ;;
   let* end_ := time_time in
   let s := MkTrainLocals AverageMeter.init AverageMeter.init
              AverageMeter.init AverageMeter.init AverageMeter.init end_ in
   let* _ := for_loop (enumerate train_loader)
               (train_batch epoch (Z.of_nat (length train_loader))) s in
   ret tt)%py.

(** *** [validate] *)

Record validate_locals : Type := MkValidateLocals {
  v_batch_time : AverageMeter.t V;
  v_losses : AverageMeter.t V;
  v_top1 : AverageMeter.t V;
  v_top5 : AverageMeter.t V;
  v_end : V
}.

Definition validate_msg (i n_batches : Z) (s : validate_locals) : string :=
  "Test: [" +:+ fmt_d i +:+ "/" +:+ fmt_d n_batches +:+ "]" +:+ tab +:+
  "Time " +:+ fmt_meter 3 (v_batch_time s) +:+ tab +:+
  str_arr (v_losses s) (v_top1 s) (v_top5 s).

(** The body of the loop of [validate] at index [i] and batch [b]. *)
Definition validate_batch (n_batches : Z) (ib : Z * Batch)
    (s : validate_locals) : M Proc validate_locals :=
  let i := fst ib in
  let b := snd ib in
  (let* output := model_call (input b) in
   let loss := criterion output (target b) in
   let* prec := of_res (accuracy score_gt output (target b)
                          [1%nat; 5%nat]) in
   match prec with
   | [prec1; prec5] =>
       let* losses := call_update (v_losses s) loss (size0 (input b)) in
       let* top1 := call_update (v_top1 s) prec1 (size0 (input b)) in
       let* top5 := call_update (v_top5 s) prec5 (size0 (input b)) in
       let* now := time_time in
       let* batch_time := call_update (v_batch_time s) (sub now (v_end s)) 1 in
       let* end_ := time_time in
       let s' := MkValidateLocals batch_time losses top1 top5 end_ in
       let* r := py_mod i print_freq in
       if decide (r = 0) then
         print (validate_msg i n_batches s') ;;
         ret s'
       else ret s'
   | _ => raise ValueError
   end)%py.

(** The summary line ['T1 {t1.avg:.3f} T5 {t5.avg:.3f}']. *)
Definition summary (s : validate_locals) : string :=
  "T1 " +:+ fmt_f 3 (AverageMeter.avg (v_top1 s)) +:+
  " T5 " +:+ fmt_f 3 (AverageMeter.avg (v_top5 s)).

(** [validate(val_loader, model, criterion, fid_val)] *)
Definition validate (val_loader : list Batch) : M Proc V :=
  (set_training false ;;
   let* end_ := time_time in
   let s0 := MkValidateLocals AverageMeter.init AverageMeter.init
               AverageMeter.init AverageMeter.init end_ in
   let* s := for_loop (enumerate val_loader)
               (validate_batch (Z.of_nat (length val_loader))) s0 in
   let msg := summary s in
   print dashes ;;
   print msg ;;
   print dashes ;;
   fid_write (msg +:+ newline) ;;
   ret (AverageMeter.avg (v_top1 s)))%py.

(** *** What a pass is checked against *)

(** A batch the loop body accepts when the model is in state [m] and mode
    [mode]: one target per row of scores, at least one example, five classes
    or more, and [input.size(0)] equal to the number of targets. *)
Definition batch_ok (mode : bool) (m : ModelState) (b : Batch) : Prop :=
  let output := fst (forward mode m (input b)) in
  target b <> [] /\
  length (target b) = length (rows output) /\
  (5 <= ncols output)%nat /\
  size0 (input b) = Z.of_nat (length (target b)).

(** The percentage of the examples of batch [b] whose target is among the
    [k] best scores, as [accuracy] computes it:
    [count_k * (100.0 / batch_size)]. *)
Definition prec_at (k : nat) (mode : bool) (m : ModelState) (b : Batch) : V :=
  match div_int (of_int 100) (Z.of_nat (length (target b))) with
  | Some q =>
      mul_int q
        (examples_correct_at score_gt k (fst (forward mode m (input b)))
           (target b))
  | None => of_int 0
  end.

(** The [update] calls a meter of top-[k] percentages receives over a
    loader, with the model in state [m] throughout. *)
Definition prec_calls (k : nat) (mode : bool) (m : ModelState)
    (loader : list Batch) : list (V * Z) :=
  map (fun b => (prec_at k mode m b, size0 (input b))) loader.

(** The model and the optimizer after the forward pass and the optimizer
    step of each batch in turn. *)
Definition train_steps (loader : list Batch)
    (mo : ModelState * Optimizer Buffers) : ModelState * Optimizer Buffers :=
  fold_left
    (fun mo b =>
       sgd_step (snd (forward true (fst mo) (input b))) (snd mo) (input b)
         (target b))
    loader mo.

(** The batch indices at which a pass over [n] batches prints. *)
Definition printing_indices (n : nat) : list Z :=
  filter (fun i => i mod print_freq = 0) (range 0 (Z.of_nat n)).

End Pass.

Arguments Batch : clear implicits.
Arguments Proc : clear implicits.
Arguments train_locals : clear implicits.
Arguments validate_locals : clear implicits.

End Pass.

(** ** Sample inputs

    Concrete inputs the properties below are evaluated at. *)

(** A checkpoint record whose metric is an integer and whose model and
    optimizer states are empty. *)
Definition sample_checkpoint (e : Z) : checkpoint Z unit unit :=
  Checkpoint e "resnet164_lst_cifar" tt 0 tt.

(** An output directory that already holds the suffix-0 milestone. *)
Definition dir_with_milestone_0 : gmap string (file Z unit unit) :=
  {[ "./model_must_save_0.pth.tar" := Pickled (sample_checkpoint 80) ]}.

(** Two [update] calls on floats, with batch sizes 2 and 6. *)
Definition sample_calls : list (float * Z) :=
  [(0.5%float, 2); (0.25%float, 6)].

(** A run whose model state is the list of epochs trained so far and whose
    validation top-1 after epoch [e] is the [e]-th entry of
    [70, 65, 72, 72, 80]. *)
Definition sample_train (m : list Z) (o : Optimizer unit) (epoch : Z)
  : list Z * Optimizer unit := (m ++ [epoch], o).

Definition sample_top1 : list Qc :=
  map Qc_of_Z [70; 65; 72; 72; 80].

Definition sample_validate (m : list Z) : Qc :=
  match last m with
  | Some e => nth (Z.to_nat e) sample_top1 (Qc_of_Z 0)
  | None => Qc_of_Z 0
  end.

Definition sample_args (n_epochs : Z) (resume_path : string) : Args :=
  MkArgs "resnet164_lst_cifar" n_epochs 0 0.1%float resume_path false 100 "./".

Definition sample_optimizer : Optimizer unit :=
  MkOptimizer
    [ {[ "lr" := 0.1%float; "momentum" := 0.9%float;
         "weight_decay" := 0.0005%float ]} ] tt.

(** The world at line 127 of a fresh run: an empty output directory,
    [best_prec1 = 0], nothing trained. *)
Definition sample_world (n_epochs : Z) (resume_path : string)
  : World Qc (list Z) unit :=
  MkWorld ∅ [] (sample_args n_epochs resume_path) (Qc_of_Z 0) []
          sample_optimizer.

(** A fresh run of [n_epochs] epochs. *)
Definition sample_run (n_epochs : Z) : outcome (World Qc (list Z) unit) unit :=
  main sample_train sample_validate 1 (sample_world n_epochs "").

(** A new process started on the files an earlier run left, resuming from
    [resume_path]. *)
Definition sample_restart (fs : gmap string (file Qc (list Z) (Optimizer unit)))
    (n_epochs : Z) (resume_path : string) : World Qc (list Z) unit :=
  MkWorld fs [] (sample_args n_epochs resume_path) (Qc_of_Z 0) []
          sample_optimizer.

(** The world a fresh run of 40 epochs ends in. *)
Definition sample_world_after_40 : World Qc (list Z) unit :=
  match sample_run 40 with
  | Returns _ w => w
  | _ => sample_world 40 ""
  end.

(** The world the restarted process ends in: it resumes from the latest slot
    of the 40-epoch run, with 42 epochs configured. *)
Definition sample_world_resumed : World Qc (list Z) unit :=
  match main sample_train sample_validate 1
          (sample_restart (files sample_world_after_40) 42
             "./checkpoint.pth.tar") with
  | Returns _ w => w
  | _ => sample_world 42 ""
  end.

(** The world a fresh run of 85 epochs ends in; it passes the milestone
    epoch. *)
Definition sample_world_after_85 : World Qc (list Z) unit :=
  match sample_run 85 with
  | Returns _ w => w
  | _ => sample_world 85 ""
  end.

(** The comparison of float scores, [a > b]. *)
Definition float_gt (a b : float) : bool := PrimFloat.ltb b a.

(** The scores [[0.1, 0.9, 0.0], [0.8, 0.1, 0.1]]: two examples, three
    classes. *)
Definition sample_scores : Tensor2 float :=
  MkTensor2 3 [ [0.1; 0.9; 0.0]; [0.8; 0.1; 0.1] ]%float.

(** The world the first epoch of a fresh 5-epoch run ends in, and a new
    process started on its files that resumes from the latest slot. *)
Definition sample_world_after_epoch_0 : World Qc (list Z) unit :=
  match main_epoch sample_train sample_validate 1 0 (sample_world 5 "") with
  | Returns _ w => w
  | _ => sample_world 5 ""
  end.

Definition sample_world_resuming : World Qc (list Z) unit :=
  sample_restart (files sample_world_after_epoch_0) 5 "./checkpoint.pth.tar".

(** A run configured with [--ctype 7]. *)
Definition sample_world_ctype_7 : World Qc (list Z) unit :=
  MkWorld ∅ []
    (MkArgs "resnet164_lst_cifar" 5 0 0.1%float "" false 7 "./")
    (Qc_of_Z 0) [] sample_optimizer.

(** Two [update] calls in exact arithmetic: 50 per cent of a batch of 2 and
    100 per cent of a batch of 1. *)
Definition sample_calls_exact : list (Qc * Z) :=
  [(Qc_of_Z 50, 2); (Qc_of_Z 100, 1)].

(** A pass over scores that are given with the batch: the model returns its
    input as the scores, and its state counts the forward passes made in
    training mode and the optimizer steps; the loss is the number of targets;
    the clock advances by one per reading; numbers are printed as
    fractions. *)
Definition sample_forward (mode : bool) (m : nat) (x : Tensor2 Z)
  : Tensor2 Z * nat := (x, if mode then S m else m).

Definition sample_size0 (x : Tensor2 Z) : Z := Z.of_nat (length (rows x)).

Definition sample_criterion (output : Tensor2 Z) (t : list Z) : Qc :=
  Qc_of_Z (Z.of_nat (length t)).

Definition sample_sgd_step (m : nat) (o : Optimizer unit) (x : Tensor2 Z)
    (t : list Z) : nat * Optimizer unit := (S m, o).

Definition sample_readings (n : nat) : Qc := Qc_of_Z (Z.of_nat n).

Definition sample_fmt_f (d : nat) (v : Qc) : string :=
  pretty (Qnum v) +:+ "/" +:+ pretty (Zpos (Qden v)).

(** A loader of two batches over five classes, of sizes 2 and 1.  Top-1 is
    right for the first and the third example. *)
Definition sample_loader : list (Pass.Batch (Tensor2 Z)) :=
  [ Pass.MkBatch (MkTensor2 5 [ [9; 1; 2; 3; 4]; [0; 1; 2; 3; 9] ]) [0; 3];
    Pass.MkBatch (MkTensor2 5 [ [1; 2; 3; 4; 5] ]) [4] ].

(** A batch over three classes. *)
Definition sample_batch_3_classes : Pass.Batch (Tensor2 Z) :=
  Pass.MkBatch (MkTensor2 3 [ [1; 2; 3] ]) [2].

Definition sample_proc : Pass.Proc nat unit :=
  Pass.MkProc 0%nat false sample_optimizer [] "" 0%nat.

Definition sample_validate_pass (print_freq : Z)
  : list (Pass.Batch (Tensor2 Z)) -> M (Pass.Proc nat unit) Qc :=
  Pass.validate Z.gtb sample_size0 sample_forward sample_criterion
    sample_readings Qcminus sample_fmt_f print_freq.

Definition sample_train_pass (print_freq : Z)
  : list (Pass.Batch (Tensor2 Z)) -> Z -> M (Pass.Proc nat unit) unit :=
  Pass.train Z.gtb sample_size0 sample_forward sample_criterion
    sample_sgd_step sample_readings Qcminus sample_fmt_f print_freq.

(** * Properties *)

(** ** Paths *)

Lemma startswith_sep_must_save i : startswith_sep (must_save_filename i) = false.
Proof. reflexivity. Qed.

Lemma os_path_join_inj d a b :
  startswith_sep a = false -> startswith_sep b = false ->
  os_path_join d a = os_path_join d b -> a = b.
Proof.
  unfold os_path_join. intros -> ->.
  destruct (decide (d = "")) as [->|_]; [done|].
  destruct (endswith_sep d); intros H.
  - by apply (inj (String.app d)) in H.
  - apply (inj (String.app d)) in H. by apply (inj (String.app "/")) in H.
Qed.

Lemma string_app_length (s t : string) :
  String.length (s +:+ t) = (String.length s + String.length t)%nat.
Proof. induction s as [|c s IH]; simpl; [done|]. by rewrite IH. Qed.

Lemma string_app_inj_r (t s1 s2 : string) : s1 +:+ t = s2 +:+ t -> s1 = s2.
Proof.
  revert s2. induction s1 as [|c s1 IH]; intros [|c' s2] H; simpl in H.
  - done.
  - apply (f_equal String.length) in H.
    rewrite !string_app_length in H. simpl in H. lia.
  - apply (f_equal String.length) in H.
    rewrite !string_app_length in H. simpl in H. lia.
  - injection H as -> H. f_equal. by apply IH.
Qed.

Lemma must_save_filename_inj i j :
  must_save_filename i = must_save_filename j -> i = j.
Proof.
  unfold must_save_filename, fmt_d. intros H.
  apply (inj (String.app "model_must_save_")) in H.
  apply string_app_inj_r in H. by apply (inj pretty) in H.
Qed.

Lemma must_save_path_inj d i j :
  os_path_join d (must_save_filename i) = os_path_join d (must_save_filename j) ->
  i = j.
Proof.
  intros H. apply os_path_join_inj in H; [|done..].
  by apply must_save_filename_inj.
Qed.

Lemma must_save_path_ne_default d i :
  os_path_join d default_filename <> os_path_join d (must_save_filename i).
Proof. intros H. apply os_path_join_inj in H; [|done..]. discriminate H. Qed.

Lemma must_save_path_ne_best d i :
  os_path_join d best_filename <> os_path_join d (must_save_filename i).
Proof. intros H. apply os_path_join_inj in H; [|done..]. discriminate H. Qed.

Lemma best_path_ne_default d :
  os_path_join d default_filename <> os_path_join d best_filename.
Proof. intros H. apply os_path_join_inj in H; [|done..]. discriminate H. Qed.

(** The path and range functions on small inputs. *)
Example os_path_join_examples :
  os_path_join "./" "checkpoint.pth.tar" = "./checkpoint.pth.tar" /\
  os_path_join "out" "model_best.pth.tar" = "out/model_best.pth.tar" /\
  os_path_join "" "checkpoint.pth.tar" = "checkpoint.pth.tar" /\
  os_path_join "out" "/tmp/x.pth.tar" = "/tmp/x.pth.tar".
Proof. repeat split. Qed.

Example must_save_filename_examples :
  must_save_filename 0 = "model_must_save_0.pth.tar" /\
  must_save_filename 12 = "model_must_save_12.pth.tar".
Proof. split; vm_compute; reflexivity. Qed.

Example range_examples :
  range 2 5 = [2; 3; 4] /\ range 5 2 = [] /\ range (-1) 1 = [-1; 0].
Proof. repeat split. Qed.

(** ** [save_checkpoint]: the milestone loop *)

Section SaveCheckpointFacts.

Context {V ModelState OptimState : Type}.
Abbreviation checkpoint := (checkpoint V ModelState OptimState).
Abbreviation file := (file V ModelState OptimState).
Implicit Types (fs : gmap string file) (state : checkpoint).

(** More fuel never changes an outcome that was reached. *)
Lemma while_true_more_fuel {W S} (body : S -> M W (ctl S)) n m s w :
  (n <= m)%nat -> while_true n body s w <> Running ->
  while_true m body s w = while_true n body s w.
Proof.
  revert m s w. induction n as [|n IH]; intros m s w Hle Hrun; [done|].
  destruct m as [|m]; [lia|]. simpl in *.
  destruct (body s w) as [[s'|s'] w'|e w'|]; try done.
  apply IH; [lia|done].
Qed.

(** The fuelled loop reaches exactly the outcomes of the runs that end. *)
Lemma while_ends_fuel {W S} (body : S -> M W (ctl S)) s w o :
  while_ends body s w o <->
  exists fuel, while_true fuel body s w = o /\ o <> Running.
Proof.
  split.
  - induction 1 as [s w s' w' Hb|s w e w' Hb|s w s1 w1 o Hb _ [fuel [Hrun Ho]]].
    + exists 1%nat. simpl. by rewrite Hb.
    + exists 1%nat. simpl. by rewrite Hb.
    + exists (Datatypes.S fuel). simpl. by rewrite Hb.
  - intros [fuel [Hrun Ho]]. revert s w Hrun.
    induction fuel as [|fuel IH]; intros s w Hrun; simpl in Hrun;
      [congruence|].
    destruct (body s w) as [[s'|s'] w'|e w'|] eqn:Hb.
    + subst o. by apply ends_break.
    + eapply ends_continue; [exact Hb|]. by apply IH.
    + subst o. by apply ends_raise.
    + congruence.
Qed.

(** An iteration that finds suffix 0 on disk changes nothing and asks for
    another iteration. *)
Lemma must_save_body_found output_dir filename prev fs :
  is_Some (fs !! os_path_join output_dir (must_save_filename 0)) ->
  must_save_body output_dir filename prev fs = Returns (Continue (Some 1)) fs.
Proof.
  intros Hsome. unfold must_save_body, bind, os_path_exists.
  by rewrite bool_decide_eq_true_2.
Qed.

(** An iteration that does not find suffix 0 copies the latest file there
    and leaves the loop. *)
Lemma must_save_body_absent output_dir prev fs f :
  fs !! os_path_join output_dir (must_save_filename 0) = None ->
  fs !! os_path_join output_dir default_filename = Some f ->
  must_save_body output_dir default_filename prev fs
  = Returns (Break (Some 0))
      (<[os_path_join output_dir (must_save_filename 0) := f]> fs).
Proof.
  intros Hnone Hsrc. unfold must_save_body, bind, os_path_exists.
  rewrite bool_decide_eq_false_2; [|rewrite Hnone; by intros [? ?]].
  simpl. unfold shutil_copyfile. rewrite Hsrc.
  destruct (decide _) as [Heq|_]; [|done].
  by destruct (must_save_path_ne_default output_dir 0).
Qed.

Lemma must_save_loop_running output_dir filename fuel prev fs :
  is_Some (fs !! os_path_join output_dir (must_save_filename 0)) ->
  while_true fuel (must_save_body output_dir filename) prev fs = Running.
Proof.
  intros Hsome. revert prev.
  induction fuel as [|fuel IH]; intros prev; [done|].
  simpl. by rewrite must_save_body_found.
Qed.

(** With suffix 0 on disk no run of the milestone loop ends. *)
Lemma must_save_loop_never_ends output_dir filename prev fs o :
  is_Some (fs !! os_path_join output_dir (must_save_filename 0)) ->
  ~ while_ends (must_save_body output_dir filename) prev fs o.
Proof.
  intros Hsome [fuel [Hrun Ho]]%while_ends_fuel.
  rewrite must_save_loop_running in Hrun by done. congruence.
Qed.

Lemma after_latest_and_best_must_save state is_best output_dir fs i :
  after_latest_and_best state is_best output_dir fs
    !! os_path_join output_dir (must_save_filename i)
  = fs !! os_path_join output_dir (must_save_filename i).
Proof.
  unfold after_latest_and_best. destruct is_best.
  - rewrite lookup_insert_ne; [|apply must_save_path_ne_best].
    rewrite lookup_insert_ne; [done|apply must_save_path_ne_default].
  - rewrite lookup_insert_ne; [done|apply must_save_path_ne_default].
Qed.

Lemma after_latest_and_best_latest state is_best output_dir fs :
  after_latest_and_best state is_best output_dir fs
    !! os_path_join output_dir default_filename = Some (Pickled state).
Proof.
  unfold after_latest_and_best. destruct is_best.
  - rewrite lookup_insert_ne; [|apply not_eq_sym, best_path_ne_default].
    apply lookup_insert_eq.
  - apply lookup_insert_eq.
Qed.

(** [save_checkpoint] up to its [if must_save:]. *)
Lemma save_checkpoint_unfold fuel state is_best output_dir must_save fs :
  save_checkpoint fuel state is_best output_dir default_filename must_save fs
  = let fs2 := after_latest_and_best state is_best output_dir fs in
    if must_save then
      match while_true fuel (must_save_body output_dir default_filename)
              None fs2 with
      | Returns _ fs3 => Returns tt fs3
      | Raises e fs3 => Raises e fs3
      | Running => Running
      end
    else Returns tt fs2.
Proof.
  unfold save_checkpoint, after_latest_and_best, bind, torch_save, modify, ret.
  destruct is_best.
  - unfold shutil_copyfile. rewrite lookup_insert_eq.
    destruct (decide _) as [Heq|_];
      [by destruct (best_path_ne_default output_dir)|].
    destruct must_save; done.
  - destruct must_save; done.
Qed.

(** The milestone loop leaves only through the branch that writes suffix 0:
    when the call returns, suffix 0 was absent before and holds the written
    record after. *)
Lemma save_checkpoint_must_save_returns fuel state is_best output_dir fs fs' :
  save_checkpoint fuel state is_best output_dir default_filename true fs
  = Returns tt fs' ->
  fs !! os_path_join output_dir (must_save_filename 0) = None /\
  fs' = <[os_path_join output_dir (must_save_filename 0) := Pickled state]>
          (after_latest_and_best state is_best output_dir fs).
Proof.
  rewrite save_checkpoint_unfold. cbv zeta.
  destruct (fs !! os_path_join output_dir (must_save_filename 0)) eqn:Hfs.
  - rewrite must_save_loop_running; [done|].
    rewrite after_latest_and_best_must_save, Hfs. by eexists.
  - destruct fuel as [|fuel]; [done|]. simpl.
    erewrite must_save_body_absent;
      [|by rewrite after_latest_and_best_must_save
       |apply after_latest_and_best_latest].
    intros [= <-]. done.
Qed.

(** C2 (defect in the code): the specification asks that a call with
    [must_save=True] terminate in every state of the output directory.  The
    loop body starts with [i = 0], so the scan never advances: whenever the
    suffix-0 milestone file exists, the call is still running after any number
    of iterations, and its loop has no run that ends. *)
Theorem save_checkpoint_must_save_never_returns
    state is_best output_dir fs :
  is_Some (fs !! os_path_join output_dir (must_save_filename 0)) ->
  (forall fuel,
     save_checkpoint fuel state is_best output_dir default_filename true fs
     = Running) /\
  (forall o,
     ~ while_ends (must_save_body output_dir default_filename) None
         (after_latest_and_best state is_best output_dir fs) o).
Proof.
  intros Hsome. split.
  - intros fuel. rewrite save_checkpoint_unfold. cbv zeta.
    rewrite must_save_loop_running; [done|].
    by rewrite after_latest_and_best_must_save.
  - intros o. apply must_save_loop_never_ends.
    by rewrite after_latest_and_best_must_save.
Qed.

(** C1 (defect in the code): the specification asks that three milestone
    saves on a directory without milestone files create suffixes 0, 1, 2.
    The first save creates suffix 0 and no other suffix; the second save never
    returns, so suffixes 1 and 2 are never created. *)
Theorem save_checkpoint_second_milestone_never_returns
    state1 state2 is_best1 is_best2 output_dir fs :
  (forall i, fs !! os_path_join output_dir (must_save_filename i) = None) ->
  exists fs1,
    (forall fuel,
       save_checkpoint (S fuel) state1 is_best1 output_dir default_filename
         true fs = Returns tt fs1) /\
    fs1 !! os_path_join output_dir (must_save_filename 0)
      = Some (Pickled state1) /\
    (forall i, i <> 0 ->
       fs1 !! os_path_join output_dir (must_save_filename i) = None) /\
    (forall fuel,
       save_checkpoint fuel state2 is_best2 output_dir default_filename
         true fs1 = Running).
Proof.
  intros Hnone.
  exists (<[os_path_join output_dir (must_save_filename 0) := Pickled state1]>
            (after_latest_and_best state1 is_best1 output_dir fs)).
  split; [|split; [|split]].
  - intros fuel. rewrite save_checkpoint_unfold. cbv zeta. simpl.
    erewrite must_save_body_absent;
      [done
      |by rewrite after_latest_and_best_must_save
      |apply after_latest_and_best_latest].
  - apply lookup_insert_eq.
  - intros i Hi. rewrite lookup_insert_ne.
    + by rewrite after_latest_and_best_must_save.
    + intros Heq. apply must_save_path_inj in Heq. congruence.
  - intros fuel. rewrite save_checkpoint_unfold. cbv zeta.
    rewrite must_save_loop_running; [done|].
    rewrite after_latest_and_best_must_save, lookup_insert_eq. by eexists.
Qed.

(** The milestone loop, whatever [filename] is: when it is left, suffix 0 was
    absent and now holds a copy of the latest file. *)
Lemma must_save_loop_returns output_dir filename fuel prev fs s fs' :
  while_true fuel (must_save_body output_dir filename) prev fs = Returns s fs' ->
  fs !! os_path_join output_dir (must_save_filename 0) = None /\
  exists f,
    fs !! os_path_join output_dir filename = Some f /\
    fs' = <[os_path_join output_dir (must_save_filename 0) := f]> fs.
Proof.
  destruct (fs !! os_path_join output_dir (must_save_filename 0)) eqn:Hfs.
  { rewrite must_save_loop_running; [done|]. rewrite Hfs. by eexists. }
  destruct fuel as [|fuel]; [done|]. simpl.
  unfold must_save_body, bind, os_path_exists.
  rewrite bool_decide_eq_false_2; [|rewrite Hfs; by intros [? ?]].
  simpl. unfold shutil_copyfile.
  destruct (fs !! os_path_join output_dir filename) as [f|] eqn:Hsrc; [|done].
  destruct (decide _) as [Heq|_]; [done|].
  simpl. intros [= _ <-]. split; [done|]. by exists f.
Qed.

(** C10: whenever a call of [save_checkpoint] with [is_best=True] returns, the
    best slot and the latest slot hold the same record, the one this call
    wrote: the best slot is a copy of the file just written. *)
Theorem save_checkpoint_best_is_copy_of_latest
    fuel state output_dir filename must_save fs fs' :
  save_checkpoint fuel state true output_dir filename must_save fs
  = Returns tt fs' ->
  fs' !! os_path_join output_dir best_filename = Some (Pickled state) /\
  fs' !! os_path_join output_dir filename = Some (Pickled state) /\
  fs' !! os_path_join output_dir best_filename
  = fs' !! os_path_join output_dir filename.
Proof.
  unfold save_checkpoint, bind, torch_save, modify, shutil_copyfile, ret.
  rewrite lookup_insert_eq.
  destruct (decide _) as [Heq|Hne]; [done|].
  set (latest := os_path_join output_dir filename) in *.
  set (best := os_path_join output_dir best_filename) in *.
  set (fs2 := <[best := Pickled state]> (<[latest := Pickled state]> fs)).
  assert (Hbest : fs2 !! best = Some (Pickled state))
    by apply lookup_insert_eq.
  assert (Hlatest : fs2 !! latest = Some (Pickled state)).
  { unfold fs2. rewrite lookup_insert_ne; [|done]. apply lookup_insert_eq. }
  destruct must_save.
  - destruct (while_true fuel _ None fs2) as [s fs3|e fs3|] eqn:Hloop; try done.
    intros [= <-].
    apply must_save_loop_returns in Hloop as (Hnone & f & _ & ->).
    rewrite !lookup_insert_ne; [by rewrite Hbest, Hlatest| |];
      intros Heq; congruence.
  - intros [= <-]. by rewrite Hbest, Hlatest.
Qed.

(** The latest and best slots after a call with the default [filename]. *)
Lemma save_checkpoint_returns_slots
    fuel state is_best output_dir must_save fs fs' :
  save_checkpoint fuel state is_best output_dir default_filename must_save fs
  = Returns tt fs' ->
  fs' !! os_path_join output_dir default_filename = Some (Pickled state) /\
  fs' !! os_path_join output_dir best_filename
  = if is_best then Some (Pickled state)
    else fs !! os_path_join output_dir best_filename.
Proof.
  rewrite save_checkpoint_unfold. cbv zeta.
  assert (Hbest : after_latest_and_best state is_best output_dir fs
                    !! os_path_join output_dir best_filename
                  = if is_best then Some (Pickled state)
                    else fs !! os_path_join output_dir best_filename).
  { unfold after_latest_and_best. destruct is_best.
    - apply lookup_insert_eq.
    - rewrite lookup_insert_ne; [done|apply best_path_ne_default]. }
  destruct must_save.
  - destruct (while_true fuel _ None _) as [s fs3|e fs3|] eqn:Hloop; try done.
    intros [= <-].
    apply must_save_loop_returns in Hloop as (_ & f & _ & ->).
    rewrite !lookup_insert_ne;
      [|apply not_eq_sym, must_save_path_ne_best
       |apply not_eq_sym, must_save_path_ne_default].
    by rewrite after_latest_and_best_latest.
  - intros [= <-]. by rewrite after_latest_and_best_latest.
Qed.

End SaveCheckpointFacts.

(** The failing runs on concrete directories: a call on a directory that
    holds the suffix-0 milestone ... *)
Lemma save_checkpoint_must_save_never_returns_witness :
  is_Some (dir_with_milestone_0
             !! os_path_join "./" (must_save_filename 0)) /\
  save_checkpoint 1000 (sample_checkpoint 80) false "./" default_filename true
    dir_with_milestone_0 = Running.
Proof.
  assert (Hsome : is_Some (dir_with_milestone_0
                             !! os_path_join "./" (must_save_filename 0)))
    by (by eexists).
  split; [exact Hsome|].
  exact (proj1 (save_checkpoint_must_save_never_returns
                  (sample_checkpoint 80) false "./" dir_with_milestone_0 Hsome)
               1000%nat).
Defined.

(** ... and two milestone saves in a row on an empty directory. *)
Lemma save_checkpoint_second_milestone_never_returns_witness :
  (forall i, (∅ : gmap string (file Z unit unit))
               !! os_path_join "./" (must_save_filename i) = None) /\
  exists fs1 : gmap string (file Z unit unit),
    (forall fuel,
       save_checkpoint (S fuel) (sample_checkpoint 80) false "./"
         default_filename true ∅ = Returns tt fs1) /\
    fs1 !! os_path_join "./" (must_save_filename 0)
      = Some (Pickled (sample_checkpoint 80)) /\
    (forall i, i <> 0 ->
       fs1 !! os_path_join "./" (must_save_filename i) = None) /\
    (forall fuel,
       save_checkpoint fuel (sample_checkpoint 81) false "./"
         default_filename true fs1 = Running).
Proof.
  assert (Hnone : forall i, (∅ : gmap string (file Z unit unit))
                    !! os_path_join "./" (must_save_filename i) = None)
    by (intros i; apply lookup_empty).
  split; [exact Hnone|].
  exact (save_checkpoint_second_milestone_never_returns
           (sample_checkpoint 80) (sample_checkpoint 81) false false "./" ∅
           Hnone).
Defined.

(** ** [AverageMeter] *)

Section MeterFacts.

Context {V : Type} `{PyNum V}.
Implicit Types (self : AverageMeter.t V) (v : V) (n : Z).

(** [update] in one step: the new sum and count, then the division. *)
Lemma update_unfold v n self :
  AverageMeter.update v n self =
  let s := add (AverageMeter.sum self) (mul_int v n) in
  let c := AverageMeter.count self + n in
  match div_int s c with
  | Some q => Returns tt (AverageMeter.Make v q s c)
  | None =>
      Raises ZeroDivisionError
        (AverageMeter.Make v (AverageMeter.avg self) s c)
  end.
Proof.
  unfold AverageMeter.update, bind, modify, get. simpl.
  destruct (div_int _ _); reflexivity.
Qed.

Lemma div_int_Some v n : n <> 0 -> exists q, div_int v n = Some q.
Proof.
  intros Hn. destruct (div_int v n) as [q|] eqn:Hdiv; [by exists q|].
  by destruct (div_int_nonzero v n Hn).
Qed.

(** A call that returns leaves the mean [sum / count]. *)
Lemma update_returns v n self self' :
  AverageMeter.update v n self = Returns tt self' ->
  AverageMeter.count self' = AverageMeter.count self + n /\
  AverageMeter.sum self' = add (AverageMeter.sum self) (mul_int v n) /\
  AverageMeter.val self' = v /\
  div_int (AverageMeter.sum self') (AverageMeter.count self')
    = Some (AverageMeter.avg self').
Proof.
  rewrite update_unfold. cbv zeta.
  destruct (div_int _ _) as [q|] eqn:Hdiv; [|done].
  intros [= <-]. simpl. repeat split; done.
Qed.

(** With Python numbers a call that returns leaves a nonzero count. *)
Lemma update_returns_count `{!PyScalar V} v n self self' :
  AverageMeter.update v n self = Returns tt self' ->
  AverageMeter.count self' <> 0.
Proof.
  rewrite update_unfold. cbv zeta.
  destruct (div_int _ _) as [q|] eqn:Hdiv; [|done].
  intros [= <-]. simpl. intros Hc. rewrite Hc, div_int_zero in Hdiv.
  discriminate Hdiv.
Qed.

(** The invariant of a meter of Python numbers: it is as [reset] left it, or
    its count is nonzero and its mean is [sum / count]. *)
Lemma reachable_inv `{!PyScalar V} self :
  AverageMeter.reachable self ->
  self = AverageMeter.zeroed \/
  (AverageMeter.count self <> 0 /\
   div_int (AverageMeter.sum self) (AverageMeter.count self)
     = Some (AverageMeter.avg self)).
Proof.
  induction 1 as [|self v n self' _ _ Hupd]; [by left|].
  right. split; [by eapply update_returns_count|].
  apply update_returns in Hupd. tauto.
Qed.

(** Calls with positive weights on a meter whose count is not negative all
    return; the sums are the left folds of the calls. *)
Lemma updates_positive calls : forall self,
  Forall (fun c => 0 < snd c) calls ->
  0 <= AverageMeter.count self ->
  exists self',
    AverageMeter.updates calls self = Returns tt self' /\
    AverageMeter.sum self'
      = fold_left (fun acc c => add acc (mul_int (fst c) (snd c))) calls
          (AverageMeter.sum self) /\
    AverageMeter.count self'
      = fold_left (fun acc c => acc + snd c) calls (AverageMeter.count self) /\
    0 <= AverageMeter.count self' /\
    match calls with
    | [] => self' = self
    | _ :: _ =>
        div_int (AverageMeter.sum self') (AverageMeter.count self')
          = Some (AverageMeter.avg self')
    end.
Proof.
  induction calls as [|[v n] calls IH]; intros self Hpos Hcount.
  - exists self. simpl. repeat split; done.
  - apply Forall_cons in Hpos as [Hn Hpos]. simpl in Hn.
    destruct (div_int_Some (add (AverageMeter.sum self) (mul_int v n))
                (AverageMeter.count self + n)) as [q Hq]; [lia|].
    pose (self1 := AverageMeter.Make v q
                     (add (AverageMeter.sum self) (mul_int v n))
                     (AverageMeter.count self + n)).
    assert (Hupd : AverageMeter.update v n self = Returns tt self1).
    { rewrite update_unfold. cbv zeta. by rewrite Hq. }
    destruct (IH self1 Hpos) as (self' & Hrun & Hsum & Hcnt & Hnonneg & Hlast);
      [simpl; lia|].
    exists self'. simpl. unfold bind. rewrite Hupd.
    repeat split; try done.
    destruct calls as [|c calls]; [|done].
    subst self'. simpl. done.
Qed.

(** The run behind C8, for any number type. *)
Lemma updates_after_reset (calls : list (V * Z)) self0 :
  Forall (fun c => 0 < snd c) calls ->
  exists self',
    bind AverageMeter.reset (fun _ => AverageMeter.updates calls) self0
      = Returns tt self' /\
    AverageMeter.sum self' = AverageMeter.weighted_sum calls /\
    AverageMeter.count self' = AverageMeter.total_weight calls /\
    match calls with
    | [] => self' = AverageMeter.zeroed
    | _ :: _ =>
        div_int (AverageMeter.weighted_sum calls)
                (AverageMeter.total_weight calls)
          = Some (AverageMeter.avg self')
    end.
Proof.
  intros Hpos.
  destruct (updates_positive calls AverageMeter.zeroed Hpos)
    as (self' & Hrun & Hsum & Hcnt & _ & Hlast); [done|].
  exists self'. unfold bind, AverageMeter.reset, modify.
  repeat split; try done.
  destruct calls as [|c calls]; [done|].
  rewrite Hsum, Hcnt in Hlast. exact Hlast.
Qed.

End MeterFacts.

(** The two sums in exact arithmetic, written as sums of lists. *)
Lemma weighted_sum_Qc (calls : list (Qc * Z)) :
  AverageMeter.weighted_sum calls
  = fold_right Qcplus 0%Qc
      (map (fun c => (fst c * Qc_of_Z (snd c))%Qc) calls).
Proof.
  unfold AverageMeter.weighted_sum. simpl.
  rewrite Z2Qc_inj_0.
  assert (Hgen : forall (a : Qc),
            fold_left (fun acc c => (acc + fst c * Qc_of_Z (snd c))%Qc) calls a
            = (a + fold_right Qcplus 0
                     (map (fun c => fst c * Qc_of_Z (snd c)) calls))%Qc).
  { induction calls as [|c calls IH]; intros a; simpl; [ring|].
    rewrite IH. ring. }
  rewrite Hgen. ring.
Qed.

Lemma total_weight_sum {V} (calls : list (V * Z)) :
  AverageMeter.total_weight calls = fold_right Z.add 0 (map snd calls).
Proof.
  unfold AverageMeter.total_weight.
  assert (Hgen : forall a,
            fold_left (fun acc (c : V * Z) => acc + snd c) calls a
            = a + fold_right Z.add 0 (map snd calls)).
  { induction calls as [|c calls IH]; intros a; simpl; [lia|].
    rewrite IH. lia. }
  rewrite Hgen. lia.
Qed.

(** C8: for every sequence of [update(value, weight)] calls with strictly
    positive weights made after a [reset], every call returns and the meter's
    mean is [sum(value_i * weight_i) / sum(weight_i)], the sums being those
    [update] accumulates (for the empty sequence the meter is as [reset] left
    it); in exact arithmetic the mean is the quotient of the two sums as sums
    of lists.  Immediately after [reset] the fields [val], [sum], [count] and
    [avg] are all zero. *)
Theorem mean_is_weighted_sum_over_total_weight :
  (forall V (HN : PyNum V) (self0 : AverageMeter.t V),
     exists self1,
       AverageMeter.reset self0 = Returns tt self1 /\
       AverageMeter.val self1 = of_int 0 /\
       AverageMeter.sum self1 = of_int 0 /\
       AverageMeter.count self1 = 0 /\
       AverageMeter.avg self1 = of_int 0) /\
  (forall V (HN : PyNum V) (calls : list (V * Z)) (self0 : AverageMeter.t V),
     Forall (fun c => 0 < snd c) calls ->
     exists self',
       bind AverageMeter.reset (fun _ => AverageMeter.updates calls) self0
         = Returns tt self' /\
       AverageMeter.sum self' = AverageMeter.weighted_sum calls /\
       AverageMeter.count self' = AverageMeter.total_weight calls /\
       match calls with
       | [] => AverageMeter.avg self' = of_int 0
       | _ :: _ =>
           div_int (AverageMeter.weighted_sum calls)
                   (AverageMeter.total_weight calls)
             = Some (AverageMeter.avg self')
       end) /\
  (forall (calls : list (Qc * Z)) (self0 : AverageMeter.t Qc),
     Forall (fun c => 0 < snd c) calls ->
     calls <> [] ->
     exists self',
       bind AverageMeter.reset (fun _ => AverageMeter.updates calls) self0
         = Returns tt self' /\
       AverageMeter.avg self'
       = (fold_right Qcplus 0 (map (fun c => fst c * Qc_of_Z (snd c)) calls)
          / Qc_of_Z (fold_right Z.add 0%Z (map snd calls)))%Qc).
Proof.
  split; [|split].
  - intros V HN self0. exists AverageMeter.zeroed. repeat split.
  - intros V HN calls self0 Hpos.
    destruct (updates_after_reset calls self0 Hpos)
      as (self' & Hrun & Hsum & Hcnt & Hlast).
    exists self'. repeat split; try done.
    destruct calls as [|c calls]; [by subst self'|exact Hlast].
  - intros calls self0 Hpos Hne.
    destruct (updates_after_reset calls self0 Hpos)
      as (self' & Hrun & _ & _ & Hlast).
    exists self'. split; [exact Hrun|].
    destruct calls as [|c calls]; [done|].
    rewrite <- weighted_sum_Qc, <- total_weight_sum.
    simpl in Hlast. destruct (decide _) as [|_]; [done|].
    by injection Hlast as <-.
Qed.

(** In exact arithmetic a zero-weight call adds nothing to the sum. *)
Lemma Qc_add_mul_int_0 (s v : Qc) : add s (mul_int v 0) = s.
Proof.
  simpl. replace (Qc_of_Z 0) with 0%Qc by (by apply Qc_is_canon). ring.
Qed.

(** C3 (corrected statement): whether [update] has an error condition
    depends on the values the meter is given.

    With Python numbers ([int], [float]: the loss and the timing meters)
    [update(value, weight)] raises [ZeroDivisionError] exactly when the new
    count, [count + weight], is zero, for every weight; [val], [sum] and
    [count] are assigned before the division and [avg] keeps its old value.
    So [update(value, 0)] returns on every meter whose count is not zero,
    leaving the count as it was and, in exact arithmetic on a meter reached
    from [reset], the mean and the sum as they were; on a meter whose count is
    zero, such as a freshly reset one, it raises.  In every state reached from
    [reset] through calls that return, [count == 0] implies [avg == 0].

    With tensors (the top-1 and top-5 meters) [update] never raises: the
    division by a zero count gives [nan] or [inf].  [update(value, 0)] on a
    freshly reset meter then returns with [count == 0] and [avg] a [nan], so
    [count == 0] does not imply [avg == 0] there. *)
Theorem update_zero_weight :
  (forall V (HV : PyNum V) (self : AverageMeter.t V) (v : V) (n : Z),
     AverageMeter.count self + n <> 0 ->
     exists q,
       div_int (add (AverageMeter.sum self) (mul_int v n))
               (AverageMeter.count self + n) = Some q /\
       AverageMeter.update v n self
       = Returns tt (AverageMeter.Make v q
                       (add (AverageMeter.sum self) (mul_int v n))
                       (AverageMeter.count self + n))) /\
  (forall V (HV : PyNum V) (HS : PyScalar V) (self : AverageMeter.t V)
          (v : V) (n : Z),
     AverageMeter.count self + n = 0 ->
     AverageMeter.update v n self
     = Raises ZeroDivisionError
         (AverageMeter.Make v (AverageMeter.avg self)
            (add (AverageMeter.sum self) (mul_int v n)) 0)) /\
  (forall V (HV : PyNum V) (HS : PyScalar V) (self : AverageMeter.t V),
     AverageMeter.reachable self ->
     AverageMeter.count self = 0 -> AverageMeter.avg self = of_int 0) /\
  (forall (self : AverageMeter.t Qc) (v : Qc),
     AverageMeter.reachable self ->
     AverageMeter.count self <> 0 ->
     exists self',
       AverageMeter.update v 0 self = Returns tt self' /\
       AverageMeter.avg self' = AverageMeter.avg self /\
       AverageMeter.sum self' = AverageMeter.sum self /\
       AverageMeter.count self' = AverageMeter.count self) /\
  (forall V (HV : PyNum V) (HT : PyTensor V) (self : AverageMeter.t V)
          (v : V) (n : Z),
     exists q,
       div_int (add (AverageMeter.sum self) (mul_int v n))
               (AverageMeter.count self + n) = Some q /\
       AverageMeter.update v n self
       = Returns tt (AverageMeter.Make v q
                       (add (AverageMeter.sum self) (mul_int v n))
                       (AverageMeter.count self + n))) /\
  (AverageMeter.update (Tensor0 50) 0 AverageMeter.init
   = Returns tt
       (AverageMeter.Make (Tensor0 50) (Tensor0 nan) (Tensor0 0) 0) /\
   AverageMeter.reachable
     (AverageMeter.Make (Tensor0 50) (Tensor0 nan) (Tensor0 0) 0))%float.
Proof.
  split; [|split; [|split; [|split; [|split]]]].
  - intros V HV self v n Hc.
    destruct (div_int_Some (add (AverageMeter.sum self) (mul_int v n))
                (AverageMeter.count self + n) Hc) as [q Hq].
    exists q. split; [done|].
    rewrite update_unfold. cbv zeta. by rewrite Hq.
  - intros V HV HS self v n Hc.
    rewrite update_unfold. cbv zeta. rewrite Hc. by rewrite div_int_zero.
  - intros V HV HS self Hreach Hc.
    destruct (reachable_inv self Hreach) as [->|[Hne _]]; [done|].
    by destruct Hne.
  - intros self v Hreach Hc.
    destruct (reachable_inv self Hreach) as [->|[_ Hdiv]]; [done|].
    rewrite update_unfold. cbv zeta.
    rewrite Z.add_0_r, Qc_add_mul_int_0, Hdiv.
    eexists. split; [done|]. done.
  - intros V HV HT self v n.
    destruct (div_int (add (AverageMeter.sum self) (mul_int v n))
                (AverageMeter.count self + n)) as [q|] eqn:Hq.
    + exists q. split; [done|].
      rewrite update_unfold. cbv zeta. by rewrite Hq.
    + destruct (decide (AverageMeter.count self + n = 0)) as [Hc|Hc].
      * rewrite Hc in Hq. by destruct (div_tensor_zero _ Hq).
      * by destruct (div_int_nonzero _ _ Hc Hq).
  - assert (Hrun :
      AverageMeter.update (Tensor0 50%float) 0 AverageMeter.init
      = Returns tt
          (AverageMeter.Make (Tensor0 50) (Tensor0 nan) (Tensor0 0) 0)%float)
      by (vm_compute; reflexivity).
    split; [exact Hrun|].
    eapply AverageMeter.reachable_update;
      [apply AverageMeter.reachable_reset|exact Hrun].
Qed.

(** Two float updates: [(0.5 * 2 + 0.25 * 6) / 8 = 0.3125]. *)
Example updates_on_floats :
  AverageMeter.updates sample_calls AverageMeter.init
  = Returns tt (AverageMeter.Make 0.25 0.3125 2.5 8)%float.
Proof. vm_compute. reflexivity. Qed.

(** A zero-weight update on a meter that holds one value: the mean stays. *)
Example zero_weight_after_update :
  AverageMeter.updates [(0.5%float, 2); (0.75%float, 0)] AverageMeter.init
  = Returns tt (AverageMeter.Make 0.75 0.5 1 2)%float.
Proof. vm_compute. reflexivity. Qed.

(** A meter reached from [reset] with a nonzero count. *)
Example reachable_after_update :
  exists self : AverageMeter.t Qc,
    AverageMeter.reachable self /\ AverageMeter.count self = 2.
Proof.
  eexists. split.
  - eapply AverageMeter.reachable_update; [apply AverageMeter.reachable_reset|].
    rewrite (update_unfold (Qc_of_Z 3) 2). reflexivity.
  - reflexivity.
Qed.

(** C3 (counterexample): on a freshly constructed meter [update(0.5, 0)]
    raises [ZeroDivisionError]; [val], [sum] and [count] were assigned before
    the division. *)
Lemma update_zero_weight_on_reset_raises :
  AverageMeter.update 0.5%float 0 AverageMeter.init
  = Raises ZeroDivisionError (AverageMeter.Make 0.5 0 0 0)%float.
Proof. vm_compute. reflexivity. Qed.

(** The mean after two float updates with batch sizes 2 and 6. *)
Lemma mean_is_weighted_sum_over_total_weight_witness :
  Forall (fun c : float * Z => 0 < snd c) sample_calls /\
  exists self',
    bind AverageMeter.reset (fun _ => AverageMeter.updates sample_calls)
      AverageMeter.init = Returns tt self' /\
    div_int (AverageMeter.weighted_sum sample_calls)
            (AverageMeter.total_weight sample_calls)
      = Some (AverageMeter.avg self').
Proof.
  assert (Hpos : Forall (fun c : float * Z => 0 < snd c) sample_calls)
    by (repeat constructor; simpl; lia).
  split; [exact Hpos|].
  destruct (proj1 (proj2 mean_is_weighted_sum_over_total_weight)
              float _ sample_calls AverageMeter.init Hpos)
    as (self' & Hrun & _ & _ & Havg).
  exists self'. split; [exact Hrun|exact Havg].
Defined.

(** A best save into an empty directory. *)
Lemma save_checkpoint_best_is_copy_of_latest_witness :
  save_checkpoint 1 (sample_checkpoint 3) true "./" default_filename false ∅
  = Returns tt
      (<["./model_best.pth.tar" := Pickled (sample_checkpoint 3)]>
         (<["./checkpoint.pth.tar" := Pickled (sample_checkpoint 3)]> ∅)) /\
  (<["./model_best.pth.tar" := Pickled (sample_checkpoint 3)]>
     (<["./checkpoint.pth.tar" := Pickled (sample_checkpoint 3)]> ∅)
     : gmap string (file Z unit unit))
    !! os_path_join "./" best_filename
  = Some (Pickled (sample_checkpoint 3)).
Proof.
  assert (Hrun :
    save_checkpoint 1 (sample_checkpoint 3) true "./" default_filename false ∅
    = Returns tt
        (<["./model_best.pth.tar" := Pickled (sample_checkpoint 3)]>
           (<["./checkpoint.pth.tar" := Pickled (sample_checkpoint 3)]> ∅)))
    by reflexivity.
  split; [exact Hrun|].
  exact (proj1 (save_checkpoint_best_is_copy_of_latest
                  1%nat (sample_checkpoint 3) "./" default_filename false ∅ _
                  Hrun)).
Defined.

(** ** The order on metrics *)

Create HintDb pyord.

Section OrderFacts.

Context {V : Type} `{PyOrd V}.
Implicit Types (a b c : V).

Lemma py_gt_asym a b : py_gt a b = true -> py_gt b a = false.
Proof.
  intros Hab. destruct (py_gt b a) eqn:Hba; [|done].
  pose proof (py_gt_trans a b a Hab Hba) as Haa. by rewrite py_gt_irrefl in Haa.
Qed.

Lemma py_le_refl a : py_le a a = true.
Proof. unfold py_le. by rewrite py_gt_irrefl. Qed.

Lemma py_le_trans a b c : py_le a b = true -> py_le b c = true -> py_le a c = true.
Proof.
  unfold py_le. intros Hab Hbc. destruct (py_gt a c) eqn:Hac; [|done].
  destruct (py_gt_cotrans a b c Hac) as [Hgt|Hgt]; rewrite Hgt in *; done.
Qed.

(** [max(a, b)] is one of its arguments and is below neither. *)
Lemma py_max_choice a b : py_max a b = a \/ py_max a b = b.
Proof. unfold py_max. destruct (py_gt b a); auto. Qed.

Lemma py_max_ge_l a b : py_le a (py_max a b) = true.
Proof.
  unfold py_max, py_le. destruct (py_gt b a) eqn:Hba.
  - by rewrite (py_gt_asym b a Hba).
  - by rewrite py_gt_irrefl.
Qed.

Lemma py_max_ge_r a b : py_le b (py_max a b) = true.
Proof.
  unfold py_max, py_le. destruct (py_gt b a) eqn:Hba.
  - by rewrite py_gt_irrefl.
  - by rewrite Hba.
Qed.

(** A new value that does not exceed the best leaves it as it is, up to the
    order: the maximum is then not above the old best. *)
Lemma py_max_not_gt a b : py_gt a b = false -> py_le (py_max a b) b = true.
Proof.
  unfold py_max, py_le. intros Hab. destruct (py_gt b a); [by rewrite py_gt_irrefl|].
  by rewrite Hab.
Qed.

(** A tie keeps the old best. *)
Lemma py_max_tie a : py_max a a = a.
Proof. unfold py_max. by rewrite py_gt_irrefl. Qed.

End OrderFacts.

#[export] Hint Resolve py_le_refl py_le_trans py_max_ge_l py_max_ge_r : pyord.

(** ** [main]: the checkpoint phase, resume and the epoch loop *)

Section MainFacts.

Context {V ModelState Buffers : Type} `{PyOrd V}.
Context (train : ModelState -> Optimizer Buffers -> Z ->
                 ModelState * Optimizer Buffers).
Context (validate : ModelState -> V).
Implicit Types (w : World V ModelState Buffers).

(** One iteration of the epoch loop as a single call of [save_checkpoint]. *)
Lemma main_epoch_unfold fuel epoch w :
  main_epoch train validate fuel epoch w =
  match save_checkpoint fuel (saved_state train validate w epoch)
          (py_gt (prec1_of train validate w epoch) (best_prec1 w))
          (output_dir (args w)) default_filename
          (bool_decide (epoch + 1 = 80)) (files w) with
  | Returns _ fs => Returns tt (after_epoch train validate w epoch fs)
  | Raises e fs => Raises e (after_epoch train validate w epoch fs)
  | Running => Running
  end.
Proof.
  unfold main_epoch, bind, modify, get, in_files. simpl.
  fold (trained train w epoch). fold (prec1_of train validate w epoch).
  fold (saved_state train validate w epoch).
  destruct (save_checkpoint _ _ _ _ _ _ _) as [[] fs|e fs|]; reflexivity.
Qed.

(** An iteration that returns ends in [after_epoch] of the files the
    checkpoint phase left. *)
Lemma main_epoch_returns fuel epoch w w' :
  main_epoch train validate fuel epoch w = Returns tt w' ->
  exists fs,
    save_checkpoint fuel (saved_state train validate w epoch)
      (py_gt (prec1_of train validate w epoch) (best_prec1 w))
      (output_dir (args w)) default_filename
      (bool_decide (epoch + 1 = 80)) (files w) = Returns tt fs /\
    w' = after_epoch train validate w epoch fs.
Proof.
  rewrite main_epoch_unfold.
  destruct (save_checkpoint _ _ _ _ _ _ _) as [[] fs|e fs|]; try done.
  intros [= <-]. by exists fs.
Qed.

(** Away from the milestone epoch the iteration returns with any fuel. *)
Lemma main_epoch_no_milestone fuel epoch w :
  epoch + 1 <> 80 ->
  main_epoch train validate fuel epoch w
  = Returns tt
      (after_epoch train validate w epoch
         (after_latest_and_best (saved_state train validate w epoch)
            (py_gt (prec1_of train validate w epoch) (best_prec1 w))
            (output_dir (args w)) (files w))).
Proof.
  intros Hne. rewrite main_epoch_unfold, save_checkpoint_unfold. cbv zeta.
  by rewrite bool_decide_eq_false_2.
Qed.

(** The checkpoint phase of one epoch: [is_best] is [prec1 > best_prec1];
    the new best is [max(prec1, best_prec1)], not below the old one; the best
    slot is overwritten with this epoch's record when [is_best] and left as it
    was otherwise; the latest slot holds this epoch's record. *)
Lemma main_epoch_checkpoint_phase fuel epoch w w' :
  main_epoch train validate fuel epoch w = Returns tt w' ->
  best_prec1 w' = py_max (prec1_of train validate w epoch) (best_prec1 w) /\
  py_le (best_prec1 w) (best_prec1 w') = true /\
  files w' !! os_path_join (output_dir (args w)) default_filename
  = Some (Pickled (saved_state train validate w epoch)) /\
  files w' !! os_path_join (output_dir (args w)) best_filename
  = (if py_gt (prec1_of train validate w epoch) (best_prec1 w)
     then Some (Pickled (saved_state train validate w epoch))
     else files w !! os_path_join (output_dir (args w)) best_filename) /\
  args w' = args w.
Proof.
  intros (fs & Hsave & ->)%main_epoch_returns.
  apply save_checkpoint_returns_slots in Hsave as [Hlatest Hbest].
  simpl. repeat split; try done. auto with pyord.
Qed.

(** [best_prec1] never decreases over the epoch loop. *)
Lemma main_loop_best_monotone fuel (l : list Z) : forall w w',
  for_each l (main_epoch train validate fuel) w = Returns tt w' ->
  py_le (best_prec1 w) (best_prec1 w') = true.
Proof.
  induction l as [|epoch l IH]; intros w w'; simpl.
  - intros [= <-]. auto with pyord.
  - unfold bind.
    destruct (main_epoch train validate fuel epoch w) as [[] w1|e w1|] eqn:Hstep;
      try done.
    intros Hrest.
    apply main_epoch_checkpoint_phase in Hstep as (_ & Hle & _).
    eauto with pyord.
Qed.

(** Lines 128-139 when the resume path names no file. *)
Lemma main_resume_missing w :
  truthy (resume (args w)) = true ->
  files w !! resume (args w) = None ->
  main_resume w
  = Returns tt
      (MkWorld (files w)
         (stdout w ++ ["=> no checkpoint found at '" +:+ resume (args w) +:+ "'"])
         (args w) (best_prec1 w) (model w) (optimizer w)).
Proof.
  intros Htruthy Hnone.
  unfold main_resume, bind, get, in_files, os_path_isfile, os_path_exists.
  rewrite Htruthy. simpl. rewrite Hnone.
  rewrite bool_decide_eq_false_2; [done|]. by intros [? ?].
Qed.

(** Lines 128-139 when the resume path names a checkpoint file. *)
Lemma main_resume_loads w c :
  truthy (resume (args w)) = true ->
  files w !! resume (args w) = Some (Pickled c) ->
  main_resume w
  = Returns tt
      (MkWorld (files w)
         ((stdout w ++ ["=> loading checkpoint '" +:+ resume (args w) +:+ "'"])
          ++ ["=> loaded checkpoint '" +:+ resume (args w) +:+ "' (epoch "
              +:+ fmt_d (ckpt_epoch c) +:+ ")"])
         (MkArgs (arch (args w)) (epochs (args w)) (ckpt_epoch c)
            (lr (args w)) (resume (args w)) (evaluate (args w))
            (ctype (args w)) (output_dir (args w)))
         (ckpt_best_prec1 c) (ckpt_state_dict c) (ckpt_optimizer c)).
Proof.
  intros Htruthy Hfile.
  unfold main_resume, bind, get, in_files, os_path_isfile, os_path_exists.
  rewrite Htruthy. simpl. rewrite Hfile.
  rewrite bool_decide_eq_true_2; [|by eexists].
  unfold print, modify, torch_load, load_from. simpl. by rewrite Hfile.
Qed.

(** The epoch loop proper: [main_run] on a CIFAR-10 or CIFAR-100 run that is
    not evaluate-only. *)
Lemma main_run_loop fuel w :
  ctype (args w) = 10 \/ ctype (args w) = 100 ->
  evaluate (args w) = false ->
  main_run train validate fuel w
  = for_each (range (start_epoch (args w)) (epochs (args w)))
      (main_epoch train validate fuel) w.
Proof.
  intros Hctype Heval. unfold main_run, bind, get. rewrite Heval.
  destruct Hctype as [Hc|Hc]; rewrite Hc; done.
Qed.

End MainFacts.

(** ** [range] *)

Lemma range_cons a b : a < b -> range a b = a :: range (a + 1) b.
Proof.
  intros Hlt. unfold range.
  replace (Z.to_nat (b - a)) with (S (Z.to_nat (b - (a + 1)))) by lia.
  simpl. rewrite Z.add_0_r. f_equal.
  rewrite <- seq_shift, map_map. apply map_ext. intros k. lia.
Qed.

Lemma range_nil a b : b <= a -> range a b = [].
Proof.
  intros Hle. unfold range. by replace (Z.to_nat (b - a)) with 0%nat by lia.
Qed.

Lemma range_elem a b x : In x (range a b) <-> a <= x < b.
Proof.
  unfold range. rewrite in_map_iff. split.
  - intros (k & <- & Hk%in_seq). lia.
  - intros Hx. exists (Z.to_nat (x - a)). split; [lia|].
    apply in_seq. lia.
Qed.

(** C5: at the end of each epoch [is_best] is [prec1 > best_prec1]: the best
    slot is overwritten exactly then and left alone otherwise, ties included;
    [best_prec1] becomes [max(prec1, best_prec1)] and never decreases over the
    run.  For the validation top-1 sequence [70, 65, 72, 72, 80] the best slot
    is written after epochs 0, 2 and 4 (it records epochs 1, 1, 3, 3, 5 after
    the five epochs) and the final [best_prec1] is 80. *)
Theorem best_prec1_updates_on_strict_improvement :
  (forall V ModelState Buffers (HO : PyOrd V)
          (train : ModelState -> Optimizer Buffers -> Z ->
                   ModelState * Optimizer Buffers)
          (validate : ModelState -> V) fuel epoch
          (w w' : World V ModelState Buffers),
     main_epoch train validate fuel epoch w = Returns tt w' ->
     let prec1 := prec1_of train validate w epoch in
     let best := os_path_join (output_dir (args w)) best_filename in
     best_prec1 w' = py_max prec1 (best_prec1 w) /\
     py_le (best_prec1 w) (best_prec1 w') = true /\
     py_le prec1 (best_prec1 w') = true /\
     (py_gt prec1 (best_prec1 w) = true ->
        best_prec1 w' = prec1 /\
        files w' !! best
        = Some (Pickled (saved_state train validate w epoch))) /\
     (py_gt prec1 (best_prec1 w) = false ->
        py_le (best_prec1 w') (best_prec1 w) = true /\
        files w' !! best = files w !! best) /\
     (prec1 = best_prec1 w ->
        best_prec1 w' = best_prec1 w /\
        files w' !! best = files w !! best)) /\
  (forall V ModelState Buffers (HO : PyOrd V)
          (train : ModelState -> Optimizer Buffers -> Z ->
                   ModelState * Optimizer Buffers)
          (validate : ModelState -> V) fuel (l : list Z)
          (w w' : World V ModelState Buffers),
     for_each l (main_epoch train validate fuel) w = Returns tt w' ->
     py_le (best_prec1 w) (best_prec1 w') = true) /\
  map (fun n_epochs => best_after (sample_run n_epochs)) [1; 2; 3; 4; 5]
  = [ Some (Qc_of_Z 70, Some (1, Qc_of_Z 70));
      Some (Qc_of_Z 70, Some (1, Qc_of_Z 70));
      Some (Qc_of_Z 72, Some (3, Qc_of_Z 72));
      Some (Qc_of_Z 72, Some (3, Qc_of_Z 72));
      Some (Qc_of_Z 80, Some (5, Qc_of_Z 80)) ].
Proof.
  split; [|split].
  - intros V ModelState Buffers HO train validate fuel epoch w w' Hstep.
    cbv zeta.
    apply main_epoch_checkpoint_phase in Hstep
      as (Hbest & Hle & _ & Hslot & _).
    split; [exact Hbest|]. split; [exact Hle|]. rewrite Hbest, Hslot.
    split; [apply py_max_ge_l|]. split; [|split].
    + intros Hgt. rewrite Hgt. split; [|done].
      unfold py_max. by rewrite (py_gt_asym _ _ Hgt).
    + intros Hgt. rewrite Hgt. split; [|done]. by apply py_max_not_gt.
    + intros <-. rewrite py_gt_irrefl. split; [|done]. apply py_max_tie.
  - intros V ModelState Buffers HO train validate fuel l w w'.
    apply main_loop_best_monotone.
  - vm_compute. reflexivity.
Qed.

(** The milestone defect seen from [main]: a run of 85 epochs leaves the
    suffix-0 milestone at epoch index 79; a second run in the same directory
    is still in its [save_checkpoint] call of epoch 79 when the fuel is
    spent. *)
Example second_run_hangs_at_milestone :
  sample_run 85 = Returns tt sample_world_after_85 /\
  is_Some (files sample_world_after_85 !! "./model_must_save_0.pth.tar") /\
  main sample_train sample_validate 1000
    (sample_restart (files sample_world_after_85) 85 "") = Running.
Proof.
  split; [vm_compute; reflexivity|].
  split; [vm_compute; by eexists|].
  vm_compute. reflexivity.
Qed.

(** C9: when a resume path is given and names no file, the resume step
    returns having printed one line, ["=> no checkpoint found at '<path>'"],
    and nothing else changed: [args] (with its start epoch), [best_prec1],
    the model, the optimizer and the files are as before.  [main] then goes
    on to train: on a CIFAR-10 or CIFAR-100 run that is not evaluate-only it
    runs the epoch loop over [range(args.start_epoch, args.epochs)] from that
    world, starting, when the range is not empty, with an epoch at the
    unchanged start epoch on the unchanged model.  A fresh run of the epochs
    with metrics 70, 65, 72, 72, 80 that is asked to resume from a path
    naming no file trains its five epochs and ends with the model, the
    optimizer, [best_prec1] and the files of the same run without a resume
    path. *)
Theorem resume_missing_checkpoint_continues :
  (forall V ModelState Buffers (HO : PyOrd V)
          (train : ModelState -> Optimizer Buffers -> Z ->
                   ModelState * Optimizer Buffers)
          (validate : ModelState -> V) fuel (w : World V ModelState Buffers),
     truthy (resume (args w)) = true ->
     files w !! resume (args w) = None ->
     exists w',
       main_resume w = Returns tt w' /\
       stdout w'
       = stdout w
         ++ ["=> no checkpoint found at '" +:+ resume (args w) +:+ "'"] /\
       args w' = args w /\
       best_prec1 w' = best_prec1 w /\
       model w' = model w /\
       optimizer w' = optimizer w /\
       files w' = files w /\
       main train validate fuel w = main_run train validate fuel w' /\
       (ctype (args w) = 10 \/ ctype (args w) = 100 ->
        evaluate (args w) = false ->
        main train validate fuel w
        = for_each (range (start_epoch (args w)) (epochs (args w)))
            (main_epoch train validate fuel) w' /\
        (start_epoch (args w) < epochs (args w) ->
         main train validate fuel w
         = bind (main_epoch train validate fuel (start_epoch (args w)))
             (fun _ =>
                for_each (range (start_epoch (args w) + 1) (epochs (args w)))
                  (main_epoch train validate fuel))
             w'))) /\
  (exists w0 w5,
     sample_run 5 = Returns tt w0 /\
     main sample_train sample_validate 1 (sample_world 5 "nofile.pth.tar")
     = Returns tt w5 /\
     stdout w5 = ["=> no checkpoint found at 'nofile.pth.tar'"] /\
     model w5 = [0; 1; 2; 3; 4] /\
     latest_epoch w5 = Some 5 /\
     best_prec1 w5 = Qc_of_Z 80 /\
     model w5 = model w0 /\
     optimizer w5 = optimizer w0 /\
     best_prec1 w5 = best_prec1 w0 /\
     files w5 = files w0).
Proof.
  split.
  - intros V ModelState Buffers HO train validate fuel w Htruthy Hnone.
    eexists. split; [by apply main_resume_missing|].
    simpl. repeat split.
    + unfold main, bind. by rewrite main_resume_missing.
    + unfold main, bind. rewrite main_resume_missing by done.
      by rewrite main_run_loop.
    + intros Hlt. unfold main, bind at 1. rewrite main_resume_missing by done.
      rewrite main_run_loop by done. simpl.
      by rewrite range_cons.
  - assert (Hrun0 : exists w0, sample_run 5 = Returns tt w0 /\
                      w0 = match sample_run 5 with
                           | Returns _ w => w
                           | _ => sample_world 5 ""
                           end)
      by (eexists; split; vm_compute; reflexivity).
    destruct Hrun0 as (w0 & Hrun0 & Hw0).
    assert (Hrun5 :
      exists w5,
        main sample_train sample_validate 1 (sample_world 5 "nofile.pth.tar")
        = Returns tt w5 /\
        w5 = match main sample_train sample_validate 1
                     (sample_world 5 "nofile.pth.tar") with
             | Returns _ w => w
             | _ => sample_world 5 ""
             end)
      by (eexists; split; vm_compute; reflexivity).
    destruct Hrun5 as (w5 & Hrun5 & Hw5).
    exists w0, w5. split; [exact Hrun0|]. split; [exact Hrun5|].
    subst w0 w5.
    split; [vm_compute; reflexivity|].
    split; [vm_compute; reflexivity|].
    split; [vm_compute; reflexivity|].
    split; [vm_compute; reflexivity|].
    split; [vm_compute; reflexivity|].
    split; [vm_compute; reflexivity|].
    split; [vm_compute; reflexivity|].
    vm_compute; reflexivity.
Qed.

(** A run of five epochs asked to resume from a path that names no file. *)
Lemma resume_missing_checkpoint_continues_witness :
  truthy (resume (args (sample_world 5 "nofile.pth.tar"))) = true /\
  files (sample_world 5 "nofile.pth.tar")
    !! resume (args (sample_world 5 "nofile.pth.tar")) = None /\
  exists w',
    main_resume (sample_world 5 "nofile.pth.tar") = Returns tt w' /\
    stdout w' = ["=> no checkpoint found at 'nofile.pth.tar'"] /\
    start_epoch (args w') = 0 /\
    main sample_train sample_validate 1 (sample_world 5 "nofile.pth.tar")
    = for_each (range 0 5) (main_epoch sample_train sample_validate 1) w'.
Proof.
  assert (Htruthy :
    truthy (resume (args (sample_world 5 "nofile.pth.tar"))) = true)
    by reflexivity.
  assert (Hnone :
    files (sample_world 5 "nofile.pth.tar")
      !! resume (args (sample_world 5 "nofile.pth.tar")) = None)
    by reflexivity.
  split; [exact Htruthy|]. split; [exact Hnone|].
  destruct (proj1 resume_missing_checkpoint_continues
              Qc (list Z) unit _ sample_train sample_validate 1%nat
              (sample_world 5 "nofile.pth.tar") Htruthy Hnone)
    as (w' & Hres & Hout & Hargs & _ & _ & _ & _ & _ & Hloop).
  exists w'. split; [exact Hres|]. split; [exact Hout|].
  split; [by rewrite Hargs|].
  destruct (Hloop (or_intror eq_refl) eq_refl) as [Hfor _]. exact Hfor.
Defined.

(** C6: the checkpoint written at the end of epoch index [e] records epoch
    [e + 1]; resuming from a checkpoint sets [args.start_epoch] to the
    recorded epoch, so the loop runs [range(recorded, args.epochs)]: its first
    epoch is the recorded one and the epoch before it is not run again.  A
    run of 40 epochs leaves a checkpoint recording epoch 40; a process that
    resumes from it with 42 epochs configured runs epochs 40 and 41 and no
    other. *)
Theorem resume_continues_after_saved_epoch :
  (forall V ModelState Buffers (HO : PyOrd V)
          (train : ModelState -> Optimizer Buffers -> Z ->
                   ModelState * Optimizer Buffers)
          (validate : ModelState -> V) fuel epoch
          (w w' : World V ModelState Buffers),
     main_epoch train validate fuel epoch w = Returns tt w' ->
     latest_epoch w' = Some (epoch + 1)) /\
  (forall V ModelState Buffers (HO : PyOrd V)
          (train : ModelState -> Optimizer Buffers -> Z ->
                   ModelState * Optimizer Buffers)
          (validate : ModelState -> V) fuel
          (w : World V ModelState Buffers) c,
     truthy (resume (args w)) = true ->
     files w !! resume (args w) = Some (Pickled c) ->
     exists w',
       main_resume w = Returns tt w' /\
       start_epoch (args w') = ckpt_epoch c /\
       best_prec1 w' = ckpt_best_prec1 c /\
       model w' = ckpt_state_dict c /\
       optimizer w' = ckpt_optimizer c /\
       (ctype (args w) = 10 \/ ctype (args w) = 100 ->
        evaluate (args w) = false ->
        main train validate fuel w
        = for_each (range (ckpt_epoch c) (epochs (args w)))
            (main_epoch train validate fuel) w')) /\
  (forall saved last : Z,
     (saved < last -> range saved last = saved :: range (saved + 1) last) /\
     ~ In (saved - 1) (range saved last)) /\
  (sample_run 40 = Returns tt sample_world_after_40 /\
   latest_epoch sample_world_after_40 = Some 40 /\
   model sample_world_after_40 = range 0 40 /\
   main sample_train sample_validate 1
     (sample_restart (files sample_world_after_40) 42 "./checkpoint.pth.tar")
   = Returns tt sample_world_resumed /\
   start_epoch (args sample_world_resumed) = 40 /\
   model sample_world_resumed = model sample_world_after_40 ++ [40; 41]).
Proof.
  split; [|split; [|split]].
  - intros V ModelState Buffers HO train validate fuel epoch w w' Hstep.
    apply main_epoch_checkpoint_phase in Hstep as (_ & _ & Hlatest & _ & Hargs).
    unfold latest_epoch. by rewrite Hargs, Hlatest.
  - intros V ModelState Buffers HO train validate fuel w c Htruthy Hfile.
    eexists. split; [by apply main_resume_loads|].
    simpl. repeat split.
    intros Hctype Heval. unfold main, bind.
    rewrite (main_resume_loads w c Htruthy Hfile).
    by rewrite main_run_loop.
  - intros saved last. split; [apply range_cons|].
    rewrite range_elem. lia.
  - split; [|split; [|split; [|split; [|split]]]]; vm_compute; reflexivity.
Qed.

(** ** [adjust_learning_rate] *)

Lemma learning_rates_set {Buffers} (groups : list (gmap string float))
    (b : Buffers) (x : float) :
  learning_rates (MkOptimizer (map (fun g => <["lr" := x]> g) groups) b)
  = map (fun _ => Some x) groups.
Proof.
  unfold learning_rates. simpl. rewrite map_map.
  apply map_ext. intros g. apply lookup_insert_eq.
Qed.

Lemma other_keys_kept (groups : list (gmap string float)) (x : float)
    (key : string) :
  key <> "lr" ->
  map (fun g => g !! key) (map (fun g => <["lr" := x]> g) groups)
  = map (fun g => g !! key) groups.
Proof.
  intros Hkey. rewrite map_map. apply map_ext. intros g.
  by rewrite lookup_insert_ne.
Qed.

(** [adjust_learning_rate] is [fix_learning_rate] at the rate of the epoch's
    stage. *)
Lemma adjust_learning_rate_fix {Buffers} (a : Args) (o : Optimizer Buffers)
    (epoch : Z) :
  adjust_learning_rate a o epoch
  = fix_learning_rate o
      (if epoch <=? 81 then lr a
       else if epoch <=? 122 then (lr a * 0.1)%float
       else (lr a * 0.01)%float).
Proof. reflexivity. Qed.

(** C7 (corrected statement): the rate written into every parameter group is
    a function of [(args.lr, epoch)] alone: [args.lr] up to epoch 81, the
    binary64 product [args.lr * 0.1] for epochs 82 to 122, and
    [args.lr * 0.01] from epoch 123 on; the other hyper-parameters and the
    buffers are untouched.
    With [args.lr = 0.1] the rate is [0.1] at epoch 81,
    [0.1 * 0.1 = 0.010000000000000002] at epochs 82 and 122, which is not
    [== 0.01], and [0.1 * 0.01 = 0.001] at epoch 123. *)
Theorem adjust_learning_rate_three_stages :
  (forall Buffers (a : Args) (o : Optimizer Buffers) (epoch : Z),
     (epoch <= 81 ->
      learning_rates (adjust_learning_rate a o epoch)
      = map (fun _ => Some (lr a)) (param_groups o)) /\
     (82 <= epoch <= 122 ->
      learning_rates (adjust_learning_rate a o epoch)
      = map (fun _ => Some (lr a * 0.1)%float) (param_groups o)) /\
     (123 <= epoch ->
      learning_rates (adjust_learning_rate a o epoch)
      = map (fun _ => Some (lr a * 0.01)%float) (param_groups o)) /\
     buffers (adjust_learning_rate a o epoch) = buffers o /\
     (forall key, key <> "lr" ->
        map (fun g => g !! key) (param_groups (adjust_learning_rate a o epoch))
        = map (fun g => g !! key) (param_groups o))) /\
  learning_rates (adjust_learning_rate (sample_args 160 "") sample_optimizer 81)
  = [Some 0.1%float] /\
  learning_rates (adjust_learning_rate (sample_args 160 "") sample_optimizer 82)
  = [Some 0.010000000000000002%float] /\
  learning_rates (adjust_learning_rate (sample_args 160 "") sample_optimizer 122)
  = [Some 0.010000000000000002%float] /\
  learning_rates (adjust_learning_rate (sample_args 160 "") sample_optimizer 123)
  = [Some 0.001%float] /\
  (0.010000000000000002 =? 0.01)%float = false /\
  (0.1 * 0.01 =? 0.001)%float = true.
Proof.
  split.
  - intros Buffers a o epoch. unfold adjust_learning_rate.
    split; [|split; [|split; [|split]]].
    + intros Hle. rewrite learning_rates_set.
      by rewrite (proj2 (Z.leb_le epoch 81) Hle).
    + intros [Hlo Hhi]. rewrite learning_rates_set.
      rewrite (proj2 (Z.leb_gt epoch 81)) by lia.
      by rewrite (proj2 (Z.leb_le epoch 122) Hhi).
    + intros Hlo. rewrite learning_rates_set.
      rewrite (proj2 (Z.leb_gt epoch 81)) by lia.
      by rewrite (proj2 (Z.leb_gt epoch 122)) by lia.
    + done.
    + intros key Hkey. simpl. by apply other_keys_kept.
  - split; [|split; [|split; [|split; [|split]]]]; vm_compute; reflexivity.
Qed.

(** C7 (counterexample): with [args.lr = 0.1] the rate written at epoch 82 is
    [0.010000000000000002], and [0.010000000000000002 == 0.01] is false. *)
Lemma learning_rate_at_82_is_not_0_01 :
  learning_rates (adjust_learning_rate (sample_args 160 "") sample_optimizer 82)
  = [Some 0.010000000000000002%float] /\
  (0.010000000000000002 =? 0.01)%float = false /\
  0.010000000000000002%float <> 0.01%float.
Proof.
  split; [vm_compute; reflexivity|]. split; [vm_compute; reflexivity|].
  intros Heq.
  assert (Hb : (0.010000000000000002 =? 0.01)%float = true)
    by (rewrite Heq; vm_compute; reflexivity).
  vm_compute in Hb. discriminate Hb.
Qed.

(** ** [accuracy] *)

Section AccuracyFacts.

Context {S : Type} (score_gt : S -> S -> bool).
Context {V : Type} `{PyNum V}.

Lemma insert_desc_perm (x : nat * S) l :
  Permutation (insert_desc score_gt x l) (x :: l).
Proof.
  induction l as [|y l IH]; simpl; [done|].
  destruct (score_gt (snd y) (snd x)); [|done].
  rewrite IH. apply perm_swap.
Qed.

Lemma map_fst_combine_seq (row : list S) start :
  map fst (combine (seq start (length row)) row) = seq start (length row).
Proof.
  revert start. induction row as [|x row IH]; intros start; simpl; [done|].
  by rewrite IH.
Qed.

(** [argsort_desc] lists every index of the row once. *)
Lemma argsort_desc_perm (row : list S) :
  Permutation (argsort_desc score_gt row) (seq 0 (length row)).
Proof.
  unfold argsort_desc.
  transitivity (map fst (combine (seq 0 (length row)) row));
    [|by rewrite map_fst_combine_seq].
  apply Permutation_map.
  induction (combine (seq 0 (length row)) row) as [|x l IH]; [done|].
  change (Permutation
            (insert_desc score_gt x (fold_right (insert_desc score_gt) [] l))
            (x :: l)).
  etrans; [apply insert_desc_perm|]. by constructor.
Qed.

Lemma argsort_desc_NoDup (row : list S) : NoDup (argsort_desc score_gt row).
Proof.
  rewrite argsort_desc_perm. apply NoDup_seq.
Qed.

Lemma argsort_desc_length (row : list S) :
  length (argsort_desc score_gt row) = length row.
Proof.
  rewrite (Permutation_length (argsort_desc_perm row)). apply length_seq.
Qed.

(** In a list without repetition a target index occurs once or not at all. *)
Lemma matches_NoDup (l : list nat) (t : Z) :
  NoDup l ->
  length (filter (fun i => Z.of_nat i = t) l)
  = if decide (Exists (fun i => Z.of_nat i = t) l) then 1%nat else 0%nat.
Proof.
  induction 1 as [|i l Hnotin Hnodup IH].
  - rewrite decide_False; [done|]. by intros ?%Exists_nil.
  - rewrite filter_cons. destruct (decide (Z.of_nat i = t)) as [Hi|Hi].
    + rewrite decide_True by (by left). simpl. rewrite IH.
      rewrite decide_False; [done|].
      intros (j & Hj & Hjt)%Exists_exists.
      assert (j = i) by lia. by subst j.
    + rewrite IH. destruct (decide (Exists _ l)) as [Hex|Hno].
      * rewrite decide_True; [done|]. by right.
      * rewrite decide_False; [done|].
        intros [?|?]%Exists_cons; done.
Qed.

(** The first [k] of the top [maxk] are the top [k]. *)
Lemma correct_upto_examples (k maxk : nat) (rws : list (list S))
    (target : list Z) (n : nat) :
  (k <= maxk)%nat ->
  correct_upto k (map (fun row => firstn maxk (argsort_desc score_gt row)) rws)
    target
  = examples_correct_at score_gt k (MkTensor2 n rws) target.
Proof.
  intros Hk. unfold correct_upto, examples_correct_at. simpl.
  revert target. induction rws as [|row rws IH]; intros [|t target]; simpl;
    try done.
  rewrite IH, filter_cons. simpl.
  rewrite take_take, Nat.min_l by done.
  rewrite matches_NoDup
    by (eapply sublist_NoDup; [apply argsort_desc_NoDup|apply sublist_take]).
  destruct (decide _); simpl; lia.
Qed.

Lemma accuracy_loop_ok (topk : list nat) pred target batch_size q :
  div_int (of_int 100) batch_size = Some q ->
  accuracy_loop topk pred target batch_size
  = Ok (map (fun k => mul_int q (correct_upto k pred target)) topk).
Proof.
  intros Hq. induction topk as [|k topk IH]; simpl; [done|].
  by rewrite Hq, IH.
Qed.

Lemma max_list_ge (topk : list nat) k :
  In k topk -> (k <= fold_right Nat.max 0%nat topk)%nat.
Proof.
  induction topk as [|k' topk IH]; simpl; [done|].
  intros [->|Hin]; [lia|]. specialize (IH Hin). lia.
Qed.

(** [accuracy] when every requested [k] is within the number of classes. *)
Lemma accuracy_ok (output : Tensor2 S) (target : list Z) (topk : list nat) :
  topk <> [] ->
  target <> [] ->
  length target = length (rows output) ->
  (fold_right Nat.max 0%nat topk <= ncols output)%nat ->
  exists q,
    div_int (of_int 100) (Z.of_nat (length target)) = Some q /\
    accuracy score_gt output target topk
    = Ok (map (fun k =>
                 mul_int q (examples_correct_at score_gt k output target))
              topk).
Proof.
  intros Htopk Htarget Hlen Hmax.
  destruct (div_int_Some (of_int 100) (Z.of_nat (length target))) as [q Hq].
  { destruct target; [done|simpl; lia]. }
  exists q. split; [done|].
  unfold accuracy. destruct topk as [|k0 topk0] eqn:Etopk; [done|].
  rewrite <- Etopk in *. cbv zeta. unfold topk_indices.
  rewrite (proj2 (Nat.ltb_ge _ _) Hmax).
  unfold expand_target. rewrite decide_True by done.
  rewrite (accuracy_loop_ok _ _ _ _ q Hq).
  f_equal. apply map_ext_in. intros k Hin. f_equal.
  destruct output as [n rws]. simpl.
  apply correct_upto_examples. by apply max_list_ge.
Qed.

(** No clamping: a requested [k] beyond the number of classes makes the call
    raise. *)
Lemma accuracy_k_too_large (output : Tensor2 S) (target : list Z)
    (topk : list nat) :
  (ncols output < fold_right Nat.max 0%nat topk)%nat ->
  accuracy score_gt output target topk = Error RuntimeError.
Proof.
  intros Hlt. unfold accuracy. destruct topk as [|k0 topk0] eqn:Etopk.
  - simpl in Hlt. lia.
  - rewrite <- Etopk in *. cbv zeta. unfold topk_indices.
    by rewrite (proj2 (Nat.ltb_lt _ _) Hlt).
Qed.

End AccuracyFacts.

(** The pairs [argsort_desc] works on come out in descending score order: no
    pair is followed by one of greater score, for any comparison in which
    [a > b] excludes [b > a]. *)
Lemma insert_desc_sorted {S} (score_gt : S -> S -> bool) :
  (forall a b, score_gt a b = true -> score_gt b a = false) ->
  forall (pairs : list (nat * S)),
    Sorted (fun x y => score_gt (snd y) (snd x) = false)
           (fold_right (insert_desc score_gt) [] pairs).
Proof.
  intros Hasym.
  assert (Hins : forall x l,
            Sorted (fun x y => score_gt (snd y) (snd x) = false) l ->
            Sorted (fun x y => score_gt (snd y) (snd x) = false)
                   (insert_desc score_gt x l)).
  { intros x l. induction 1 as [|y l Hsorted IH Hhd]; simpl.
    - by repeat constructor.
    - destruct (score_gt (snd y) (snd x)) eqn:Hyx.
      + constructor; [exact IH|].
        destruct Hhd as [|z l Hyz]; simpl.
        * constructor. by apply Hasym.
        * destruct (score_gt (snd z) (snd x)); constructor;
            [exact Hyz|by apply Hasym].
      + constructor; [by constructor|]. by constructor. }
  induction pairs as [|x pairs IH]; simpl; [constructor|].
  by apply Hins.
Qed.

(** In exact arithmetic the reported value is [100 * count / batch_size]. *)
Lemma Qc_percentage (batch_size count : Z) (q : Qc) :
  div_int (of_int 100) batch_size = Some q ->
  mul_int q count
  = (Qc_of_Z (100 * count) / Qc_of_Z batch_size)%Qc.
Proof.
  simpl. destruct (decide (batch_size = 0)) as [|Hne]; [done|].
  intros [= <-]. rewrite Z2Qc_inj_mul. unfold Qcdiv. ring.
Qed.

(** C4 (corrected statement): when every requested [k] is within the number
    of classes, [accuracy] returns, for each [k],
    [count_k * (100.0 / batch_size)], where
    [count_k] is the number of examples whose target is among the indices of
    the [k] largest scores of their row; in exact arithmetic that is
    [100 * count_k / batch_size].  [accuracy] does not clamp [k]: a [k]
    beyond the number of classes raises.  On the scores
    [[0.1, 0.9, 0.0], [0.8, 0.1, 0.1]]: with targets [1, 0] and [topk=(1, 3)]
    (top-5 clamped by the caller to the 3 classes) it returns 100.0 and
    100.0; with targets [0, 1] and [topk=(1,)] it returns 0.0; with
    [topk=(1, 5)] it raises. *)
Theorem accuracy_percentage_of_examples_in_top_k :
  (forall S (score_gt : S -> S -> bool) V (HN : PyNum V)
          (output : Tensor2 S) (target : list Z) (topk : list nat),
     topk <> [] ->
     target <> [] ->
     length target = length (rows output) ->
     (fold_right Nat.max 0%nat topk <= ncols output)%nat ->
     exists q,
       div_int (of_int 100) (Z.of_nat (length target)) = Some q /\
       accuracy score_gt output target topk
       = Ok (map (fun k =>
                    mul_int q (examples_correct_at score_gt k output target))
                 topk)) /\
  (forall S (score_gt : S -> S -> bool)
          (output : Tensor2 S) (target : list Z) (topk : list nat),
     topk <> [] ->
     target <> [] ->
     length target = length (rows output) ->
     (fold_right Nat.max 0%nat topk <= ncols output)%nat ->
     accuracy score_gt output target topk
     = Ok (map (fun k =>
                  (Qc_of_Z (100 * examples_correct_at score_gt k output target)
                   / Qc_of_Z (Z.of_nat (length target)))%Qc)
               topk)) /\
  (forall S (score_gt : S -> S -> bool) V (HN : PyNum V)
          (output : Tensor2 S) (target : list Z) (topk : list nat),
     (ncols output < fold_right Nat.max 0%nat topk)%nat ->
     accuracy (V := V) score_gt output target topk = Error RuntimeError) /\
  accuracy float_gt sample_scores [1; 0] [1%nat; 3%nat]
  = Ok [100.0%float; 100.0%float] /\
  accuracy float_gt sample_scores [0; 1] [1%nat] = Ok [0.0%float] /\
  accuracy (V := float) float_gt sample_scores [1; 0] [1%nat; 5%nat]
  = Error RuntimeError.
Proof.
  split; [|split; [|split; [|split; [|split]]]].
  - intros S score_gt V HN output target topk. apply accuracy_ok.
  - intros S score_gt output target topk Htopk Htarget Hlen Hmax.
    destruct (accuracy_ok (V := Qc) score_gt output target topk
                Htopk Htarget Hlen Hmax) as (q & Hq & ->).
    f_equal. apply map_ext. intros k. by apply Qc_percentage.
  - intros S score_gt V HN output target topk. apply accuracy_k_too_large.
  - vm_compute. reflexivity.
  - vm_compute. reflexivity.
  - vm_compute. reflexivity.
Qed.

(** C4 (counterexample): on the three-class scores with [topk=(1, 5)] the call
    raises a [RuntimeError]; no top-1 or top-5 value is returned. *)
Lemma accuracy_top5_of_three_classes_raises :
  accuracy (V := float) float_gt sample_scores [1; 0] [1%nat; 5%nat]
  = Error RuntimeError.
Proof. vm_compute. reflexivity. Qed.

(** * Further properties of the code *)

(** ** [save_checkpoint]: what a call touches and when it returns *)

Section SaveCheckpointFrame.

Context {V ModelState OptimState : Type}.
Implicit Types (fs : gmap string (file V ModelState OptimState)).
Implicit Types (state : checkpoint V ModelState OptimState).

(** The directory a returning call leaves, in full. *)
Lemma save_checkpoint_returns_dir fuel state is_best output_dir must_save fs fs' :
  save_checkpoint fuel state is_best output_dir default_filename must_save fs
  = Returns tt fs' ->
  fs' = (if must_save
         then <[os_path_join output_dir (must_save_filename 0) := Pickled state]>
                (after_latest_and_best state is_best output_dir fs)
         else after_latest_and_best state is_best output_dir fs) /\
  (must_save = true ->
   fs !! os_path_join output_dir (must_save_filename 0) = None).
Proof.
  destruct must_save.
  - intros [Hnone ->]%save_checkpoint_must_save_returns. done.
  - rewrite save_checkpoint_unfold. cbv zeta. intros [= <-]. done.
Qed.

(** X1: a call that returns changes no path other than the latest slot, the
    best slot and the suffix-0 milestone; it changes the best slot only when
    [is_best] and the milestone only when [must_save]; no file is removed. *)
Theorem save_checkpoint_frame
    fuel state is_best output_dir must_save fs fs' :
  save_checkpoint fuel state is_best output_dir default_filename must_save fs
  = Returns tt fs' ->
  (forall p,
     p <> os_path_join output_dir default_filename ->
     (is_best = true -> p <> os_path_join output_dir best_filename) ->
     (must_save = true ->
      p <> os_path_join output_dir (must_save_filename 0)) ->
     fs' !! p = fs !! p) /\
  (forall p, is_Some (fs !! p) -> is_Some (fs' !! p)).
Proof.
  intros [-> Hnone]%save_checkpoint_returns_dir.
  assert (Hframe : forall p,
            p <> os_path_join output_dir default_filename ->
            (is_best = true -> p <> os_path_join output_dir best_filename) ->
            after_latest_and_best state is_best output_dir fs !! p = fs !! p).
  { intros p Hlatest Hbest. unfold after_latest_and_best. destruct is_best.
    - rewrite lookup_insert_ne; [|by apply not_eq_sym, Hbest].
      rewrite lookup_insert_ne; [done|by apply not_eq_sym].
    - rewrite lookup_insert_ne; [done|by apply not_eq_sym]. }
  assert (Hkeep : forall p,
            is_Some (fs !! p) ->
            is_Some (after_latest_and_best state is_best output_dir fs !! p)).
  { intros p Hp. unfold after_latest_and_best.
    destruct is_best; rewrite ?lookup_insert_is_Some'; tauto. }
  split.
  - intros p Hlatest Hbest Hmile. destruct must_save; [|by apply Hframe].
    rewrite lookup_insert_ne by (by apply not_eq_sym, Hmile).
    by apply Hframe.
  - intros p Hp. destruct must_save; [|by apply Hkeep].
    rewrite lookup_insert_is_Some'. right. by apply Hkeep.
Qed.

(** X2: a call that returns never overwrites a milestone file that was there
    (whatever its suffix), and the only milestone file it can create is the
    one with suffix 0. *)
Theorem save_checkpoint_keeps_milestones
    fuel state is_best output_dir must_save fs fs' :
  save_checkpoint fuel state is_best output_dir default_filename must_save fs
  = Returns tt fs' ->
  (forall i f,
     fs !! os_path_join output_dir (must_save_filename i) = Some f ->
     fs' !! os_path_join output_dir (must_save_filename i) = Some f) /\
  (forall i, i <> 0 ->
     fs' !! os_path_join output_dir (must_save_filename i)
     = fs !! os_path_join output_dir (must_save_filename i)).
Proof.
  intros [-> Hnone]%save_checkpoint_returns_dir.
  assert (Hother : forall i, i <> 0 ->
            os_path_join output_dir (must_save_filename 0)
            <> os_path_join output_dir (must_save_filename i)).
  { intros i Hi Heq%must_save_path_inj. congruence. }
  split.
  - intros i f Hf. destruct must_save.
    + destruct (decide (i = 0)) as [->|Hi].
      * rewrite Hnone in Hf by done. discriminate Hf.
      * rewrite lookup_insert_ne by (by apply Hother).
        by rewrite after_latest_and_best_must_save.
    + by rewrite after_latest_and_best_must_save.
  - intros i Hi. destruct must_save.
    + rewrite lookup_insert_ne by (by apply Hother).
      by rewrite after_latest_and_best_must_save.
    + by rewrite after_latest_and_best_must_save.
Qed.

(** X3: what follows the write of line 326.  Once [torch.save] has written
    the record (the output directory exists and its regular files can be
    written), a call with the default file name raises nothing further: it returns exactly
    when [must_save] is false or the suffix-0 milestone is absent, and one
    iteration of the loop is then enough; otherwise it is still in its loop
    after any number of iterations. *)
Theorem save_checkpoint_returns_iff
    fuel state is_best output_dir must_save fs fs1 :
  torch_save state (os_path_join output_dir default_filename) fs
  = Returns tt fs1 ->
  ((exists fs',
      save_checkpoint (S fuel) state is_best output_dir default_filename
        must_save fs = Returns tt fs')
   <-> must_save = false \/
       fs !! os_path_join output_dir (must_save_filename 0) = None) /\
  (forall e fs',
     save_checkpoint fuel state is_best output_dir default_filename
       must_save fs <> Raises e fs') /\
  (must_save = true ->
   is_Some (fs !! os_path_join output_dir (must_save_filename 0)) ->
   save_checkpoint fuel state is_best output_dir default_filename
     must_save fs = Running).
Proof.
  intros _. split; [split|split].
  - intros [fs' [_ Hnone]%save_checkpoint_returns_dir].
    destruct must_save; [right; by apply Hnone|by left].
  - intros Hcond. rewrite save_checkpoint_unfold. cbv zeta.
    destruct must_save; [|by eexists].
    destruct Hcond as [|Hnone]; [done|]. simpl.
    erewrite must_save_body_absent;
      [by eexists
      |by rewrite after_latest_and_best_must_save
      |apply after_latest_and_best_latest].
  - intros e fs'. rewrite save_checkpoint_unfold. cbv zeta.
    destruct must_save; [|done].
    destruct (fs !! os_path_join output_dir (must_save_filename 0)) eqn:Hfs.
    + rewrite must_save_loop_running; [done|].
      rewrite after_latest_and_best_must_save, Hfs. by eexists.
    + destruct fuel as [|fuel]; [done|]. simpl.
      erewrite must_save_body_absent;
        [done
        |by rewrite after_latest_and_best_must_save
        |apply after_latest_and_best_latest].
  - intros -> Hsome. rewrite save_checkpoint_unfold. cbv zeta.
    rewrite must_save_loop_running; [done|].
    by rewrite after_latest_and_best_must_save.
Qed.

(** X4: two file names the caller must not pass.  With
    [filename='model_best.pth.tar'] and [is_best] the copy onto itself raises
    [SameFileError], the record having been written; with
    [filename='model_must_save_0.pth.tar'] and [must_save] the loop finds the
    file the call has just written and never ends. *)
Theorem save_checkpoint_clashing_filename
    state output_dir fs :
  (forall fuel must_save,
     save_checkpoint fuel state true output_dir best_filename must_save fs
     = Raises SameFileError
         (<[os_path_join output_dir best_filename := Pickled state]> fs)) /\
  (forall fuel,
     save_checkpoint fuel state false output_dir (must_save_filename 0) true fs
     = Running).
Proof.
  split.
  - intros fuel must_save.
    unfold save_checkpoint, bind, torch_save, modify, shutil_copyfile.
    rewrite lookup_insert_eq. by rewrite decide_True.
  - intros fuel. unfold save_checkpoint, bind, torch_save, modify, ret.
    rewrite must_save_loop_running; [done|].
    rewrite lookup_insert_eq. by eexists.
Qed.

End SaveCheckpointFrame.

(** ** [main]: what a run leaves behind *)

Lemma truthy_latest_path d : truthy (os_path_join d default_filename) = true.
Proof.
  unfold os_path_join. simpl.
  destruct (decide (d = "")) as [->|Hd]; [done|].
  destruct d as [|c d]; [done|]. by destruct (endswith_sep (String c d)).
Qed.

Lemma truthy_best_path d : truthy (os_path_join d best_filename) = true.
Proof.
  unfold os_path_join. simpl.
  destruct (decide (d = "")) as [->|Hd]; [done|].
  destruct d as [|c d]; [done|]. by destruct (endswith_sep (String c d)).
Qed.

Lemma for_each_app {W A} (l1 l2 : list A) (body : A -> M W unit) w :
  for_each (l1 ++ l2) body w
  = bind (for_each l1 body) (fun _ => for_each l2 body) w.
Proof.
  revert w. induction l1 as [|x l1 IH]; intros w; simpl; [done|].
  unfold bind in *. destruct (body x w) as [[] w1|e w1|]; [|done..].
  apply IH.
Qed.

Lemma range_app a m b : a <= m <= b -> range a b = range a m ++ range m b.
Proof.
  intros [Ham Hmb]. unfold range.
  replace (Z.to_nat (b - a)) with (Z.to_nat (m - a) + Z.to_nat (b - m))%nat
    by lia.
  rewrite seq_app, map_app. f_equal.
  rewrite <- (map_id (seq (0 + Z.to_nat (m - a)) (Z.to_nat (b - m)))).
  replace (0 + Z.to_nat (m - a))%nat with (Z.to_nat (m - a) + 0)%nat by lia.
  rewrite <- (fmap_add_seq (Z.to_nat (m - a)) 0).
  rewrite !map_map. apply map_ext. intros k. lia.
Qed.

Lemma bind_returns {W A B} (m : M W A) (k : A -> M W B) s0 b s2 :
  bind m k s0 = Returns b s2 ->
  exists a s1, m s0 = Returns a s1 /\ k a s1 = Returns b s2.
Proof.
  unfold bind. destruct (m s0) as [a s1|e s1|]; [|done..].
  intros Hk. by exists a, s1.
Qed.

Lemma range_last a b : a < b -> last (range a b) = Some (b - 1).
Proof.
  intros Hlt. rewrite (range_app a (b - 1) b) by lia.
  rewrite (range_cons (b - 1) b) by lia.
  rewrite (range_nil (b - 1 + 1) b) by lia. apply last_snoc.
Qed.

Lemma range_around_79 a b :
  a <= 79 < b -> range a b = range a 79 ++ 79 :: range 80 b.
Proof.
  intros [Hlo Hhi]. rewrite (range_app a 79 b) by lia.
  by rewrite (range_cons 79 b) by lia.
Qed.

Section MainRuns.

Context {V ModelState Buffers : Type} `{PyOrd V}.
Context (train : ModelState -> Optimizer Buffers -> Z ->
                 ModelState * Optimizer Buffers).
Context (validate : ModelState -> V).
Implicit Types (w : World V ModelState Buffers).

(** The three ways the resume step can go.  None of them touches a file or
    the arguments other than [start_epoch]. *)
Lemma main_resume_cases w :
  (exists w',
     main_resume w = Returns tt w' /\
     files w' = files w /\
     evaluate (args w') = evaluate (args w) /\
     ctype (args w') = ctype (args w) /\
     epochs (args w') = epochs (args w) /\
     output_dir (args w') = output_dir (args w)) \/
  (exists w',
     main_resume w = Raises UnpicklingError w' /\ files w' = files w /\
     output_dir (args w') = output_dir (args w)).
Proof.
  unfold main_resume, bind, get, in_files, os_path_isfile, os_path_exists.
  destruct (truthy (resume (args w))); [|left; by eexists].
  simpl.
  destruct (files w !! resume (args w)) as [[c|text]|] eqn:Hfile.
  - rewrite bool_decide_eq_true_2 by (by eexists).
    unfold print, modify, torch_load, load_from. simpl. rewrite Hfile.
    left. by eexists.
  - rewrite bool_decide_eq_true_2 by (by eexists).
    unfold print, modify, torch_load. simpl. rewrite Hfile.
    right. by eexists.
  - rewrite bool_decide_eq_false_2 by (by intros [? ?]).
    left. by eexists.
Qed.

(** One iteration that returns: the arguments and the printed lines stay, the
    latest slot records the next epoch, and milestone files change only at
    epoch index 79, where suffix 0 is created. *)
Lemma main_epoch_returns_frame fuel epoch w w' :
  main_epoch train validate fuel epoch w = Returns tt w' ->
  args w' = args w /\
  stdout w' = stdout w /\
  latest_epoch w' = Some (epoch + 1) /\
  (forall i, i <> 0 ->
     files w' !! milestone_path w i = files w !! milestone_path w i) /\
  (epoch <> 79 ->
   files w' !! milestone_path w 0 = files w !! milestone_path w 0) /\
  (epoch = 79 ->
   files w !! milestone_path w 0 = None /\
   files w' !! milestone_path w 0
   = Some (Pickled (saved_state train validate w epoch))).
Proof.
  intros (fs & Hsave & ->)%main_epoch_returns.
  pose proof (save_checkpoint_returns_slots _ _ _ _ _ _ _ Hsave) as [Hlatest _].
  apply save_checkpoint_returns_dir in Hsave as [-> Hnone].
  unfold milestone_path, latest_epoch. simpl. rewrite Hlatest.
  split; [done|]. split; [done|]. split; [done|].
  assert (Hother : forall i, i <> 0 ->
            os_path_join (output_dir (args w)) (must_save_filename 0)
            <> os_path_join (output_dir (args w)) (must_save_filename i)).
  { intros i Hi Heq%must_save_path_inj. congruence. }
  split; [|split].
  - intros i Hi. destruct (bool_decide (epoch + 1 = 80)).
    + rewrite lookup_insert_ne by (by apply Hother).
      apply after_latest_and_best_must_save.
    + apply after_latest_and_best_must_save.
  - intros Hne. rewrite bool_decide_eq_false_2 by lia.
    apply after_latest_and_best_must_save.
  - intros ->. rewrite bool_decide_eq_true_2 in * by lia.
    split; [by apply Hnone|]. apply lookup_insert_eq.
Qed.

(** Iterations that return, one after the other. *)
Lemma main_loop_returns_frame fuel (l : list Z) : forall w w',
  for_each l (main_epoch train validate fuel) w = Returns tt w' ->
  args w' = args w /\
  stdout w' = stdout w /\
  match last l with
  | Some e => latest_epoch w' = Some (e + 1)
  | None => w' = w
  end /\
  (forall i, i <> 0 ->
     files w' !! milestone_path w i = files w !! milestone_path w i) /\
  (~ In 79 l ->
   files w' !! milestone_path w 0 = files w !! milestone_path w 0).
Proof.
  induction l as [|epoch l IH]; intros w w'; simpl.
  - intros [= <-]. done.
  - intros ([] & w1 & Hstep & Hrest)%bind_returns.
    apply main_epoch_returns_frame in Hstep
      as (Hargs1 & Hout1 & Hlatest1 & Hother1 & Hzero1 & _).
    apply IH in Hrest as (Hargs & Hout & Hlast & Hother & Hzero).
    assert (Hpath : forall i, milestone_path w1 i = milestone_path w i)
      by (intros i; unfold milestone_path; by rewrite Hargs1).
    split; [congruence|]. split; [congruence|]. split; [|split].
    + destruct l as [|e' l'].
      * simpl in Hlast. by subst w'.
      * change (last (epoch :: e' :: l')) with (last (e' :: l')).
        destruct (last (e' :: l')) eqn:Elast; [exact Hlast|].
        by apply last_None in Elast.
    + intros i Hi. rewrite <- Hother1 by done.
      rewrite <- (Hpath i). by apply Hother.
    + intros Hnotin. rewrite <- Hzero1 by (intros ->; apply Hnotin; by left).
      rewrite <- (Hpath 0). apply Hzero. intros Hin. apply Hnotin. by right.
Qed.

(** Away from epoch index 79 every iteration returns. *)
Lemma main_loop_no_milestone fuel (l : list Z) : forall w,
  ~ In 79 l ->
  exists w', for_each l (main_epoch train validate fuel) w = Returns tt w'.
Proof.
  induction l as [|epoch l IH]; intros w Hnotin; simpl; [by eexists|].
  unfold bind. rewrite main_epoch_no_milestone.
  - apply IH. intros Hin. apply Hnotin. by right.
  - intros Heq. apply Hnotin. left. lia.
Qed.

(** Epoch index 79 returns when suffix 0 is absent and runs for ever when it
    is there. *)
Lemma main_epoch_79 fuel w :
  (files w !! milestone_path w 0 = None ->
   exists w', main_epoch train validate (S fuel) 79 w = Returns tt w') /\
  (is_Some (files w !! milestone_path w 0) ->
   main_epoch train validate fuel 79 w = Running).
Proof.
  unfold milestone_path. split.
  - intros Hnone. rewrite main_epoch_unfold.
    change (bool_decide (79 + 1 = 80)) with true.
    rewrite save_checkpoint_unfold. cbv zeta. simpl.
    erewrite must_save_body_absent;
      [by eexists
      |by rewrite after_latest_and_best_must_save
      |apply after_latest_and_best_latest].
  - intros Hsome. rewrite main_epoch_unfold.
    change (bool_decide (79 + 1 = 80)) with true.
    rewrite save_checkpoint_unfold. cbv zeta.
    rewrite must_save_loop_running; [done|].
    by rewrite after_latest_and_best_must_save.
Qed.

(** X5: the epoch loop over [range(a, b)] returns exactly when the suffix-0
    milestone is absent from the output directory or epoch index 79 is not in
    the range; when the milestone is there and the range holds 79, the loop
    is still running after any number of iterations of the milestone scan. *)
Theorem epoch_loop_returns_iff fuel a b w :
  ((exists w',
      for_each (range a b) (main_epoch train validate (S fuel)) w
      = Returns tt w')
   <-> files w !! milestone_path w 0 = None \/ ~ (a <= 79 < b)) /\
  (is_Some (files w !! milestone_path w 0) -> a <= 79 < b ->
   forall fuel',
     for_each (range a b) (main_epoch train validate fuel') w = Running).
Proof.
  assert (Hbefore : forall fuel', a <= 79 < b ->
            exists w1,
              for_each (range a 79) (main_epoch train validate fuel') w
              = Returns tt w1 /\
              milestone_path w1 0 = milestone_path w 0 /\
              files w1 !! milestone_path w 0 = files w !! milestone_path w 0).
  { intros fuel' Hin.
    assert (Hnot : ~ In 79 (range a 79)) by (rewrite range_elem; lia).
    destruct (main_loop_no_milestone fuel' (range a 79) w Hnot) as [w1 Hw1].
    exists w1. split; [done|].
    apply main_loop_returns_frame in Hw1 as (Hargs & _ & _ & _ & Hzero).
    split; [unfold milestone_path; by rewrite Hargs|by apply Hzero]. }
  assert (Hrunning :
            is_Some (files w !! milestone_path w 0) -> a <= 79 < b ->
            forall fuel',
              for_each (range a b) (main_epoch train validate fuel') w
              = Running).
  { intros Hsome Hin fuel'.
    destruct (Hbefore fuel' Hin) as (w1 & Hw1 & Hpath & Hfile).
    rewrite range_around_79, for_each_app by done.
    unfold bind at 1. rewrite Hw1. simpl. unfold bind.
    rewrite (proj2 (main_epoch_79 fuel' w1)); [done|].
    by rewrite Hpath, Hfile. }
  split; [split|exact Hrunning].
  - intros [w' Hw'].
    destruct (files w !! milestone_path w 0) eqn:Hfile; [|by left].
    right. intros Hin.
    rewrite Hrunning in Hw'; [done|by eexists|done].
  - intros Hcond.
    destruct (decide (a <= 79 < b)) as [Hin|Hout].
    + destruct Hcond as [Hnone|]; [|done].
      destruct (Hbefore (S fuel) Hin) as (w1 & Hw1 & Hpath & Hfile).
      rewrite range_around_79, for_each_app by done.
      unfold bind at 1. rewrite Hw1. simpl. unfold bind.
      destruct (proj1 (main_epoch_79 fuel w1)) as [w2 Hw2];
        [by rewrite Hpath, Hfile|].
      rewrite Hw2. apply main_loop_no_milestone.
      rewrite range_elem. lia.
    + apply main_loop_no_milestone. rewrite range_elem. lia.
Qed.

(** X6: an epoch loop that returns writes a milestone only at the end of
    epoch index 79: when 79 is in the range, suffix 0 was absent before and
    holds a record of epoch 80 after; otherwise suffix 0 is as it was; no
    other suffix is ever touched. *)
Theorem milestone_only_after_epoch_80 fuel a b w w' :
  for_each (range a b) (main_epoch train validate fuel) w = Returns tt w' ->
  (forall i, i <> 0 ->
     files w' !! milestone_path w i = files w !! milestone_path w i) /\
  (~ (a <= 79 < b) ->
   files w' !! milestone_path w 0 = files w !! milestone_path w 0) /\
  (a <= 79 < b ->
   files w !! milestone_path w 0 = None /\
   exists c,
     files w' !! milestone_path w 0 = Some (Pickled c) /\ ckpt_epoch c = 80).
Proof.
  intros Hrun.
  pose proof (main_loop_returns_frame _ _ _ _ Hrun)
    as (_ & _ & _ & Hother & Hzero).
  split; [exact Hother|]. split.
  - intros Hout. apply Hzero. rewrite range_elem. lia.
  - intros Hin. rewrite range_around_79, for_each_app in Hrun by done.
    apply bind_returns in Hrun as ([] & w1 & Hw1 & Hrest). simpl in Hrest.
    apply bind_returns in Hrest as ([] & w2 & Hw2 & Hw').
    apply main_loop_returns_frame in Hw1 as (Hargs1 & _ & _ & _ & Hzero1).
    apply main_epoch_returns_frame in Hw2
      as (Hargs2 & _ & _ & _ & _ & Hsaved).
    apply main_loop_returns_frame in Hw' as (_ & _ & _ & _ & Hzero').
    assert (Hpath1 : milestone_path w1 0 = milestone_path w 0)
      by (unfold milestone_path; by rewrite Hargs1).
    assert (Hpath2 : milestone_path w2 0 = milestone_path w 0)
      by (unfold milestone_path; by rewrite Hargs2, Hargs1).
    destruct (Hsaved eq_refl) as [Hnone Hsome].
    rewrite Hpath1 in *. rewrite Hpath2 in *.
    split.
    + rewrite <- Hzero1; [done|]. rewrite range_elem. lia.
    + eexists. split.
      * rewrite Hzero'; [exact Hsome|]. rewrite range_elem. lia.
      * reflexivity.
Qed.

(** X7: an epoch loop that returns leaves the arguments as they were and the
    latest slot recording the end of its range, [args.epochs] in [main]; over
    an empty range it changes nothing. *)
Theorem complete_run_latest_records_last_epoch fuel a b w w' :
  for_each (range a b) (main_epoch train validate fuel) w = Returns tt w' ->
  args w' = args w /\
  (a < b -> latest_epoch w' = Some b) /\
  (b <= a -> w' = w).
Proof.
  intros Hrun.
  pose proof (main_loop_returns_frame _ _ _ _ Hrun) as (Hargs & _ & Hlast & _).
  split; [exact Hargs|]. split.
  - intros Hlt. rewrite range_last in Hlast by done.
    rewrite Hlast. f_equal. lia.
  - intros Hle. by rewrite range_nil in Hlast by done.
Qed.

(** X8: the best slot keeps holding the best model.  If, before the loop, the
    record in the best slot (when there is one) holds a model whose
    validation metric is the metric it records, level with [best_prec1], then
    the same is true after every epoch loop that returns. *)
Theorem best_slot_holds_best_model fuel (l : list Z) w w' :
  for_each l (main_epoch train validate fuel) w = Returns tt w' ->
  best_slot_consistent validate w ->
  best_slot_consistent validate w'.
Proof.
  revert w w'. induction l as [|epoch l IH]; intros w w'; simpl.
  - by intros [= <-].
  - intros ([] & w1 & Hstep & Hrest)%bind_returns Hw.
    apply (IH _ _ Hrest). clear IH Hrest.
    apply main_epoch_checkpoint_phase in Hstep
      as (Hbest & Hle & _ & Hslot & Hargs).
    intros c. rewrite Hargs, Hslot, Hbest.
    destruct (py_gt (prec1_of train validate w epoch) (best_prec1 w))
      eqn:Hgt.
    + intros [= <-]. simpl.
      assert (Hmax : py_max (prec1_of train validate w epoch) (best_prec1 w)
                     = prec1_of train validate w epoch)
        by (unfold py_max; by rewrite (py_gt_asym _ _ Hgt)).
      rewrite Hmax. split; [done|]. split; apply py_le_refl.
    + intros Hc. destruct (Hw c Hc) as (Hval & Hle1 & Hle2).
      split; [done|]. split.
      * eapply py_le_trans; [exact Hle1|]. apply py_max_ge_r.
      * eapply py_le_trans; [|exact Hle2]. by apply py_max_not_gt.
Qed.

(** X9: the checkpoint round trip.  A process that resumes from the latest
    slot an epoch left starts with the model, the optimizer and [best_prec1]
    that epoch ended with, and with the next epoch as its start epoch; the
    files are as the epoch left them. *)
Theorem resume_restores_saved_state fuel epoch w w1 w2 :
  main_epoch train validate fuel epoch w = Returns tt w1 ->
  files w2 = files w1 ->
  resume (args w2) = os_path_join (output_dir (args w)) default_filename ->
  exists w3,
    main_resume w2 = Returns tt w3 /\
    model w3 = model w1 /\
    optimizer w3 = optimizer w1 /\
    best_prec1 w3 = best_prec1 w1 /\
    start_epoch (args w3) = epoch + 1 /\
    epochs (args w3) = epochs (args w2) /\
    files w3 = files w1.
Proof.
  intros Hstep Hfiles Hresume.
  pose proof (main_epoch_checkpoint_phase _ _ _ _ _ _ Hstep)
    as (_ & _ & Hlatest & _ & _).
  apply main_epoch_returns in Hstep as (fs & _ & ->). simpl in *.
  assert (Htruthy : truthy (resume (args w2)) = true)
    by (rewrite Hresume; apply truthy_latest_path).
  assert (Hfile : files w2 !! resume (args w2)
                  = Some (Pickled (saved_state train validate w epoch)))
    by (by rewrite Hresume, Hfiles).
  eexists. split; [by apply main_resume_loads|]. by simpl.
Qed.

(** X10: a run that trains nothing saves no checkpoint.  When [main] is
    run with [--evaluate], or with a [--ctype] other than 10 and 100, and
    returns, the latest slot, the best slot and every milestone file are as
    they were.  With the unknown [ctype] it has printed
    ['Unknown CIFAR type!'] last and changed no file at all, and it does
    return whenever the resume step does (no resume path, a path that names
    no file, or a checkpoint): neither [train] nor [validate] is called. *)
Theorem main_without_training_saves_no_checkpoint fuel w :
  (forall w',
     evaluate (args w) = true \/
     (ctype (args w) <> 10 /\ ctype (args w) <> 100) ->
     main train validate fuel w = Returns tt w' ->
     latest_epoch w' = latest_epoch w /\
     best_slot w' = best_slot w /\
     (forall i,
        files w' !! milestone_path w i = files w !! milestone_path w i)) /\
  (forall w',
     ctype (args w) <> 10 /\ ctype (args w) <> 100 ->
     main train validate fuel w = Returns tt w' ->
     last (stdout w') = Some "Unknown CIFAR type!" /\ files w' = files w) /\
  (forall w1,
     ctype (args w) <> 10 /\ ctype (args w) <> 100 ->
     main_resume w = Returns tt w1 ->
     main train validate fuel w
     = Returns tt
         (MkWorld (files w1) (stdout w1 ++ ["Unknown CIFAR type!"]) (args w1)
            (best_prec1 w1) (model w1) (optimizer w1))).
Proof.
  assert (Hctype_kept : forall w1,
            main_resume w = Returns tt w1 ->
            files w1 = files w /\
            evaluate (args w1) = evaluate (args w) /\
            ctype (args w1) = ctype (args w) /\
            output_dir (args w1) = output_dir (args w)).
  { intros w1 Hres.
    destruct (main_resume_cases w)
      as [(w2 & Hres2 & Hfiles & Heval & Hctype & _ & Hdir)
         |(w2 & Hres2 & _)]; rewrite Hres2 in Hres; [|done].
    by injection Hres as <-. }
  assert (Hunknown : forall w1,
            ctype (args w) <> 10 /\ ctype (args w) <> 100 ->
            main_resume w = Returns tt w1 ->
            main train validate fuel w
            = Returns tt
                (MkWorld (files w1) (stdout w1 ++ ["Unknown CIFAR type!"])
                   (args w1) (best_prec1 w1) (model w1) (optimizer w1))).
  { intros w1 [Hne10 Hne100] Hres.
    destruct (Hctype_kept w1 Hres) as (_ & _ & Hctype & _).
    unfold main, bind. rewrite Hres. unfold main_run, bind, get.
    rewrite Hctype.
    rewrite (bool_decide_eq_false_2 _ Hne10), (bool_decide_eq_false_2 _ Hne100).
    reflexivity. }
  assert (Hfiles : forall w',
            evaluate (args w) = true \/
            (ctype (args w) <> 10 /\ ctype (args w) <> 100) ->
            main train validate fuel w = Returns tt w' ->
            files w' = files w /\
            output_dir (args w') = output_dir (args w)).
  { intros w' Hcond Hrun. unfold main, bind in Hrun.
    destruct (main_resume w) as [[] w1|e w1|] eqn:Hres; [|done|done].
    destruct (Hctype_kept w1 eq_refl) as (Hf & Heval & Hctype & Hdir).
    unfold main_run, bind, get in Hrun. rewrite Hctype, Heval in Hrun.
    destruct (bool_decide (ctype (args w) = 10)
              || bool_decide (ctype (args w) = 100)) eqn:Hb.
    - destruct Hcond as [Hev|[Hne10 Hne100]].
      + rewrite Hev in Hrun. by injection Hrun as <-.
      + rewrite (bool_decide_eq_false_2 _ Hne10),
          (bool_decide_eq_false_2 _ Hne100) in Hb. discriminate Hb.
    - injection Hrun as <-. by simpl. }
  split; [|split].
  - intros w' Hcond Hrun. destruct (Hfiles w' Hcond Hrun) as [Hf Hdir].
    unfold latest_epoch, best_slot, milestone_path. by rewrite Hf, Hdir.
  - intros w' Hcond Hrun.
    destruct (Hfiles w' (or_intror Hcond) Hrun) as [Hf _].
    split; [|exact Hf].
    unfold main, bind in Hrun.
    destruct (main_resume w) as [[] w1|e w1|] eqn:Hres; [|done|done].
    assert (Hmain := Hunknown w1 Hcond eq_refl).
    unfold main, bind in Hmain. rewrite Hres in Hmain.
    rewrite Hmain in Hrun. injection Hrun as <-. simpl. apply last_snoc.
  - exact Hunknown.
Qed.

End MainRuns.

(** ** [AverageMeter] in exact arithmetic: the mean as a weighted average *)

Local Open Scope Qc_scope.

(** The weighted sum lies between the bounds of the values times the total
    weight. *)
Lemma weighted_sum_between (calls : list (Qc * Z)) (lo hi : Qc) :
  Forall (fun c => (0 < snd c)%Z) calls ->
  Forall (fun c => lo <= fst c /\ fst c <= hi) calls ->
  lo * Qc_of_Z (fold_right Z.add 0%Z (map snd calls))
  <= fold_right Qcplus 0 (map (fun c => fst c * Qc_of_Z (snd c)) calls) /\
  fold_right Qcplus 0 (map (fun c => fst c * Qc_of_Z (snd c)) calls)
  <= hi * Qc_of_Z (fold_right Z.add 0%Z (map snd calls)).
Proof.
  induction calls as [|[v n] calls IH]; intros Hpos Hval; simpl.
  - rewrite Z2Qc_inj_0, !Qcmult_0_r. split; apply Qcle_refl.
  - apply Forall_cons in Hpos as [Hn Hpos].
    apply Forall_cons in Hval as [[Hlo Hhi] Hval]. simpl in *.
    destruct (IH Hpos Hval) as [IHlo IHhi].
    assert (H0n : 0 <= Qc_of_Z n).
    { rewrite <- Z2Qc_inj_0. apply (proj1 (Z2Qc_inj_le 0 n)). lia. }
    rewrite Z2Qc_inj_add, !Qcmult_plus_distr_r.
    split; apply Qcplus_le_compat; try done;
      by apply Qcmult_le_mono_nonneg_r.
Qed.

Lemma total_weight_positive (calls : list (Qc * Z)) :
  Forall (fun c => (0 < snd c)%Z) calls -> calls <> [] ->
  (0 < fold_right Z.add 0 (map snd calls))%Z.
Proof.
  intros Hpos Hne. destruct calls as [|[v n] calls]; [done|].
  apply Forall_cons in Hpos as [Hn Hpos]. simpl in *.
  assert ((0 <= fold_right Z.add 0 (map snd calls))%Z); [|lia].
  clear Hne Hn. induction calls as [|[v' n'] calls IH]; simpl; [done|].
  apply Forall_cons in Hpos as [Hn' Hpos]. simpl in *.
  specialize (IH Hpos). lia.
Qed.

(** The mean of a run in exact arithmetic, as one quotient. *)
Lemma mean_exact (calls : list (Qc * Z)) self0 :
  Forall (fun c => (0 < snd c)%Z) calls -> calls <> [] ->
  exists self',
    bind AverageMeter.reset (fun _ => AverageMeter.updates calls) self0
    = Returns tt self' /\
    AverageMeter.sum self'
    = fold_right Qcplus 0 (map (fun c => fst c * Qc_of_Z (snd c)) calls) /\
    AverageMeter.count self' = fold_right Z.add 0%Z (map snd calls) /\
    AverageMeter.avg self'
    = fold_right Qcplus 0 (map (fun c => fst c * Qc_of_Z (snd c)) calls)
      / Qc_of_Z (fold_right Z.add 0%Z (map snd calls)).
Proof.
  intros Hpos Hne.
  destruct (updates_after_reset calls self0 Hpos)
    as (self' & Hrun & Hsum & Hcnt & Hlast).
  exists self'. split; [exact Hrun|].
  rewrite Hsum, Hcnt, weighted_sum_Qc, total_weight_sum.
  split; [done|]. split; [done|].
  destruct calls as [|c calls]; [done|].
  rewrite weighted_sum_Qc, total_weight_sum in Hlast.
  simpl in Hlast. destruct (decide _) as [|_]; [done|].
  by injection Hlast as <-.
Qed.

(** X11: in exact arithmetic the mean of a meter is a weighted average: after
    a [reset] and one or more updates with positive weights it lies between
    any lower and upper bound of the values passed. *)
Theorem mean_between_bounds (calls : list (Qc * Z)) (lo hi : Qc) self0 :
  Forall (fun c => (0 < snd c)%Z) calls ->
  calls <> [] ->
  Forall (fun c => lo <= fst c /\ fst c <= hi) calls ->
  exists self',
    bind AverageMeter.reset (fun _ => AverageMeter.updates calls) self0
    = Returns tt self' /\
    lo <= AverageMeter.avg self' /\ AverageMeter.avg self' <= hi.
Proof.
  intros Hpos Hne Hval.
  destruct (mean_exact calls self0 Hpos Hne) as (self' & Hrun & _ & _ & Havg).
  exists self'. split; [exact Hrun|]. rewrite Havg. clear Havg.
  pose proof (total_weight_positive calls Hpos Hne) as Htw.
  destruct (weighted_sum_between calls lo hi Hpos Hval) as [Hlo Hhi].
  set (ws := fold_right Qcplus 0 _) in *.
  set (tw := fold_right Z.add 0%Z _) in *.
  assert (HT : 0 < Qc_of_Z tw).
  { rewrite <- Z2Qc_inj_0. by apply (proj1 (Z2Qc_inj_lt 0 tw)). }
  assert (Hne0 : Qc_of_Z tw <> 0) by (by apply not_eq_sym, Qclt_not_eq).
  assert (Hq : ws / Qc_of_Z tw * Qc_of_Z tw = ws).
  { rewrite Qcmult_comm. by apply Qcmult_div_r. }
  split; apply (Qcmult_le_mono_pos_r _ _ (Qc_of_Z tw) HT); by rewrite Hq.
Qed.

(** The two sums do not depend on the order of the calls. *)
Lemma sums_permutation (calls1 calls2 : list (Qc * Z)) :
  Permutation calls1 calls2 ->
  fold_right Qcplus 0 (map (fun c => fst c * Qc_of_Z (snd c)) calls1)
  = fold_right Qcplus 0 (map (fun c => fst c * Qc_of_Z (snd c)) calls2) /\
  fold_right Z.add 0%Z (map snd calls1)
  = fold_right Z.add 0%Z (map snd calls2).
Proof.
  induction 1 as [|c l1 l2 _ [IH1 IH2]|c1 c2 l|l1 l2 l3 _ [IH1 IH2] _ [IH3 IH4]];
    simpl.
  - done.
  - by rewrite IH1, IH2.
  - split; [ring|lia].
  - split; congruence.
Qed.

(** X12: in exact arithmetic the sum, the count and the mean of a meter do
    not depend on the order of the updates (the field [val] does: it is the
    value of the last one). *)
Theorem mean_order_independent (calls1 calls2 : list (Qc * Z)) self0 :
  Forall (fun c => (0 < snd c)%Z) calls1 ->
  Permutation calls1 calls2 ->
  exists self1 self2,
    bind AverageMeter.reset (fun _ => AverageMeter.updates calls1) self0
    = Returns tt self1 /\
    bind AverageMeter.reset (fun _ => AverageMeter.updates calls2) self0
    = Returns tt self2 /\
    AverageMeter.sum self1 = AverageMeter.sum self2 /\
    AverageMeter.count self1 = AverageMeter.count self2 /\
    AverageMeter.avg self1 = AverageMeter.avg self2.
Proof.
  intros Hpos1 Hperm.
  assert (Hpos2 : Forall (fun c : Qc * Z => (0 < snd c)%Z) calls2)
    by (by rewrite <- Hperm).
  destruct (sums_permutation _ _ Hperm) as [Hws Htw].
  destruct calls1 as [|c1 calls1].
  - apply Permutation_nil_l in Hperm as <-.
    exists AverageMeter.zeroed, AverageMeter.zeroed. done.
  - assert (Hne2 : calls2 <> []).
    { intros ->. by apply Permutation_nil_r in Hperm. }
    destruct (mean_exact (c1 :: calls1) self0 Hpos1)
      as (self1 & Hrun1 & Hs1 & Hc1 & Ha1); [done|].
    destruct (mean_exact calls2 self0 Hpos2 Hne2)
      as (self2 & Hrun2 & Hs2 & Hc2 & Ha2).
    exists self1, self2. repeat split; try done; congruence.
Qed.

Local Close Scope Qc_scope.

(** ** [accuracy]: what it raises, and the range of its values *)

Section AccuracyRuns.

Context {S : Type} (score_gt : S -> S -> bool).

Lemma accuracy_loop_length {V} `{PyNum V} (topk : list nat) pred target
    batch_size (vals : list V) :
  accuracy_loop topk pred target batch_size = Ok vals ->
  length vals = length topk.
Proof.
  revert vals. induction topk as [|k topk IH]; simpl; intros vals.
  - by intros [= <-].
  - destruct (div_int _ _); [|done].
    destruct (accuracy_loop _ _ _ _) as [r|]; [|done].
    intros [= <-]. simpl. by rewrite (IH r).
Qed.

Lemma accuracy_loop_cases {V} `{PyNum V} `{!PyScalar V} (topk : list nat)
    pred target batch_size :
  topk <> [] ->
  match accuracy_loop (V := V) topk pred target batch_size with
  | Ok vals => batch_size <> 0
  | Error e => e = ZeroDivisionError /\ batch_size = 0
  end.
Proof.
  intros Htopk. destruct topk as [|k topk]; [done|]. simpl.
  destruct (div_int (of_int 100) batch_size) as [q|] eqn:Hq.
  - assert (batch_size <> 0).
    { intros Hz. rewrite Hz, div_int_zero in Hq. discriminate Hq. }
    by rewrite (accuracy_loop_ok topk pred target batch_size q Hq).
  - split; [done|]. destruct (decide (batch_size = 0)) as [Hz|Hz]; [done|].
    by destruct (div_int_nonzero _ _ Hz Hq).
Qed.

(** X13: every way a call of [accuracy] can end.  It returns one value per
    requested [k] exactly when [topk] is not empty, no [k] exceeds the number
    of classes, and the targets are as many as the rows of [output] (or a
    single one, which is then compared with every row) and not none;
    [max(topk)] of an empty [topk] is a [ValueError]; a [k] beyond the
    number of classes or a wrong number of targets is a [RuntimeError]; and
    an empty batch is a [ZeroDivisionError] (from [100.0 / batch_size], a
    division of Python numbers). *)
Theorem accuracy_outcomes {V} `{PyNum V} `{!PyScalar V} (output : Tensor2 S)
    (target : list Z) (topk : list nat) :
  match accuracy (V := V) score_gt output target topk with
  | Ok vals =>
      topk <> [] /\
      (fold_right Nat.max 0%nat topk <= ncols output)%nat /\
      target <> [] /\
      (length target = length (rows output) \/ length target = 1%nat) /\
      length vals = length topk
  | Error ValueError => topk = []
  | Error RuntimeError =>
      topk <> [] /\
      ((ncols output < fold_right Nat.max 0%nat topk)%nat \/
       (length target <> length (rows output) /\ length target <> 1%nat))
  | Error ZeroDivisionError =>
      topk <> [] /\
      (fold_right Nat.max 0%nat topk <= ncols output)%nat /\
      target = [] /\ rows output = []
  | Error _ => False
  end.
Proof.
  unfold accuracy. destruct topk as [|k0 topk0] eqn:Etopk; [done|].
  rewrite <- Etopk. assert (Hne : topk <> []) by (by rewrite Etopk).
  clear Etopk. cbv zeta. unfold topk_indices.
  destruct (Nat.ltb_spec (ncols output) (fold_right Nat.max 0%nat topk))
    as [Hlt|Hle]; [by auto|].
  unfold expand_target.
  destruct (decide (length target = length (rows output))) as [Hlen|Hlen].
  - pose proof (accuracy_loop_cases (V := V) topk
                  (map (fun row => firstn (fold_right Nat.max 0%nat topk)
                                     (argsort_desc score_gt row))
                       (rows output))
                  target (Z.of_nat (length target)) Hne) as Hloop.
    destruct (accuracy_loop _ _ _ _) as [vals|e] eqn:Hrun.
    + apply accuracy_loop_length in Hrun.
      repeat split; auto. intros ->. by simpl in Hloop.
    + destruct Hloop as [-> Hz].
      assert (Htarget : target = []) by (destruct target; [done|simpl in Hz; lia]).
      repeat split; auto. subst target. simpl in Hlen.
      by destruct (rows output).
  - destruct target as [|t [|t' target]].
    + split; [done|]. right. by split.
    + pose proof (accuracy_loop_cases (V := V) topk
                    (map (fun row => firstn (fold_right Nat.max 0%nat topk)
                                       (argsort_desc score_gt row))
                         (rows output))
                    (repeat t (length (rows output))) (Z.of_nat (length [t]))
                    Hne) as Hloop.
      destruct (accuracy_loop _ _ _ _) as [vals|e] eqn:Hrun.
      * apply accuracy_loop_length in Hrun. repeat split; auto.
      * by destruct Hloop as [_ Hz].
    + split; [done|]. right. by split.
Qed.

(** The number of examples counted at [k] is between 0 and the number of
    targets, and grows with [k]. *)
Lemma examples_correct_at_range (k : nat) (output : Tensor2 S)
    (target : list Z) :
  0 <= examples_correct_at score_gt k output target
  <= Z.of_nat (length target).
Proof.
  unfold examples_correct_at. split; [lia|].
  apply inj_le. etrans; [apply length_filter|].
  rewrite length_combine. lia.
Qed.

Lemma examples_correct_at_mono (k1 k2 : nat) (output : Tensor2 S)
    (target : list Z) :
  (k1 <= k2)%nat ->
  examples_correct_at score_gt k1 output target
  <= examples_correct_at score_gt k2 output target.
Proof.
  intros Hk. unfold examples_correct_at. apply inj_le.
  induction (combine (rows output) target) as [|rt l IH]; [done|].
  rewrite !filter_cons.
  assert (Himp : Exists (fun i => Z.of_nat i = snd rt)
                   (firstn k1 (argsort_desc score_gt (fst rt))) ->
                 Exists (fun i => Z.of_nat i = snd rt)
                   (firstn k2 (argsort_desc score_gt (fst rt)))).
  { rewrite !Exists_exists. intros (i & Hin & Hi). exists i. split; [|done].
    apply elem_of_take in Hin as (j & Hj & Hlt).
    apply elem_of_take. exists j. split; [done|lia]. }
  destruct (decide (Exists _ (firstn k1 _))) as [H1|H1].
  - rewrite decide_True by auto. simpl. lia.
  - destruct (decide (Exists _ (firstn k2 _))); simpl; lia.
Qed.

End AccuracyRuns.

Section AccuracyCounts.

Context {S : Type} (score_gt : S -> S -> bool).
Context {V : Type} `{PyNum V}.

(** X14: on a batch [accuracy] accepts, the value returned for each [k] is
    the quotient [100.0 / batch_size] times an integer count, the number of
    examples whose target is among the [k] best scores of their row.  That
    count lies between 0 and the batch size, and the count for a larger [k]
    is never smaller than the count for a smaller one (top-5 counts every
    example top-1 counts).  This holds in whatever arithmetic the product
    is computed; the rounding of the product is not part of the
    statement. *)
Theorem accuracy_counts_in_range_and_monotone (output : Tensor2 S)
    (target : list Z) (topk : list nat) :
  topk <> [] ->
  target <> [] ->
  length target = length (rows output) ->
  (fold_right Nat.max 0%nat topk <= ncols output)%nat ->
  exists q : V,
    div_int (of_int 100) (Z.of_nat (length target)) = Some q /\
    accuracy score_gt output target topk
    = Ok (map (fun k =>
                 mul_int q (examples_correct_at score_gt k output target))
              topk) /\
    (forall k,
       0 <= examples_correct_at score_gt k output target
       <= Z.of_nat (length target)) /\
    (forall k1 k2, (k1 <= k2)%nat ->
       examples_correct_at score_gt k1 output target
       <= examples_correct_at score_gt k2 output target).
Proof.
  intros Htopk Htarget Hlen Hmax.
  destruct (accuracy_ok score_gt output target topk Htopk Htarget Hlen Hmax)
    as (q & Hq & Hrun).
  exists q. split; [exact Hq|]. split; [exact Hrun|]. split.
  - intros k. apply examples_correct_at_range.
  - intros k1 k2. apply examples_correct_at_mono.
Qed.

(** With all classes requested every in-range target is found. *)
Lemma examples_correct_at_all (output : Tensor2 S) (target : list Z) :
  Forall (fun row => length row = ncols output) (rows output) ->
  Forall (fun t => 0 <= t < Z.of_nat (ncols output)) target ->
  length target = length (rows output) ->
  examples_correct_at score_gt (ncols output) output target
  = Z.of_nat (length target).
Proof.
  unfold examples_correct_at. destruct output as [n rws]. simpl.
  intros Hrows Htarget Hlen. f_equal.
  revert target Htarget Hlen.
  induction Hrows as [|row rws Hrow Hrows IH]; intros [|t target] Ht Hlen;
    try done.
  apply Forall_cons in Ht as [Ht Htarget]. simpl in Hlen.
  simpl. rewrite filter_cons. simpl.
  rewrite decide_True; [simpl; f_equal; apply IH; [done|lia]|].
  apply Exists_exists. exists (Z.to_nat t). split; [|lia].
  rewrite firstn_all2 by (rewrite argsort_desc_length; lia).
  rewrite argsort_desc_perm. apply elem_of_seq. lia.
Qed.

(** X15: with [k] equal to the number of classes, rows of that many scores
    and targets that are class indices, [accuracy] counts every example,
    whatever the scores: the value it returns is [100.0 / batch_size] times
    the batch size, in the arithmetic of the product. *)
Theorem accuracy_all_classes_counts_every_example (output : Tensor2 S)
    (target : list Z) :
  Forall (fun row => length row = ncols output) (rows output) ->
  Forall (fun t => 0 <= t < Z.of_nat (ncols output)) target ->
  length target = length (rows output) ->
  target <> [] ->
  exists q : V,
    div_int (of_int 100) (Z.of_nat (length target)) = Some q /\
    accuracy score_gt output target [ncols output]
    = Ok [mul_int q (Z.of_nat (length target))].
Proof.
  intros Hrows Htarget Hlen Hne.
  destruct (accuracy_ok score_gt output target [ncols output])
    as (q & Hq & Hrun); [done|done|done|simpl; lia|].
  exists q. split; [exact Hq|]. rewrite Hrun. simpl.
  by rewrite examples_correct_at_all.
Qed.

End AccuracyCounts.

(** ** Learning rates: the last assignment wins *)

Lemma fix_learning_rate_twice {Buffers} (o : Optimizer Buffers)
    (x y : float) :
  fix_learning_rate (fix_learning_rate o x) y = fix_learning_rate o y.
Proof.
  unfold fix_learning_rate. simpl. f_equal.
  rewrite map_map. apply map_ext. intros g. apply insert_insert_eq.
Qed.

(** X16: [fix_learning_rate] and [adjust_learning_rate] write the rate into
    every parameter group: after [fix_learning_rate(optimizer, lr)] every
    group holds [lr], whatever it held before, and after
    [adjust_learning_rate] every group holds the rate of the epoch's stage,
    also when a different rate had been set or restored before.  The last
    call decides: the optimizer after a call does not depend on earlier calls
    of either function.  The other hyper-parameters, the buffers and the
    number of groups are kept. *)
Theorem learning_rate_last_assignment_wins {Buffers} (a a' : Args)
    (o : Optimizer Buffers) (x y : float) (epoch epoch' : Z) :
  learning_rates (fix_learning_rate o y)
  = map (fun _ => Some y) (param_groups o) /\
  learning_rates (adjust_learning_rate a (fix_learning_rate o x) epoch)
  = map (fun _ =>
           Some (if epoch <=? 81 then lr a
                 else if epoch <=? 122 then (lr a * 0.1)%float
                 else (lr a * 0.01)%float))
        (param_groups o) /\
  fix_learning_rate (fix_learning_rate o x) y = fix_learning_rate o y /\
  fix_learning_rate (adjust_learning_rate a' o epoch') y
  = fix_learning_rate o y /\
  adjust_learning_rate a (fix_learning_rate o x) epoch
  = adjust_learning_rate a o epoch /\
  adjust_learning_rate a (adjust_learning_rate a' o epoch') epoch
  = adjust_learning_rate a o epoch /\
  (forall key, key <> "lr" ->
     map (fun g => g !! key) (param_groups (fix_learning_rate o y))
     = map (fun g => g !! key) (param_groups o)) /\
  buffers (fix_learning_rate o y) = buffers o /\
  length (param_groups (fix_learning_rate o y)) = length (param_groups o) /\
  length (param_groups (adjust_learning_rate a o epoch))
  = length (param_groups o).
Proof.
  rewrite !adjust_learning_rate_fix, !fix_learning_rate_twice.
  unfold fix_learning_rate. rewrite !learning_rates_set. simpl.
  rewrite !length_map. repeat split; try done.
  intros key Hkey. by apply other_keys_kept.
Qed.

(** ** [train] and [validate] *)

Section PassFacts.

Context {V : Type} `{PyNum V}.
Context {S Input ModelState Buffers : Type}.
Context (score_gt : S -> S -> bool).
Context (size0 : Input -> Z).
Context (forward : bool -> ModelState -> Input -> Tensor2 S * ModelState).
Context (criterion : Tensor2 S -> list Z -> V).
Context (sgd_step : ModelState -> Optimizer Buffers -> Input -> list Z ->
                    ModelState * Optimizer Buffers).
Context (readings : nat -> V).
Context (sub : V -> V -> V).
Context (fmt_f : nat -> V -> string).
Context (print_freq : Z).

Abbreviation batch_ok := (Pass.batch_ok size0 forward).
Abbreviation prec_at := (Pass.prec_at score_gt forward).
Abbreviation prec_calls := (Pass.prec_calls score_gt size0 forward).
Abbreviation validate_batch :=
  (Pass.validate_batch (Buffers := Buffers) score_gt size0 forward criterion
     readings sub fmt_f print_freq).
Abbreviation validate :=
  (Pass.validate (Buffers := Buffers) score_gt size0 forward criterion
     readings sub fmt_f print_freq).
Abbreviation train_batch :=
  (Pass.train_batch score_gt size0 forward criterion sgd_step readings sub
     fmt_f print_freq).
Abbreviation train :=
  (Pass.train score_gt size0 forward criterion sgd_step readings sub fmt_f
     print_freq).

Lemma update_ok (v : V) (n : Z) (self : AverageMeter.t V) :
  0 <= AverageMeter.count self -> 0 < n ->
  exists self',
    AverageMeter.update v n self = Returns tt self' /\
    0 <= AverageMeter.count self'.
Proof.
  intros Hc Hn. rewrite update_unfold. cbv zeta.
  destruct (div_int_Some
              (add (AverageMeter.sum self) (mul_int v n))
              (AverageMeter.count self + n)) as [q Hq]; [lia|].
  rewrite Hq. eexists. split; [done|]. simpl. lia.
Qed.

(** On a batch the loop accepts, [accuracy(output, target, topk=(1, 5))]
    returns its two percentages. *)
Lemma accuracy_top1_top5 mode m (b : Pass.Batch Input) :
  batch_ok mode m b ->
  accuracy score_gt (fst (forward mode m (Pass.input b))) (Pass.target b)
    [1%nat; 5%nat]
  = Ok [prec_at 1 mode m b; prec_at 5 mode m b].
Proof.
  intros (Hne & Hlen & Hcols & _).
  destruct (accuracy_ok (V := V) score_gt
              (fst (forward mode m (Pass.input b))) (Pass.target b)
              [1%nat; 5%nat]) as (q & Hq & ->); try done.
  unfold Pass.prec_at. by rewrite Hq.
Qed.

Lemma batch_ok_size mode m (b : Pass.Batch Input) :
  batch_ok mode m b -> 0 < size0 (Pass.input b).
Proof.
  intros (Hne & _ & _ & ->). destruct (Pass.target b); [done|simpl; lia].
Qed.

(** One iteration of the loop of [validate] on a batch it accepts. *)
Lemma validate_batch_ok (N i : Z) (b : Pass.Batch Input)
    (s : Pass.validate_locals V) (p : Pass.Proc ModelState Buffers) :
  print_freq <> 0 ->
  batch_ok (Pass.training p) (Pass.model p) b ->
  0 <= AverageMeter.count (Pass.v_batch_time s) ->
  0 <= AverageMeter.count (Pass.v_losses s) ->
  0 <= AverageMeter.count (Pass.v_top1 s) ->
  0 <= AverageMeter.count (Pass.v_top5 s) ->
  exists s',
    validate_batch N (i, b) s p
    = Returns s'
        (Pass.MkProc
           (snd (forward (Pass.training p) (Pass.model p) (Pass.input b)))
           (Pass.training p) (Pass.optimizer p)
           (Pass.stdout p ++
            (if decide (i mod print_freq = 0)
             then [Pass.validate_msg fmt_f i N s'] else []))
           (Pass.fid p) (Datatypes.S (Datatypes.S (Pass.clock p)))) /\
    AverageMeter.update
      (prec_at 1 (Pass.training p) (Pass.model p) b) (size0 (Pass.input b))
      (Pass.v_top1 s) = Returns tt (Pass.v_top1 s') /\
    AverageMeter.update
      (prec_at 5 (Pass.training p) (Pass.model p) b) (size0 (Pass.input b))
      (Pass.v_top5 s) = Returns tt (Pass.v_top5 s') /\
    0 <= AverageMeter.count (Pass.v_batch_time s') /\
    0 <= AverageMeter.count (Pass.v_losses s') /\
    0 <= AverageMeter.count (Pass.v_top1 s') /\
    0 <= AverageMeter.count (Pass.v_top5 s').
Proof.
  intros Hpf Hok Hbt Hl H1 H5.
  pose proof (batch_ok_size _ _ _ Hok) as Hn.
  destruct (update_ok
              (criterion (fst (forward (Pass.training p) (Pass.model p)
                                 (Pass.input b))) (Pass.target b))
              (size0 (Pass.input b)) _ Hl Hn) as (losses & Hlosses & Hl').
  destruct (update_ok (prec_at 1 (Pass.training p) (Pass.model p) b)
              (size0 (Pass.input b)) _ H1 Hn) as (top1 & Htop1 & H1').
  destruct (update_ok (prec_at 5 (Pass.training p) (Pass.model p) b)
              (size0 (Pass.input b)) _ H5 Hn) as (top5 & Htop5 & H5').
  destruct (update_ok (sub (readings (Pass.clock p)) (Pass.v_end s)) 1 _ Hbt)
    as (batch_time & Hbatch_time & Hbt'); [lia|].
  exists (Pass.MkValidateLocals batch_time losses top1 top5
            (readings (Datatypes.S (Pass.clock p)))).
  split; [|by repeat split].
  unfold Pass.validate_batch, bind, Pass.model_call, of_res.
  cbn [fst snd Pass.model Pass.training Pass.clock Pass.stdout Pass.fid
       Pass.optimizer].
  rewrite (accuracy_top1_top5 _ _ _ Hok). unfold ret at 1. cbv beta iota.
  unfold Pass.call_update. rewrite Hlosses, Htop1, Htop5.
  unfold Pass.time_time.
  cbn [fst snd Pass.model Pass.training Pass.clock Pass.stdout Pass.fid
       Pass.optimizer].
  rewrite Hbatch_time. unfold py_mod. rewrite decide_False by done.
  unfold ret at 1. cbv beta iota.
  destruct (decide (i mod print_freq = 0)); simpl; [done|].
  by rewrite app_nil_r.
Qed.

(** The loop of [validate] over batches it accepts, when the model in
    evaluation mode is not changed by a forward pass. *)
Lemma validate_loop (N : Z) (bs : list (Pass.Batch Input)) :
  forall (idxs : list Z) (s : Pass.validate_locals V)
         (p : Pass.Proc ModelState Buffers),
    print_freq <> 0 ->
    (forall m x, snd (forward false m x) = m) ->
    Pass.training p = false ->
    Forall (batch_ok false (Pass.model p)) bs ->
    length idxs = length bs ->
    0 <= AverageMeter.count (Pass.v_batch_time s) ->
    0 <= AverageMeter.count (Pass.v_losses s) ->
    0 <= AverageMeter.count (Pass.v_top1 s) ->
    0 <= AverageMeter.count (Pass.v_top5 s) ->
    exists s' lines,
      for_loop (combine idxs bs) (validate_batch N) s p
      = Returns s'
          (Pass.MkProc (Pass.model p) false (Pass.optimizer p)
             (Pass.stdout p ++ lines) (Pass.fid p)
             (Pass.clock p + 2 * length bs)%nat) /\
      length lines
      = length (filter (fun i => i mod print_freq = 0) idxs) /\
      AverageMeter.updates (prec_calls 1 false (Pass.model p) bs)
        (Pass.v_top1 s) = Returns tt (Pass.v_top1 s') /\
      AverageMeter.updates (prec_calls 5 false (Pass.model p) bs)
        (Pass.v_top5 s) = Returns tt (Pass.v_top5 s').
Proof.
  induction bs as [|b bs IH]; intros idxs s p Hpf Hfw Hmode Hok Hlen
    Hbt Hl H1 H5.
  - destruct idxs; [|done]. exists s, []. simpl.
    rewrite app_nil_r, Nat.add_0_r. split; [|done].
    unfold ret. f_equal. destruct p. simpl in *. by subst.
  - destruct idxs as [|i idxs]; [done|]. simpl in Hlen.
    apply Forall_cons in Hok as [Hb Hbs].
    destruct (validate_batch_ok N i b s p Hpf) as
      (s1 & Hrun1 & Ht1 & Ht5 & Hbt1 & Hl1 & H11 & H51); try done.
    { by rewrite Hmode. }
    rewrite Hmode, Hfw in Hrun1.
    set (p1 := Pass.MkProc _ _ _ _ _ _) in Hrun1.
    destruct (IH idxs s1 p1) as (s' & lines & Hrun & Hlines & Hu1 & Hu5);
      try done; [lia|].
    exists s',
      ((if decide (i mod print_freq = 0)
        then [Pass.validate_msg fmt_f i N s1] else []) ++ lines).
    split; [|split; [|split]].
    + simpl. unfold bind at 1. rewrite Hrun1, Hrun. subst p1. simpl.
      rewrite <- app_assoc. do 2 f_equal. lia.
    + rewrite filter_cons, length_app, Hlines.
      by destruct (decide (i mod print_freq = 0)).
    + simpl. unfold bind. rewrite Hmode in Ht1. by rewrite Ht1.
    + simpl. unfold bind. rewrite Hmode in Ht5. by rewrite Ht5.
Qed.

Lemma enumerate_length {A} (l : list A) :
  length (range 0 (Z.of_nat (length l))) = length l.
Proof.
  unfold range. rewrite length_map, length_seq. lia.
Qed.

Lemma enumerate_range_cons {A} (x : A) (l : list A) :
  range 0 (Z.of_nat (length (x :: l)))
  = 0 :: range 1 (Z.of_nat (length (x :: l))).
Proof.
  apply range_cons. simpl. lia.
Qed.

(** X17: on a loader whose batches it accepts, with a print frequency other
    than 0 and a model that evaluation leaves as it is, [validate] returns
    the mean of a meter that received, for each batch, the top-1 percentage
    [accuracy] gives it with the batch size as weight.  It appends exactly
    one line, the summary, to the log file; it prints one line per batch
    index that is a multiple of the print frequency, then the summary
    between two rules; it leaves the model in evaluation mode and the
    optimizer as it was. *)
Theorem validate_returns_top1_mean (val_loader : list (Pass.Batch Input))
    (p : Pass.Proc ModelState Buffers) :
  print_freq <> 0 ->
  (forall m x, snd (forward false m x) = m) ->
  Forall (batch_ok false (Pass.model p)) val_loader ->
  exists (top1 top5 : AverageMeter.t V) (lines : list string),
    AverageMeter.updates (prec_calls 1 false (Pass.model p) val_loader)
      AverageMeter.init = Returns tt top1 /\
    AverageMeter.updates (prec_calls 5 false (Pass.model p) val_loader)
      AverageMeter.init = Returns tt top5 /\
    length lines = length (Pass.printing_indices print_freq
                             (length val_loader)) /\
    let msg := "T1 " +:+ fmt_f 3 (AverageMeter.avg top1) +:+
               " T5 " +:+ fmt_f 3 (AverageMeter.avg top5) in
    validate val_loader p
    = Returns (AverageMeter.avg top1)
        (Pass.MkProc (Pass.model p) false (Pass.optimizer p)
           (Pass.stdout p ++ lines ++ [dashes; msg; dashes])
           (Pass.fid p +:+ (msg +:+ newline))
           (Pass.clock p + 1 + 2 * length val_loader)%nat).
Proof.
  intros Hpf Hfw Hok.
  set (p0 := Pass.MkProc (Pass.model p) false (Pass.optimizer p)
               (Pass.stdout p) (Pass.fid p) (Datatypes.S (Pass.clock p))).
  destruct (validate_loop (Z.of_nat (length val_loader)) val_loader
              (range 0 (Z.of_nat (length val_loader)))
              (Pass.MkValidateLocals AverageMeter.init AverageMeter.init
                 AverageMeter.init AverageMeter.init
                 (readings (Pass.clock p)))
              p0 Hpf Hfw)
    as (s' & lines & Hrun & Hlines & Hu1 & Hu5); try done.
  { apply enumerate_length. }
  exists (Pass.v_top1 s'), (Pass.v_top5 s'), lines.
  split; [exact Hu1|]. split; [exact Hu5|]. split; [exact Hlines|].
  cbv zeta. unfold Pass.validate, bind at 1, Pass.set_training, modify.
  unfold bind at 1, Pass.time_time. simpl.
  unfold bind at 1. unfold enumerate. fold p0. rewrite Hrun.
  unfold bind, Pass.print, Pass.fid_write, modify, ret, Pass.summary.
  subst p0. simpl. rewrite <- !app_assoc. simpl.
  do 2 f_equal. lia.
Qed.

(** One iteration of the loop of [train] on a batch it accepts. *)
Lemma train_batch_ok (epoch N i : Z) (b : Pass.Batch Input)
    (s : Pass.train_locals V) (p : Pass.Proc ModelState Buffers) :
  print_freq <> 0 ->
  batch_ok (Pass.training p) (Pass.model p) b ->
  0 <= AverageMeter.count (Pass.t_batch_time s) ->
  0 <= AverageMeter.count (Pass.t_data_time s) ->
  0 <= AverageMeter.count (Pass.t_losses s) ->
  0 <= AverageMeter.count (Pass.t_top1 s) ->
  0 <= AverageMeter.count (Pass.t_top5 s) ->
  exists s',
    let mo :=
      sgd_step (snd (forward (Pass.training p) (Pass.model p) (Pass.input b)))
        (Pass.optimizer p) (Pass.input b) (Pass.target b) in
    let lines :=
      if decide (i mod print_freq = 0)
      then [Pass.train_msg fmt_f epoch i N s'] else [] in
    train_batch epoch N (i, b) s p
    = Returns s'
        (Pass.MkProc (fst mo) (Pass.training p) (snd mo)
           (Pass.stdout p ++ lines) (written (Pass.fid p) lines)
           (Datatypes.S (Datatypes.S (Datatypes.S (Pass.clock p))))) /\
    0 <= AverageMeter.count (Pass.t_batch_time s') /\
    0 <= AverageMeter.count (Pass.t_data_time s') /\
    0 <= AverageMeter.count (Pass.t_losses s') /\
    0 <= AverageMeter.count (Pass.t_top1 s') /\
    0 <= AverageMeter.count (Pass.t_top5 s').
Proof.
  intros Hpf Hok Hbt Hdt Hl H1 H5.
  pose proof (batch_ok_size _ _ _ Hok) as Hn.
  destruct (update_ok (sub (readings (Pass.clock p)) (Pass.t_end s)) 1 _ Hdt)
    as (data_time & Hdata_time & Hdt'); [lia|].
  destruct (update_ok
              (criterion (fst (forward (Pass.training p) (Pass.model p)
                                 (Pass.input b))) (Pass.target b))
              (size0 (Pass.input b)) _ Hl Hn) as (losses & Hlosses & Hl').
  destruct (update_ok (prec_at 1 (Pass.training p) (Pass.model p) b)
              (size0 (Pass.input b)) _ H1 Hn) as (top1 & Htop1 & H1').
  destruct (update_ok (prec_at 5 (Pass.training p) (Pass.model p) b)
              (size0 (Pass.input b)) _ H5 Hn) as (top5 & Htop5 & H5').
  destruct (update_ok
              (sub (readings (Datatypes.S (Pass.clock p))) (Pass.t_end s)) 1
              _ Hbt)
    as (batch_time & Hbatch_time & Hbt'); [lia|].
  exists (Pass.MkTrainLocals batch_time data_time losses top1 top5
            (readings (Datatypes.S (Datatypes.S (Pass.clock p))))).
  cbv zeta. split; [|by repeat split].
  unfold Pass.train_batch, bind, Pass.time_time at 1.
  cbn [fst snd Pass.model Pass.training Pass.clock Pass.stdout Pass.fid
       Pass.optimizer].
  unfold Pass.call_update at 1. rewrite Hdata_time.
  unfold Pass.model_call, of_res.
  cbn [fst snd Pass.model Pass.training Pass.clock Pass.stdout Pass.fid
       Pass.optimizer].
  rewrite (accuracy_top1_top5 _ _ _ Hok). unfold ret at 1. cbv beta iota.
  unfold Pass.call_update. rewrite Hlosses, Htop1, Htop5.
  unfold Pass.optimizer_step, modify, Pass.time_time.
  cbn [fst snd Pass.model Pass.training Pass.clock Pass.stdout Pass.fid
       Pass.optimizer].
  rewrite Hbatch_time. unfold py_mod. rewrite decide_False by done.
  unfold ret at 1. cbv beta iota.
  destruct (decide (i mod print_freq = 0)); simpl; [done|].
  by rewrite app_nil_r.
Qed.

Lemma written_app (text : string) (l1 l2 : list string) :
  written (written text l1) l2 = written text (l1 ++ l2).
Proof. unfold written. by rewrite fold_left_app. Qed.

(** The loop of [train] over batches it accepts whatever the model's
    state. *)
Lemma train_loop (epoch N : Z) (bs : list (Pass.Batch Input)) :
  forall (idxs : list Z) (s : Pass.train_locals V)
         (p : Pass.Proc ModelState Buffers),
    print_freq <> 0 ->
    (forall m, Forall (batch_ok true m) bs) ->
    Pass.training p = true ->
    length idxs = length bs ->
    0 <= AverageMeter.count (Pass.t_batch_time s) ->
    0 <= AverageMeter.count (Pass.t_data_time s) ->
    0 <= AverageMeter.count (Pass.t_losses s) ->
    0 <= AverageMeter.count (Pass.t_top1 s) ->
    0 <= AverageMeter.count (Pass.t_top5 s) ->
    exists s' lines,
      let mo := Pass.train_steps forward sgd_step bs
                  (Pass.model p, Pass.optimizer p) in
      for_loop (combine idxs bs) (train_batch epoch N) s p
      = Returns s'
          (Pass.MkProc (fst mo) true (snd mo)
             (Pass.stdout p ++ lines) (written (Pass.fid p) lines)
             (Pass.clock p + 3 * length bs)%nat) /\
      length lines
      = length (filter (fun i => i mod print_freq = 0) idxs).
Proof.
  induction bs as [|b bs IH]; intros idxs s p Hpf Hok Hmode Hlen
    Hbt Hdt Hl H1 H5.
  - destruct idxs; [|done]. exists s, []. simpl.
    rewrite app_nil_r, Nat.add_0_r. split; [|done].
    unfold ret. f_equal. destruct p. simpl in *. by subst.
  - destruct idxs as [|i idxs]; [done|]. simpl in Hlen.
    destruct (train_batch_ok epoch N i b s p Hpf) as
      (s1 & Hrun1 & Hbt1 & Hdt1 & Hl1 & H11 & H51); try done.
    { rewrite Hmode. specialize (Hok (Pass.model p)).
      by apply Forall_cons in Hok as [Hb _]. }
    cbv zeta in Hrun1. rewrite Hmode in Hrun1.
    set (p1 := Pass.MkProc _ _ _ _ _ _) in Hrun1.
    destruct (IH idxs s1 p1) as (s' & lines & Hrun & Hlines);
      try done; [|lia|].
    { intros m. specialize (Hok m). by apply Forall_cons in Hok as [_ Hbs]. }
    exists s',
      ((if decide (i mod print_freq = 0)
        then [Pass.train_msg fmt_f epoch i N s1] else []) ++ lines).
    cbv zeta in *. split.
    + simpl. unfold bind at 1. rewrite Hrun1, Hrun. subst p1. simpl.
      rewrite <- surjective_pairing, <- app_assoc, written_app.
      do 2 f_equal. lia.
    + rewrite filter_cons, length_app, Hlines.
      by destruct (decide (i mod print_freq = 0)).
Qed.

(** X18: on a loader whose batches it accepts, with a print frequency other
    than 0, [train] returns with the model in training mode, after one
    forward pass and one optimizer step per batch, in loader order.  It
    prints one line per batch index that is a multiple of the print
    frequency, and appends to the log file exactly the lines it prints, each
    followed by a line end. *)
Theorem train_steps_every_batch_and_logs_what_it_prints
    (train_loader : list (Pass.Batch Input)) (epoch : Z)
    (p : Pass.Proc ModelState Buffers) :
  print_freq <> 0 ->
  (forall m, Forall (batch_ok true m) train_loader) ->
  exists lines : list string,
    length lines = length (Pass.printing_indices print_freq
                             (length train_loader)) /\
    let mo := Pass.train_steps forward sgd_step train_loader
                (Pass.model p, Pass.optimizer p) in
    train train_loader epoch p
    = Returns tt
        (Pass.MkProc (fst mo) true (snd mo)
           (Pass.stdout p ++ lines) (written (Pass.fid p) lines)
           (Pass.clock p + 1 + 3 * length train_loader)%nat).
Proof.
  intros Hpf Hok.
  set (p0 := Pass.MkProc (Pass.model p) true (Pass.optimizer p)
               (Pass.stdout p) (Pass.fid p) (Datatypes.S (Pass.clock p))).
  destruct (train_loop epoch (Z.of_nat (length train_loader)) train_loader
              (range 0 (Z.of_nat (length train_loader)))
              (Pass.MkTrainLocals AverageMeter.init AverageMeter.init
                 AverageMeter.init AverageMeter.init AverageMeter.init
                 (readings (Pass.clock p)))
              p0 Hpf Hok)
    as (s' & lines & Hrun & Hlines); try done.
  { apply enumerate_length. }
  exists lines. split; [exact Hlines|].
  cbv zeta in *. unfold Pass.train, bind at 1, Pass.set_training, modify.
  unfold bind at 1, Pass.time_time. simpl.
  unfold bind at 1. unfold enumerate. fold p0. rewrite Hrun.
  unfold ret. subst p0. simpl. do 2 f_equal. lia.
Qed.

(** X19: with [args.print_freq = 0] neither pass gets beyond its first
    batch: [i % args.print_freq] raises [ZeroDivisionError].  By then
    [train] has made the first optimizer step; nothing has been printed or
    written to the log, and [validate] never writes its summary. *)
Theorem print_freq_zero_stops_at_first_batch (b : Pass.Batch Input)
    (rest : list (Pass.Batch Input)) (epoch : Z)
    (p : Pass.Proc ModelState Buffers) :
  print_freq = 0 ->
  batch_ok true (Pass.model p) b ->
  batch_ok false (Pass.model p) b ->
  (let mo := sgd_step (snd (forward true (Pass.model p) (Pass.input b)))
               (Pass.optimizer p) (Pass.input b) (Pass.target b) in
   train (b :: rest) epoch p
   = Raises ZeroDivisionError
       (Pass.MkProc (fst mo) true (snd mo) (Pass.stdout p) (Pass.fid p)
          (Pass.clock p + 4)%nat)) /\
  validate (b :: rest) p
  = Raises ZeroDivisionError
      (Pass.MkProc (snd (forward false (Pass.model p) (Pass.input b))) false
         (Pass.optimizer p) (Pass.stdout p) (Pass.fid p)
         (Pass.clock p + 3)%nat).
Proof.
  intros Hpf Htrain Hval.
  pose proof (batch_ok_size _ _ _ Hval) as Hn.
  assert (Hinit : 0 <= AverageMeter.count (AverageMeter.init (V := V)))
    by done.
  split.
  - cbv zeta.
    destruct (update_ok (sub (readings (Datatypes.S (Pass.clock p)))
                           (readings (Pass.clock p))) 1
                AverageMeter.init Hinit)
      as (data_time & Hdata_time & _); [lia|].
    destruct (update_ok
                (criterion (fst (forward true (Pass.model p) (Pass.input b)))
                   (Pass.target b))
                (size0 (Pass.input b)) AverageMeter.init Hinit Hn)
      as (losses & Hlosses & _).
    destruct (update_ok (prec_at 1 true (Pass.model p) b)
                (size0 (Pass.input b)) AverageMeter.init Hinit Hn)
      as (top1 & Htop1 & _).
    destruct (update_ok (prec_at 5 true (Pass.model p) b)
                (size0 (Pass.input b)) AverageMeter.init Hinit Hn)
      as (top5 & Htop5 & _).
    destruct (update_ok
                (sub (readings (Datatypes.S (Datatypes.S (Pass.clock p))))
                   (readings (Pass.clock p))) 1
                AverageMeter.init Hinit)
      as (batch_time & Hbatch_time & _); [lia|].
    unfold Pass.train, bind at 1, Pass.set_training, modify.
    unfold bind at 1, Pass.time_time at 1.
    cbn [fst snd Pass.model Pass.training Pass.clock Pass.stdout Pass.fid
         Pass.optimizer].
    unfold bind at 1. unfold enumerate.
    rewrite enumerate_range_cons. cbn [combine for_loop].
    unfold bind at 1.
    unfold Pass.train_batch, bind, Pass.time_time at 1.
    cbn [fst snd Pass.model Pass.training Pass.clock Pass.stdout Pass.fid
         Pass.optimizer Pass.t_end Pass.t_data_time Pass.t_losses Pass.t_top1
         Pass.t_top5 Pass.t_batch_time].
    unfold Pass.call_update at 1. rewrite Hdata_time.
    unfold Pass.model_call, of_res.
    cbn [fst snd Pass.model Pass.training Pass.clock Pass.stdout Pass.fid
         Pass.optimizer].
    rewrite (accuracy_top1_top5 _ _ _ Htrain). unfold ret at 1.
    cbv beta iota.
    unfold Pass.call_update. rewrite Hlosses, Htop1, Htop5.
    unfold Pass.optimizer_step, modify, Pass.time_time.
    cbn [fst snd Pass.model Pass.training Pass.clock Pass.stdout Pass.fid
         Pass.optimizer].
    rewrite Hbatch_time. unfold py_mod. rewrite decide_True by done.
    unfold raise. simpl. do 2 f_equal. lia.
  - destruct (update_ok
                (criterion (fst (forward false (Pass.model p) (Pass.input b)))
                   (Pass.target b))
                (size0 (Pass.input b)) AverageMeter.init Hinit Hn)
      as (losses & Hlosses & _).
    destruct (update_ok (prec_at 1 false (Pass.model p) b)
                (size0 (Pass.input b)) AverageMeter.init Hinit Hn)
      as (top1 & Htop1 & _).
    destruct (update_ok (prec_at 5 false (Pass.model p) b)
                (size0 (Pass.input b)) AverageMeter.init Hinit Hn)
      as (top5 & Htop5 & _).
    destruct (update_ok
                (sub (readings (Datatypes.S (Pass.clock p)))
                   (readings (Pass.clock p))) 1
                AverageMeter.init Hinit)
      as (batch_time & Hbatch_time & _); [lia|].
    unfold Pass.validate, bind at 1, Pass.set_training, modify.
    unfold bind at 1, Pass.time_time at 1.
    cbn [fst snd Pass.model Pass.training Pass.clock Pass.stdout Pass.fid
         Pass.optimizer].
    unfold bind at 1. unfold enumerate.
    rewrite enumerate_range_cons. cbn [combine for_loop].
    unfold bind at 1.
    unfold Pass.validate_batch, bind, Pass.model_call, of_res.
    cbn [fst snd Pass.model Pass.training Pass.clock Pass.stdout Pass.fid
         Pass.optimizer Pass.v_end Pass.v_losses Pass.v_top1
         Pass.v_top5 Pass.v_batch_time].
    rewrite (accuracy_top1_top5 _ _ _ Hval). unfold ret at 1.
    cbv beta iota.
    unfold Pass.call_update. rewrite Hlosses, Htop1, Htop5.
    unfold Pass.time_time.
    cbn [fst snd Pass.model Pass.training Pass.clock Pass.stdout Pass.fid
         Pass.optimizer].
    rewrite Hbatch_time. unfold py_mod. rewrite decide_True by done.
    unfold raise. simpl. do 2 f_equal. lia.
Qed.

(** X20: both passes ask [accuracy] for the top 5.  When the scores of the
    first batch have fewer than five classes the pass ends there with a
    [RuntimeError], after the forward pass and before any optimizer step;
    nothing has been printed or written. *)
Theorem fewer_than_five_classes_raises (b : Pass.Batch Input)
    (rest : list (Pass.Batch Input)) (epoch : Z)
    (p : Pass.Proc ModelState Buffers) :
  (ncols (fst (forward true (Pass.model p) (Pass.input b))) < 5)%nat ->
  (ncols (fst (forward false (Pass.model p) (Pass.input b))) < 5)%nat ->
  train (b :: rest) epoch p
  = Raises RuntimeError
      (Pass.MkProc (snd (forward true (Pass.model p) (Pass.input b))) true
         (Pass.optimizer p) (Pass.stdout p) (Pass.fid p)
         (Pass.clock p + 2)%nat) /\
  validate (b :: rest) p
  = Raises RuntimeError
      (Pass.MkProc (snd (forward false (Pass.model p) (Pass.input b))) false
         (Pass.optimizer p) (Pass.stdout p) (Pass.fid p)
         (Pass.clock p + 1)%nat).
Proof.
  intros Htrain Hval.
  assert (Hinit : 0 <= AverageMeter.count (AverageMeter.init (V := V)))
    by done.
  split.
  - destruct (update_ok (sub (readings (Datatypes.S (Pass.clock p)))
                           (readings (Pass.clock p))) 1
                AverageMeter.init Hinit)
      as (data_time & Hdata_time & _); [lia|].
    unfold Pass.train, bind at 1, Pass.set_training, modify.
    unfold bind at 1, Pass.time_time at 1.
    cbn [fst snd Pass.model Pass.training Pass.clock Pass.stdout Pass.fid
         Pass.optimizer].
    unfold bind at 1. unfold enumerate.
    rewrite enumerate_range_cons. cbn [combine for_loop].
    unfold bind at 1.
    unfold Pass.train_batch, bind, Pass.time_time at 1.
    cbn [fst snd Pass.model Pass.training Pass.clock Pass.stdout Pass.fid
         Pass.optimizer Pass.t_end Pass.t_data_time Pass.t_losses Pass.t_top1
         Pass.t_top5 Pass.t_batch_time].
    unfold Pass.call_update at 1. rewrite Hdata_time.
    unfold Pass.model_call, of_res.
    cbn [fst snd Pass.model Pass.training Pass.clock Pass.stdout Pass.fid
         Pass.optimizer].
    rewrite accuracy_k_too_large by (simpl; lia).
    unfold raise. simpl. do 2 f_equal. lia.
  - unfold Pass.validate, bind at 1, Pass.set_training, modify.
    unfold bind at 1, Pass.time_time at 1.
    cbn [fst snd Pass.model Pass.training Pass.clock Pass.stdout Pass.fid
         Pass.optimizer].
    unfold bind at 1. unfold enumerate.
    rewrite enumerate_range_cons. cbn [combine for_loop].
    unfold bind at 1.
    unfold Pass.validate_batch, bind, Pass.model_call, of_res.
    cbn [fst snd Pass.model Pass.training Pass.clock Pass.stdout Pass.fid
         Pass.optimizer Pass.v_end Pass.v_losses Pass.v_top1
         Pass.v_top5 Pass.v_batch_time].
    rewrite accuracy_k_too_large by (simpl; lia).
    unfold raise. simpl. do 2 f_equal. lia.
Qed.

End PassFacts.

(** ** The properties above at sample inputs *)

(** A best save into a directory that holds the suffix-0 milestone. *)
Lemma save_checkpoint_frame_witness :
  save_checkpoint 1 (sample_checkpoint 81) true "./" default_filename false
    dir_with_milestone_0
  = Returns tt
      (after_latest_and_best (sample_checkpoint 81) true "./"
         dir_with_milestone_0) /\
  after_latest_and_best (sample_checkpoint 81) true "./" dir_with_milestone_0
    !! "./model_must_save_0.pth.tar"
  = dir_with_milestone_0 !! "./model_must_save_0.pth.tar".
Proof.
  assert (Hrun :
    save_checkpoint 1 (sample_checkpoint 81) true "./" default_filename false
      dir_with_milestone_0
    = Returns tt
        (after_latest_and_best (sample_checkpoint 81) true "./"
           dir_with_milestone_0)) by reflexivity.
  split; [exact Hrun|].
  apply (proj1 (save_checkpoint_frame 1%nat _ _ _ _ _ _ Hrun)).
  - discriminate.
  - intros _. discriminate.
  - intros Hfalse. discriminate Hfalse.
Defined.

(** The same call: the milestone that was there is still there. *)
Lemma save_checkpoint_keeps_milestones_witness :
  save_checkpoint 1 (sample_checkpoint 81) true "./" default_filename false
    dir_with_milestone_0
  = Returns tt
      (after_latest_and_best (sample_checkpoint 81) true "./"
         dir_with_milestone_0) /\
  after_latest_and_best (sample_checkpoint 81) true "./" dir_with_milestone_0
    !! os_path_join "./" (must_save_filename 0)
  = Some (Pickled (sample_checkpoint 80)).
Proof.
  assert (Hrun :
    save_checkpoint 1 (sample_checkpoint 81) true "./" default_filename false
      dir_with_milestone_0
    = Returns tt
        (after_latest_and_best (sample_checkpoint 81) true "./"
           dir_with_milestone_0)) by reflexivity.
  split; [exact Hrun|].
  apply (proj1 (save_checkpoint_keeps_milestones 1%nat _ _ _ _ _ _ Hrun)).
  reflexivity.
Defined.

(** A milestone save into an empty directory: the write succeeds and the
    call returns. *)
Lemma save_checkpoint_returns_iff_witness :
  torch_save (sample_checkpoint 80) (os_path_join "./" default_filename) ∅
  = Returns tt (<["./checkpoint.pth.tar" := Pickled (sample_checkpoint 80)]> ∅) /\
  exists fs',
    save_checkpoint 1 (sample_checkpoint 80) false "./" default_filename true ∅
    = Returns tt fs'.
Proof.
  assert (Hsave :
    torch_save (sample_checkpoint 80) (os_path_join "./" default_filename) ∅
    = Returns tt
        (<["./checkpoint.pth.tar" := Pickled (sample_checkpoint 80)]> ∅))
    by reflexivity.
  split; [exact Hsave|].
  apply (proj1 (save_checkpoint_returns_iff 0%nat _ false _ true _ _ Hsave)).
  right. reflexivity.
Defined.

(** A fresh run of 85 epochs: it passes epoch index 79. *)
Lemma milestone_only_after_epoch_80_witness :
  for_each (range 0 85) (main_epoch sample_train sample_validate 1)
    (sample_world 85 "")
  = Returns tt sample_world_after_85 /\
  files (sample_world 85 "") !! milestone_path (sample_world 85 "") 0 = None /\
  exists c,
    files sample_world_after_85 !! milestone_path (sample_world 85 "") 0
    = Some (Pickled c) /\
    ckpt_epoch c = 80.
Proof.
  assert (Hrun :
    for_each (range 0 85) (main_epoch sample_train sample_validate 1)
      (sample_world 85 "")
    = Returns tt sample_world_after_85) by (vm_compute; reflexivity).
  split; [exact Hrun|].
  apply (proj2 (proj2 (milestone_only_after_epoch_80
                         sample_train sample_validate 1%nat 0 85 _ _ Hrun))).
  lia.
Defined.

(** A fresh run of 40 epochs. *)
Lemma complete_run_latest_records_last_epoch_witness :
  for_each (range 0 40) (main_epoch sample_train sample_validate 1)
    (sample_world 40 "")
  = Returns tt sample_world_after_40 /\
  args sample_world_after_40 = args (sample_world 40 "") /\
  latest_epoch sample_world_after_40 = Some 40.
Proof.
  assert (Hrun :
    for_each (range 0 40) (main_epoch sample_train sample_validate 1)
      (sample_world 40 "")
    = Returns tt sample_world_after_40) by (vm_compute; reflexivity).
  split; [exact Hrun|].
  destruct (complete_run_latest_records_last_epoch
              sample_train sample_validate 1%nat 0 40 _ _ Hrun)
    as (Hargs & Hlatest & _).
  split; [exact Hargs|]. apply Hlatest. lia.
Defined.

(** The same run, started on an empty directory: the best slot it leaves
    holds the model whose metric it records. *)
Lemma best_slot_holds_best_model_witness :
  for_each (range 0 40) (main_epoch sample_train sample_validate 1)
    (sample_world 40 "")
  = Returns tt sample_world_after_40 /\
  best_slot_consistent sample_validate (sample_world 40 "") /\
  best_slot_consistent sample_validate sample_world_after_40.
Proof.
  assert (Hrun :
    for_each (range 0 40) (main_epoch sample_train sample_validate 1)
      (sample_world 40 "")
    = Returns tt sample_world_after_40) by (vm_compute; reflexivity).
  assert (Hbefore : best_slot_consistent sample_validate (sample_world 40 "")).
  { intros c Hc. discriminate Hc. }
  split; [exact Hrun|]. split; [exact Hbefore|].
  exact (best_slot_holds_best_model sample_train sample_validate 1%nat
           (range 0 40) _ _ Hrun Hbefore).
Defined.

(** The first epoch of a fresh run, and a process resuming from what it
    saved. *)
Lemma resume_restores_saved_state_witness :
  main_epoch sample_train sample_validate 1 0 (sample_world 5 "")
  = Returns tt sample_world_after_epoch_0 /\
  exists w3,
    main_resume sample_world_resuming = Returns tt w3 /\
    model w3 = model sample_world_after_epoch_0 /\
    optimizer w3 = optimizer sample_world_after_epoch_0 /\
    best_prec1 w3 = best_prec1 sample_world_after_epoch_0 /\
    start_epoch (args w3) = 1.
Proof.
  assert (Hrun :
    main_epoch sample_train sample_validate 1 0 (sample_world 5 "")
    = Returns tt sample_world_after_epoch_0) by (vm_compute; reflexivity).
  split; [exact Hrun|].
  destruct (resume_restores_saved_state sample_train sample_validate 1%nat 0
              (sample_world 5 "") sample_world_after_epoch_0
              sample_world_resuming Hrun eq_refl eq_refl)
    as (w3 & Hres & Hmodel & Hopt & Hbest & Hstart & _).
  exists w3. repeat split; assumption.
Defined.

(** A run with [--ctype 7] and no resume path. *)
Lemma main_without_training_saves_no_checkpoint_witness :
  (ctype (args sample_world_ctype_7) <> 10 /\
   ctype (args sample_world_ctype_7) <> 100) /\
  main sample_train sample_validate 1 sample_world_ctype_7
  = Returns tt
      (MkWorld ∅ ["Unknown CIFAR type!"] (args sample_world_ctype_7)
         (Qc_of_Z 0) ([] : list Z) sample_optimizer) /\
  latest_epoch
    (MkWorld ∅ ["Unknown CIFAR type!"] (args sample_world_ctype_7)
       (Qc_of_Z 0) ([] : list Z) sample_optimizer)
  = latest_epoch sample_world_ctype_7.
Proof.
  assert (Hctype : ctype (args sample_world_ctype_7) <> 10 /\
                   ctype (args sample_world_ctype_7) <> 100)
    by (split; discriminate).
  assert (Hrun :
    main sample_train sample_validate 1 sample_world_ctype_7
    = Returns tt
        (MkWorld ∅ ["Unknown CIFAR type!"] (args sample_world_ctype_7)
           (Qc_of_Z 0) ([] : list Z) sample_optimizer))
    by (vm_compute; reflexivity).
  split; [exact Hctype|]. split; [exact Hrun|].
  exact (proj1 (proj1 (main_without_training_saves_no_checkpoint
                         sample_train sample_validate 1%nat
                         sample_world_ctype_7)
                  _ (or_intror Hctype) Hrun)).
Defined.

(** 50 per cent of two examples and 100 per cent of one: the mean lies
    between 50 and 100. *)
Lemma mean_between_bounds_witness :
  exists self',
    bind AverageMeter.reset
      (fun _ => AverageMeter.updates sample_calls_exact) AverageMeter.init
    = Returns tt self' /\
    (Qc_of_Z 50 <= AverageMeter.avg self')%Qc /\
    (AverageMeter.avg self' <= Qc_of_Z 100)%Qc.
Proof.
  apply (mean_between_bounds sample_calls_exact (Qc_of_Z 50) (Qc_of_Z 100)).
  - repeat constructor.
  - discriminate.
  - repeat constructor; by vm_compute.
Defined.

(** The same two calls in both orders. *)
Lemma mean_order_independent_witness :
  exists self1 self2,
    bind AverageMeter.reset
      (fun _ => AverageMeter.updates sample_calls_exact) AverageMeter.init
    = Returns tt self1 /\
    bind AverageMeter.reset
      (fun _ => AverageMeter.updates (rev sample_calls_exact))
      AverageMeter.init
    = Returns tt self2 /\
    AverageMeter.sum self1 = AverageMeter.sum self2 /\
    AverageMeter.count self1 = AverageMeter.count self2 /\
    AverageMeter.avg self1 = AverageMeter.avg self2.
Proof.
  apply (mean_order_independent sample_calls_exact (rev sample_calls_exact)).
  - repeat constructor.
  - apply perm_swap.
Defined.

(** The sample scores with targets [1, 0] and [topk=(1, 3)], in binary64:
    both examples are counted at [k = 1] already. *)
Lemma accuracy_counts_in_range_and_monotone_witness :
  exists q : float,
    div_int (of_int 100) 2 = Some q /\
    accuracy float_gt sample_scores [1; 0] [1%nat; 3%nat]
    = Ok [mul_int q (examples_correct_at float_gt 1 sample_scores [1; 0]);
          mul_int q (examples_correct_at float_gt 3 sample_scores [1; 0])] /\
    examples_correct_at float_gt 1 sample_scores [1; 0]
    <= examples_correct_at float_gt 3 sample_scores [1; 0] <= 2.
Proof.
  destruct (accuracy_counts_in_range_and_monotone (V := float) float_gt
              sample_scores [1; 0] [1%nat; 3%nat])
    as (q & Hq & Hrun & Hrange & Hmono).
  - discriminate.
  - discriminate.
  - reflexivity.
  - simpl. lia.
  - exists q. split; [exact Hq|]. split; [exact Hrun|]. split.
    + apply Hmono. lia.
    + apply (Hrange 3%nat).
Defined.

(** The sample scores with all three classes requested, in binary64. *)
Lemma accuracy_all_classes_counts_every_example_witness :
  exists q : float,
    div_int (of_int 100) 2 = Some q /\
    accuracy float_gt sample_scores [1; 0] [ncols sample_scores]
    = Ok [mul_int q 2].
Proof.
  apply (accuracy_all_classes_counts_every_example (V := float) float_gt
           sample_scores [1; 0]).
  - repeat constructor.
  - repeat constructor; simpl; lia.
  - reflexivity.
  - discriminate.
Defined.

Lemma sample_loader_ok (mode : bool) (m : nat) :
  Forall (Pass.batch_ok sample_size0 sample_forward mode m) sample_loader.
Proof.
  repeat constructor; try discriminate; simpl; lia.
Qed.

(** A validation pass over the sample loader, printing at every batch. *)
Lemma validate_returns_top1_mean_witness :
  exists (top1 top5 : AverageMeter.t Qc) (lines : list string),
    AverageMeter.updates
      (Pass.prec_calls Z.gtb sample_size0 sample_forward 1 false 0%nat
         sample_loader)
      AverageMeter.init = Returns tt top1 /\
    length lines = 2%nat /\
    exists p',
      sample_validate_pass 1 sample_loader sample_proc
      = Returns (AverageMeter.avg top1) p' /\
      Pass.stdout p'
      = lines ++ [dashes;
                  "T1 " +:+ sample_fmt_f 3 (AverageMeter.avg top1) +:+
                  " T5 " +:+ sample_fmt_f 3 (AverageMeter.avg top5);
                  dashes].
Proof.
  destruct (validate_returns_top1_mean Z.gtb sample_size0 sample_forward
              sample_criterion sample_readings Qcminus sample_fmt_f 1
              sample_loader sample_proc)
    as (top1 & top5 & lines & Hu1 & _ & Hlines & Hrun).
  - discriminate.
  - intros m x. reflexivity.
  - apply sample_loader_ok.
  - exists top1, top5, lines. split; [exact Hu1|]. split; [exact Hlines|].
    eexists. split; [exact Hrun|]. reflexivity.
Defined.

(** A training pass over the sample loader, printing at every batch. *)
Lemma train_steps_every_batch_and_logs_what_it_prints_witness :
  exists lines : list string,
    length lines = 2%nat /\
    sample_train_pass 1 sample_loader 0 sample_proc
    = Returns tt
        (Pass.MkProc 4%nat true sample_optimizer lines (written "" lines)
           7%nat).
Proof.
  destruct (train_steps_every_batch_and_logs_what_it_prints Z.gtb
              sample_size0 sample_forward sample_criterion sample_sgd_step
              sample_readings Qcminus sample_fmt_f 1 sample_loader 0
              sample_proc)
    as (lines & Hlines & Hrun).
  - discriminate.
  - intros m. apply sample_loader_ok.
  - exists lines. split; [exact Hlines|exact Hrun].
Defined.

(** The sample loader with [print_freq = 0]. *)
Lemma print_freq_zero_stops_at_first_batch_witness :
  sample_train_pass 0 sample_loader 0 sample_proc
  = Raises ZeroDivisionError
      (Pass.MkProc 2%nat true sample_optimizer [] "" 4%nat) /\
  sample_validate_pass 0 sample_loader sample_proc
  = Raises ZeroDivisionError
      (Pass.MkProc 0%nat false sample_optimizer [] "" 3%nat).
Proof.
  apply (print_freq_zero_stops_at_first_batch Z.gtb sample_size0
           sample_forward sample_criterion sample_sgd_step sample_readings
           Qcminus sample_fmt_f 0 _ _ 0 sample_proc).
  - reflexivity.
  - repeat constructor; try discriminate; simpl; lia.
  - repeat constructor; try discriminate; simpl; lia.
Defined.

(** A loader that starts with a batch over three classes. *)
Lemma fewer_than_five_classes_raises_witness :
  sample_train_pass 1 (sample_batch_3_classes :: sample_loader) 0 sample_proc
  = Raises RuntimeError
      (Pass.MkProc 1%nat true sample_optimizer [] "" 2%nat) /\
  sample_validate_pass 1 (sample_batch_3_classes :: sample_loader) sample_proc
  = Raises RuntimeError
      (Pass.MkProc 0%nat false sample_optimizer [] "" 1%nat).
Proof.
  apply (fewer_than_five_classes_raises Z.gtb sample_size0 sample_forward
           sample_criterion sample_sgd_step sample_readings Qcminus
           sample_fmt_f 1 _ _ 0 sample_proc).
  - simpl. lia.
  - simpl. lia.
Defined.
